(** * dockerized-ChromaDB: the retry wrapper and the command-line client

    A shallow embedding of [app/client.py] (class [ChromaDBClient]) and of
    [local_client.py].  Both scripts are sequences of blocking calls to an
    external vector database; the embedding threads an explicit [world]
    through every call.  The world holds the mutable field [self.client],
    the collections known to the remote service, the script of observable
    effects ([trace]: log lines, printed lines, sleeps and requests) and
    the counters that select the next answer of the service. *)

From Stdlib Require Import ZArith QArith.
From stdpp Require Import base option list gmap strings pretty.

Close Scope Q_scope.
Open Scope Z_scope.

(** ** Python values *)

(** An exception object: its class and the text [str(e)] yields. *)
Inductive exn := Exception (cls : string) (msg : string).

Definition str (e : exn) : string :=
  match e with Exception _ msg => msg end.

Definition ConnectionError (msg : string) : exn := Exception "ConnectionError" msg.
Definition AttributeError (msg : string) : exn := Exception "AttributeError" msg.
Definition IndexError (msg : string) : exn := Exception "IndexError" msg.
Definition ValueError (msg : string) : exn := Exception "ValueError" msg.
Definition OverflowError (msg : string) : exn := Exception "OverflowError" msg.

(** A [str] is held as its UTF-8 bytes.  [len] and slices count code
    points: every byte but those that continue a character ([10xxxxxx]). *)
Definition is_continuation (c : Ascii.ascii) : bool :=
  match c with Ascii.Ascii _ _ _ _ _ _ b6 b7 => b7 && negb b6 end.

(** [len(s)]. *)
Fixpoint py_len (s : string) : nat :=
  match s with
  | EmptyString => 0
  | String c rest => if is_continuation c then py_len rest else S (py_len rest)
  end.

(** [s[:n]]: the bytes of the first [n] code points. *)
Fixpoint py_prefix (n : nat) (s : string) : string :=
  match s with
  | EmptyString => EmptyString
  | String c rest =>
      if is_continuation c then String c (py_prefix n rest)
      else match n with
           | O => EmptyString
           | S n' => String c (py_prefix n' rest)
           end
  end.

(** Values stored in metadata and info dictionaries ([Dict[str, Any]]). *)
Inductive pyval := PStr (s : string) | PInt (z : Z).

Global Instance pyval_eq_dec : EqDecision pyval.
Proof. solve_decision. Defined.

Abbreviation pydict := (gmap string pyval).

(** [query_texts: List[str] | str]: the argument keeps its Python type. *)
Inductive query_arg := QStr (s : string) | QList (l : list string).

(** The dictionary [collection.query] answers with. *)
Record query_result := QueryResult {
  res_documents : list (list string);
  res_metadatas : list (list pydict);
  res_distances : list (list Q)
}.

(** The dictionary [collection.peek] answers with. *)
Record sample := Sample {
  sample_ids : list string;
  sample_documents : list string;
  sample_metadatas : list pydict
}.

(** ** Observable effects *)

Inductive level := INFO | WARNING | ERROR.

(** Log records of [app/client.py], one constructor per format string. *)
Inductive message :=
| Connecting (host : string) (port : Z) (attempt : Z) (max_retries : Z)
| Connected
| ConnectionAttemptFailed (attempt : Z) (err : string)
| FailedToConnect (max_retries : Z)
| CollectionAccessed (name : string)
| CollectionAttemptFailed (attempt : Z) (err : string)
| FailedToAccess (max_retries : Z)
| Reconnecting
| AddedDocuments (n : nat) (name : string)
| FailedToAdd (err : string)
| Queried (name : string)
| FailedToQuery (err : string).

(** Lines printed by [local_client.py], one constructor per format string. *)
Inductive output :=
| OutConnecting (host : string) (port : Z)
| OutConnected
| OutConnectFailed (err : string)
| OutNoCollections
| OutFound (n : nat)
| OutListed (idx : nat) (name : string)
| OutCollection (name : string)
| OutCount (count : Z)
| OutSampleHeader
| OutSampleId (idx : nat) (doc_id : string)
| OutSampleContent (content : string)
| OutSampleMetadata (metadata : pydict)
| OutInfoError (err : string)
| OutQuery (query_text : string)
| OutFilteredQuery (query_text filter_key filter_value : string)
| OutTop (n_results : Z)
| OutNoMatch
| OutHit (idx : nat) (similarity : Q)
| OutHitDocument (doc : string)
| OutHitMetadata (metadata : pydict)
| OutQueryError (err : string)
| OutFilteredQueryError (err : string)
| OutNotInitialized
| OutNoAccess (name : string).

Inductive event :=
| EvLog (lvl : level) (msg : message)
| EvPrint (line : output)
| EvSleep (secs : Z)
| EvHttpClient (host : string) (port : Z)
| EvHeartbeat (c : nat)
| EvGetOrCreate (name : string) (metadata : option pydict)
| EvAdd (coll : string) (documents : list string)
        (metadatas : option (list pydict)) (ids : list string)
        (embeddings : option (list (list Q)))
| EvQuery (coll : string) (query_texts : query_arg) (n_results : Z)
          (where_ where_document : option pydict)
| EvListCollections
| EvGetCollection (name : string)
| EvCount (coll : string)
| EvPeek (coll : string) (limit : Z).

(** ** The remote service *)

(** What one connection attempt meets: the constructor
    [chromadb.HttpClient] raises, or it returns a handle whose [heartbeat]
    raises, or the service answers. *)
Inductive conn_outcome :=
| CtorRaises (e : exn)
| HeartbeatRaises (e : exn)
| Alive.

(** The answers of the service and of [uuid.uuid4], by call number, and
    the refusal of a long sleep by the operating system, by duration.
    Every sequence of failures and answers is some [service]. *)
Record service := Service {
  connect_outcome : nat → conn_outcome;
  rpc_fault : nat → option exn;
  uuid4 : nat → string;
  count_reply : nat → Z;
  peek_reply : nat → sample;
  query_reply : nat → query_result;
  sleep_fault : Z → option exn
}.

Record world := World {
  client : option nat;
  conn_calls : nat;
  rpc_calls : nat;
  uuid_calls : nat;
  collections : list string;
  trace : list event
}.

(** ** Control flow: return, raise, [sys.exit] *)

Inductive outcome (A : Type) :=
| Returned (a : A)
| Raised (e : exn)
| Exited (status : Z)
| OutOfFuel.
Arguments Returned {A} a.
Arguments Raised {A} e.
Arguments Exited {A} status.
Arguments OutOfFuel {A}.

Definition M (A : Type) : Type := world → outcome A * world.

Global Instance M_ret : MRet M := λ A a w, (Returned a, w).

Global Instance M_bind : MBind M := λ A B f m w,
  match m w with
  | (Returned a, w') => f a w'
  | (Raised e, w') => (Raised e, w')
  | (Exited s, w') => (Exited s, w')
  | (OutOfFuel, w') => (OutOfFuel, w')
  end.

Global Instance M_throw : MThrow exn M := λ A e w, (Raised e, w).

(** [sys.exit(status)] raises [SystemExit], which is no [Exception]. *)
Definition sys_exit {A} (status : Z) : M A := λ w, (Exited status, w).

Definition out_of_fuel {A} : M A := λ w, (OutOfFuel, w).

(** [try: body except Exception as e: handler e]. *)
Definition try_except {A} (body : M A) (handler : exn → M A) : M A := λ w,
  match body w with
  | (Raised e, w') => handler e w'
  | r => r
  end.

(** What a loop body tells its loop: [return a], or go round again. *)
Inductive ctl (A St : Type) := Break (a : A) | Continue (s : St).
Arguments Break {A St} a.
Arguments Continue {A St} s.

(** [while cond(s): body]; [None] when the loop ends by its condition. *)
Fixpoint while_loop {A St} (fuel : nat) (cond : St → bool)
    (body : St → M (ctl A St)) (s : St) : M (option A) :=
  if cond s then
    match fuel with
    | O => out_of_fuel
    | S fuel' =>
        r ← body s;
        match r with
        | Break a => mret (Some a)
        | Continue s' => while_loop fuel' cond body s'
        end
    end
  else mret None.

(** The exit status the operating system sees. *)
Definition exit_status {A} (o : outcome A) : option Z :=
  match o with
  | Returned _ => Some 0
  | Raised _ => Some 1
  | Exited s => Some s
  | OutOfFuel => None
  end.

(** ** Primitive effects *)

Definition emit (ev : event) : M unit := λ w,
  (Returned tt,
   World (client w) (conn_calls w) (rpc_calls w) (uuid_calls w)
         (collections w) (trace w ++ [ev])).

Definition log (lvl : level) (msg : message) : M unit := emit (EvLog lvl msg).
Definition print (line : output) : M unit := emit (EvPrint line).

Definition get_client : M (option nat) := λ w, (Returned (client w), w).

Definition set_client (c : option nat) : M unit := λ w,
  (Returned tt,
   World c (conn_calls w) (rpc_calls w) (uuid_calls w) (collections w) (trace w)).

(** The longest duration, in seconds, whose count of nanoseconds fits the
    64-bit integer [time.sleep] converts its argument to:
    [(2^63 - 1) / 10^9]. *)
Definition SLEEP_MAX : Z := 9223372036.

(** A duration every platform sleeps: below it the operating system is
    not asked whether it accepts the deadline. *)
Definition SLEEP_SURE : Z := 100000000.

Section Service.

Variable svc : service.

(** What [time.sleep(secs)] raises, for an integer [secs]: the conversion
    to nanoseconds raises [OverflowError] when the count does not fit; a
    negative duration is then rejected with [ValueError]; a duration of
    years may be refused by the operating system ([OSError] on Linux once
    the deadline passes the range of its clock), which is an answer of
    the platform. *)
Definition sleep_error (secs : Z) : option exn :=
  if (secs <? - SLEEP_MAX) || (SLEEP_MAX <? secs) then
    Some (OverflowError "timestamp too large to convert to C _PyTime_t")
  else if secs <? 0 then Some (ValueError "sleep length must be non-negative")
  else if secs <=? SLEEP_SURE then None
  else sleep_fault svc secs.

(** [time.sleep(secs)]. *)
Definition time_sleep (secs : Z) : M unit :=
  match sleep_error secs with
  | Some e => mthrow e
  | None => emit (EvSleep secs)
  end.

(** [chromadb.HttpClient(host, port, settings)]: the handle is the number
    of the connection attempt that made it. *)
Definition HttpClient (host : string) (port : Z) : M nat := λ w,
  let k := conn_calls w in
  let w' := World (client w) (S k) (rpc_calls w) (uuid_calls w)
                  (collections w) (trace w ++ [EvHttpClient host port]) in
  match connect_outcome svc k with
  | CtorRaises e => (Raised e, w')
  | _ => (Returned k, w')
  end.

Definition heartbeat (c : nat) : M unit := λ w,
  let w' := World (client w) (conn_calls w) (rpc_calls w) (uuid_calls w)
                  (collections w) (trace w ++ [EvHeartbeat c]) in
  match connect_outcome svc c with
  | HeartbeatRaises e => (Raised e, w')
  | _ => (Returned tt, w')
  end.

(** One request on an open handle: the event is recorded, the request is
    counted, and the service may fail it. *)
Definition rpc (ev : event) : M nat := λ w,
  let k := rpc_calls w in
  let w' := World (client w) (conn_calls w) (S k) (uuid_calls w)
                  (collections w) (trace w ++ [ev]) in
  match rpc_fault svc k with
  | Some e => (Raised e, w')
  | None => (Returned k, w')
  end.

End Service.

(** ** [app/client.py]: class [ChromaDBClient] *)

(** The fields [__init__] sets once; [self.client] lives in the world. *)
Record ChromaDBClient := {
  host : string;
  port : Z;
  max_retries : Z;
  retry_delay : Z;
  allow_reset : bool;
  anonymized_telemetry : bool
}.

Section Client.

Variable svc : service.
Variable self : ChromaDBClient.

(** The body of the [while] of [_connect] at [attempts]. *)
Definition connect_body (attempts : Z) : M (ctl unit Z) :=
  try_except
    (log INFO (Connecting (host self) (port self) (attempts + 1) (max_retries self));;
     c ← HttpClient svc (host self) (port self);
     set_client (Some c);;
     heartbeat svc c;;
     log INFO Connected;;
     mret (Break tt))
    (λ e,
       let attempts := attempts + 1 in
       log WARNING (ConnectionAttemptFailed attempts (str e));;
       (if attempts >=? max_retries self then
          log ERROR (FailedToConnect (max_retries self));;
          mthrow (ConnectionError ("Could not connect to ChromaDB: " +:+ str e))
        else mret tt);;
       time_sleep svc (retry_delay self);;
       mret (Continue attempts)).

Definition _connect : M unit :=
  while_loop (Z.to_nat (max_retries self))
             (λ attempts, attempts <? max_retries self) connect_body 0;;
  mret tt.

(** The service side of get-or-create.  The database is external to the
    repository; by the data model of the specification a collection is
    identified by its name and created via get-or-create semantics: an
    unknown name is registered. *)
Definition remote_get_or_create (name : string) : M string := λ w,
  (Returned name,
   if bool_decide (name ∈ collections w) then w
   else World (client w) (conn_calls w) (rpc_calls w) (uuid_calls w)
              (collections w ++ [name]) (trace w)).

(** [c.get_or_create_collection(name=..., metadata=...)] on [self.client]. *)
Definition client_get_or_create_collection (c : option nat) (name : string)
    (metadata : option pydict) : M string :=
  match c with
  | None => mthrow (AttributeError "'NoneType' object has no attribute 'get_or_create_collection'")
  | Some _ => rpc svc (EvGetOrCreate name metadata);; remote_get_or_create name
  end.

(** The body of the [while] of [get_or_create_collection] at [attempts]. *)
Definition get_or_create_body (name : string) (metadata : option pydict)
    (attempts : Z) : M (ctl (option string) Z) :=
  try_except
    (c ← get_client;
     collection ← client_get_or_create_collection c name metadata;
     log INFO (CollectionAccessed name);;
     mret (Break (Some collection)))
    (λ e,
       let attempts := attempts + 1 in
       log WARNING (CollectionAttemptFailed attempts (str e));;
       (if attempts >=? max_retries self then
          log ERROR (FailedToAccess (max_retries self));;
          mthrow e
        else mret tt);;
       time_sleep svc (retry_delay self);;
       (if attempts `mod` 2 =? 0 then
          log INFO Reconnecting;;
          _connect
        else mret tt);;
       mret (Continue attempts)).

(** [None] is Python's [None], returned when the loop ends by its
    condition. *)
Definition get_or_create_collection (name : string)
    (metadata : option pydict) : M (option string) :=
  r ← while_loop (Z.to_nat (max_retries self))
                 (λ attempts, attempts <? max_retries self)
                 (get_or_create_body name metadata) 0;
  mret (default None r).

(** [str(uuid.uuid4())]. *)
Definition uuid4_str : M string := λ w,
  (Returned (uuid4 svc (uuid_calls w)),
   World (client w) (conn_calls w) (rpc_calls w) (S (uuid_calls w))
         (collections w) (trace w)).

(** [[str(uuid.uuid4()) for _ in range(n)]]. *)
Fixpoint generate_ids (n : nat) : M (list string) :=
  match n with
  | O => mret []
  | S n' => i ← uuid4_str; rest ← generate_ids n'; mret (i :: rest)
  end.

Definition collection_add (collection : option string)
    (documents : list string) (metadatas : option (list pydict))
    (ids : list string) (embeddings : option (list (list Q))) : M unit :=
  match collection with
  | None => mthrow (AttributeError "'NoneType' object has no attribute 'add'")
  | Some c => rpc svc (EvAdd c documents metadatas ids embeddings);; mret tt
  end.

Definition collection_query (collection : option string)
    (query_texts : query_arg) (n_results : Z)
    (where_ where_document : option pydict) : M query_result :=
  match collection with
  | None => mthrow (AttributeError "'NoneType' object has no attribute 'query'")
  | Some c =>
      k ← rpc svc (EvQuery c query_texts n_results where_ where_document);
      mret (query_reply svc k)
  end.

Definition add_documents (collection_name : string) (documents : list string)
    (metadatas : option (list pydict)) (ids : option (list string))
    (embeddings : option (list (list Q))) : M unit :=
  collection ← get_or_create_collection collection_name None;
  try_except
    (ids ← match ids with
           | None => generate_ids (length documents)
           | Some ids => mret ids
           end;
     collection_add collection documents metadatas ids embeddings;;
     log INFO (AddedDocuments (length documents) collection_name))
    (λ e, log ERROR (FailedToAdd (str e));; mthrow e).

Definition query_collection (collection_name : string) (query_texts : query_arg)
    (n_results : Z) (where_ where_document : option pydict) : M query_result :=
  collection ← get_or_create_collection collection_name None;
  try_except
    (let query_texts :=
       match query_texts with
       | QStr s => QList [s]
       | QList l => QList l
       end in
     results ← collection_query collection query_texts n_results where_ where_document;
     log INFO (Queried collection_name);;
     mret results)
    (λ e, log ERROR (FailedToQuery (str e));; mthrow e).

End Client.

(** ** [local_client.py] *)

(** [l[0]]. *)
Definition index0 {A} (l : list A) : M A :=
  match l with
  | [] => mthrow (IndexError "list index out of range")
  | x :: _ => mret x
  end.

(** [for x in l: body x]. *)
Fixpoint for_each {A} (l : list A) (body : A → M unit) : M unit :=
  match l with
  | [] => mret tt
  | x :: l' => body x;; for_each l' body
  end.

(** [enumerate(l, 1)]. *)
Definition enumerate1 {A} (l : list A) : list (nat * A) :=
  zip (seq 1 (length l)) l.

(** [zip(a, b, c)]: as long as the shortest. *)
Definition zip3 {A B C} (a : list A) (b : list B) (c : list C) : list (A * B * C) :=
  zip (zip a b) c.

(** The namespace [argparse] fills. *)
Record args := Args {
  arg_host : string;
  arg_port : Z;
  arg_collection : string;
  arg_query : string
}.

Definition default_args : args := Args "localhost" 8000 "sample_collection" "space".

(** The collections the service holds, in creation order. *)
Definition remote_collections : M (list string) := λ w,
  (Returned (collections w), w).

Section LocalClient.

Variable svc : service.

Definition connect_to_chroma (host : string) (port : Z) : M nat :=
  print (OutConnecting host port);;
  try_except
    (client ← HttpClient svc host port;
     heartbeat svc client;;
     print OutConnected;;
     mret client)
    (λ e, print (OutConnectFailed (str e));; sys_exit 1).

(** [client.list_collections()]: the collections of the service, each
    standing for the object whose [.name] it is. *)
Definition client_list_collections (client : nat) : M (list string) :=
  rpc svc EvListCollections;;
  remote_collections.

(** [client.get_collection(name=...)]: unlike get-or-create, the service
    raises on a name it does not hold. *)
Definition client_get_collection (client : nat) (name : string) : M string :=
  rpc svc (EvGetCollection name);;
  known ← remote_collections;
  if bool_decide (name ∈ known) then mret name
  else mthrow (ValueError ("Collection " +:+ name +:+ " does not exist.")).

Definition collection_count (collection : string) : M Z :=
  k ← rpc svc (EvCount collection); mret (count_reply svc k).

Definition collection_peek (collection : string) (limit : Z) : M sample :=
  k ← rpc svc (EvPeek collection limit); mret (peek_reply svc k).

(** The [for] of [list_collections] from index [idx] on. *)
Fixpoint list_names (idx : nat) (cs : list string)
    (collection_names : list string) : M (list string) :=
  match cs with
  | [] => mret collection_names
  | collection :: rest =>
      let name := collection in
      print (OutListed idx name);;
      list_names (S idx) rest (collection_names ++ [name])
  end.

Definition list_collections (client : nat) : M (list string) :=
  collections ← client_list_collections client;
  match collections with
  | [] => print OutNoCollections;; mret []
  | _ => print (OutFound (length collections));; list_names 1 collections []
  end.

Definition get_collection_info (client : nat) (collection_name : string) : M pydict :=
  try_except
    (collection ← client_get_collection client collection_name;
     count ← collection_count collection;
     print (OutCollection collection_name);;
     print (OutCount count);;
     (if count >? 0 then
        sample ← collection_peek collection 3;
        print OutSampleHeader;;
        for_each
          (enumerate1 (zip3 (sample_ids sample) (sample_documents sample)
                            (sample_metadatas sample)))
          (λ '(idx, (doc_id, doc, metadata)),
             print (OutSampleId idx doc_id);;
             print (OutSampleContent
                      (py_prefix 100 doc +:+
                       (if (100 <? py_len doc)%nat then "..." else "")));;
             print (OutSampleMetadata metadata))
      else mret tt);;
     mret ({[ "name" := PStr collection_name; "count" := PInt count ]} : pydict))
    (λ e, print (OutInfoError (str e));; mret ∅).

(** The [for] that prints the hits of the first query text. *)
Definition print_hits (results : query_result) : M unit :=
  docs ← index0 (res_documents results);
  metas ← index0 (res_metadatas results);
  dists ← index0 (res_distances results);
  for_each (enumerate1 (zip3 docs metas dists))
    (λ '(idx, (doc, metadata, distance)),
       print (OutHit idx (1 - distance)%Q);;
       print (OutHitDocument doc);;
       print (OutHitMetadata metadata)).

(** [None] is Python's [None]. *)
Definition run_basic_query (client : nat) (collection_name query_text : string)
    (n_results : Z) : M (option query_result) :=
  try_except
    (collection ← client_get_collection client collection_name;
     results ← collection_query svc (Some collection) (QStr query_text)
                                n_results None None;
     print (OutQuery query_text);;
     print (OutTop n_results);;
     print_hits results;;
     mret (Some results))
    (λ e, print (OutQueryError (str e));; mret None).

Definition run_filtered_query (client : nat)
    (collection_name query_text filter_key filter_value : string)
    (n_results : Z) : M (option query_result) :=
  try_except
    (collection ← client_get_collection client collection_name;
     let where_filter : pydict := {[ filter_key := PStr filter_value ]} in
     results ← collection_query svc (Some collection) (QStr query_text)
                                n_results (Some where_filter) None;
     print (OutFilteredQuery query_text filter_key filter_value);;
     print (OutTop n_results);;
     docs ← index0 (res_documents results);
     match docs with
     | [] => print OutNoMatch;; mret None
     | _ => print_hits results;; mret (Some results)
     end)
    (λ e, print (OutFilteredQueryError (str e));; mret None).

Definition main (a : args) : M unit :=
  client ← connect_to_chroma (arg_host a) (arg_port a);
  collections ← list_collections client;
  (match collections with
   | [] => print OutNotInitialized;; sys_exit 1
   | _ => mret tt
   end);;
  collection_name ← (if bool_decide (arg_collection a ∈ collections)
                     then mret (arg_collection a)
                     else index0 collections);
  collection_info ← get_collection_info client collection_name;
  (if bool_decide (collection_info = ∅)
   then print (OutNoAccess collection_name);; sys_exit 1
   else mret tt);;
  run_basic_query client collection_name (arg_query a) 3;;
  mret tt.

End LocalClient.

(** ** Construction of the wrapper *)

(** [ChromaDBClient(host, port, max_retries, retry_delay, ...)]. *)
Definition __init__ (svc : service) (host : string) (port : Z)
    (max_retries retry_delay : Z) (allow_reset anonymized_telemetry : bool)
    : M ChromaDBClient :=
  let self := Build_ChromaDBClient host port max_retries retry_delay
                                   allow_reset anonymized_telemetry in
  set_client None;;
  _connect svc self;;
  mret self.

(** ** Reading a trace *)

(** Durations slept, in order. *)
Definition sleeps (evs : list event) : list Z :=
  omap (λ ev, match ev with EvSleep s => Some s | _ => None end) evs.

(** Handles whose liveness was checked, in order. *)
Definition heartbeats (evs : list event) : list nat :=
  omap (λ ev, match ev with EvHeartbeat c => Some c | _ => None end) evs.

(** Attempt numbers announced by [_connect], in order. *)
Definition connection_attempts (evs : list event) : list Z :=
  omap (λ ev, match ev with
              | EvLog INFO (Connecting _ _ i _) => Some i
              | _ => None
              end) evs.

(** The fields no connection attempt touches. *)
Definition same_remote (w w' : world) : Prop :=
  rpc_calls w' = rpc_calls w ∧ uuid_calls w' = uuid_calls w ∧
  collections w' = collections w.



Definition accesses (evs : list event) : list string :=
  omap (λ ev, match ev with EvGetOrCreate name _ => Some name | _ => None end) evs.

(** The collection and query text of each query sent to the service. *)
Definition dispatched_queries (evs : list event) : list (string * query_arg) :=
  omap (λ ev, match ev with
              | EvQuery c q _ _ _ => Some (c, q)
              | _ => None
              end) evs.



(** The names looked up with [get_collection], in order. *)
Definition lookups (evs : list event) : list string :=
  omap (λ ev, match ev with EvGetCollection name => Some name | _ => None end) evs.

(** The identifier lists handed to [collection.add], in order. *)
Definition added_ids (evs : list event) : list (list string) :=
  omap (λ ev, match ev with EvAdd _ _ _ ids _ => Some ids | _ => None end) evs.

(** The documents shown by the hit printer, in order. *)
Definition shown_documents (evs : list event) : list string :=
  omap (λ ev, match ev with EvPrint (OutHitDocument d) => Some d | _ => None end) evs.

(** A world after more events, nothing else changed. *)
Definition add_events (w : world) (evs : list event) : world :=
  World (client w) (conn_calls w) (rpc_calls w) (uuid_calls w)
        (collections w) (trace w ++ evs).

(** Events that are printed lines only. *)
Definition printed (evs : list event) : Prop :=
  Forall (λ ev, ∃ line, ev = EvPrint line) evs.

(** Every query sent carries [q] as a one-element list. *)
Definition wraps_single_string (q : string) (evs : list event) : Prop :=
  ∀ c arg, (c, arg) ∈ dispatched_queries evs → arg = QList [q].

(** A computation that only prints, and returns or raises. *)
Definition quiet {A} (m : M A) : Prop :=
  ∀ w, ∃ o evs, m w = (o, add_events w evs) ∧ printed evs ∧
                (∀ s, o ≠ Exited s) ∧ o ≠ OutOfFuel.

(** A computation that only prints, and returns. *)
Definition calm {A} (m : M A) : Prop :=
  ∀ w, ∃ a evs, m w = (Returned a, add_events w evs) ∧ printed evs.

(** The outcome is a result whose document list for the first query text
    is empty. *)
Definition returns_empty_result (o : outcome (option query_result)) : Prop :=
  ∃ res rest, o = Returned (Some res) ∧ res_documents res = [] :: rest.

(** ** Expected records of the connection loop

    These follow the wording of the specification: an attempt, its
    failure, a sleep before the next attempt. *)

Section ConnectRecords.

Variable svc : service.
Variable self : ChromaDBClient.

(** The exception the [k]-th connection attempt ends with, if any. *)
Definition attempt_error (k : nat) : option exn :=
  match connect_outcome svc k with
  | CtorRaises e | HeartbeatRaises e => Some e
  | Alive => None
  end.

(** The [k]-th connection attempt got a handle from the constructor. *)
Definition handle_made (k : nat) : bool :=
  match connect_outcome svc k with
  | CtorRaises _ => false
  | _ => true
  end.

(** The requests of the [k]-th connection attempt: the heartbeat is sent
    when the constructor returned a handle. *)
Definition attempt_requests (k : nat) : list event :=
  EvHttpClient (host self) (port self) ::
  match connect_outcome svc k with
  | CtorRaises _ => []
  | _ => [EvHeartbeat k]
  end.

(** A failed attempt numbered [i] (from 1). *)
Definition failed_attempt (k : nat) (i : Z) : list event :=
  EvLog INFO (Connecting (host self) (port self) i (max_retries self)) ::
  attempt_requests k ++
  [EvLog WARNING (ConnectionAttemptFailed i (from_option str "" (attempt_error k)))].

(** [m] failed attempts, each followed by a sleep, after [a] earlier ones. *)
Fixpoint retried_attempts (k : nat) (a : Z) (m : nat) : list event :=
  match m with
  | O => []
  | S m' =>
      failed_attempt k (a + 1) ++
      EvSleep (retry_delay self) :: retried_attempts (S k) (a + 1) m'
  end.

(** The attempt that succeeds. *)
Definition successful_attempt (k : nat) (i : Z) : list event :=
  [EvLog INFO (Connecting (host self) (port self) i (max_retries self));
   EvHttpClient (host self) (port self); EvHeartbeat k; EvLog INFO Connected].

End ConnectRecords.

(** ** Expected records of the get-or-create loop *)

Section AccessRecords.

Variable svc : service.
Variable self : ChromaDBClient.
Variable name : string.
Variable metadata : option pydict.

(** A failed get-or-create request numbered [i] (from 1), the [k]-th
    request to the service. *)
Definition failed_access (k : nat) (i : Z) : list event :=
  [EvGetOrCreate name metadata;
   EvLog WARNING (CollectionAttemptFailed i (from_option str "" (rpc_fault svc k)))].


(** The request that succeeds. *)
Definition successful_access : list event :=
  [EvGetOrCreate name metadata; EvLog INFO (CollectionAccessed name)].


End AccessRecords.

(** ** What makes the info lookup fail *)

(** The first exception inside the [try] of [get_collection_info], if any:
    a failed or unknown [get_collection], a failed [count], or a failed
    [peek] when the collection is not empty. *)
Definition info_failure (svc : service) (name : string) (w : world) : option exn :=
  let r := rpc_calls w in
  match rpc_fault svc r with
  | Some e => Some e
  | None =>
      if bool_decide (name ∈ collections w) then
        match rpc_fault svc (S r) with
        | Some e => Some e
        | None =>
            if count_reply svc (S r) >? 0 then rpc_fault svc (S (S r)) else None
        end
      else Some (ValueError ("Collection " +:+ name +:+ " does not exist."))
  end.

(** ** Scenarios used to exercise the theorems *)

Definition boom : exn := Exception "Exception" "boom".

Definition no_sample : sample := Sample [] [] [].
Definition one_hit : query_result := QueryResult [["d"]] [[∅]] [[0%Q]].
Definition no_hit : query_result := QueryResult [[]] [[]] [[]].

(** [uuid4] that never repeats: the [k]-th draw is [k] letters long. *)
Fixpoint letters (k : nat) : string :=
  match k with O => "" | S k' => String (Ascii.ascii_of_nat 117) (letters k') end.

(** A service that answers every request. *)
Definition healthy : service :=
  Service (λ _, Alive) (λ _, None) letters (λ _, 0) (λ _, no_sample) (λ _, one_hit) (λ _, None).

(** A service that accepts connections and fails every other request. *)
Definition failing : service :=
  Service (λ _, Alive) (λ _, Some boom) letters (λ _, 0) (λ _, no_sample) (λ _, one_hit) (λ _, None).

(** A service that answers the first request and fails the later ones. *)
Definition flaky : service :=
  Service (λ _, Alive) (λ k, match k with O => None | S _ => Some boom end)
          letters (λ _, 0) (λ _, no_sample) (λ _, one_hit) (λ _, None).

(** A service whose heartbeat always fails. *)
Definition down : service :=
  Service (λ _, HeartbeatRaises boom) (λ _, Some boom) letters (λ _, 0)
          (λ _, no_sample) (λ _, one_hit) (λ _, None).

(** A service whose address refuses the connection: the constructor of
    the handle raises. *)
Definition unreachable : service :=
  Service (λ _, CtorRaises boom) (λ _, Some boom) letters (λ _, 0)
          (λ _, no_sample) (λ _, one_hit) (λ _, None).

(** A service whose filtered queries match nothing. *)
Definition unmatched : service :=
  Service (λ _, Alive) (λ _, None) letters (λ _, 0) (λ _, no_sample) (λ _, no_hit) (λ _, None).

Definition config (max_retries retry_delay : Z) : ChromaDBClient :=
  Build_ChromaDBClient "chroma" 8000 max_retries retry_delay true false.

Definition fresh_world : world := World None 0 0 0 [] [].

(** A world in which the wrapper is connected. *)
Definition connected_world : world := World (Some 0%nat) 1 0 0 [] [].

(** A world whose service holds one collection, not the default target. *)
Definition other_world : world := World None 0 0 0 ["other"] [].

(** A world whose service holds the default target. *)
Definition stocked_world : world := World None 0 0 0 ["sample_collection"] [].

(** ** [app/client.py]: the sample data *)

(** [[f"doc_{i+1}" for i in range(n)]]. *)
Definition doc_ids (n : nat) : list string :=
  (λ i, "doc_" +:+ pretty (i + 1)%nat) <$> seq 0 n.

(** The dictionaries of [metadatas] differ in their source only. *)
Definition sample_metadata (source : string) : pydict :=
  {[ "source" := PStr source; "added_date" := PStr "2025-04-15" ]}.

Section SampleData.

Variable svc : service.
Variable chroma_client : ChromaDBClient.

Definition load_sample_data : M unit :=
  let documents := [
    "Mars, often called the 'Red Planet', has captured the imagination of scientists and space enthusiasts alike.";
    "The Hubble Space Telescope has provided us with breathtaking images of distant galaxies and nebulae.";
    "The concept of a black hole, where gravity is so strong that nothing can escape it, was first theorized by Albert Einstein's theory of general relativity.";
    "The Renaissance was a pivotal period in history that saw a flourishing of art, science, and culture in Europe.";
    "The Industrial Revolution marked a significant shift in human society, leading to urbanization and technological advancements.";
    "The ancient city of Rome was once the center of a powerful empire that spanned across three continents.";
    "Dolphins are known for their high intelligence and social behavior, often displaying playful interactions with humans.";
    "The chameleon is a remarkable creature that can change its skin color to blend into its surroundings or communicate with other chameleons.";
    "The migration of monarch butterflies spans thousands of miles and involves multiple generations to complete.";
    "Christopher Nolan's 'Inception' is a mind-bending movie that explores the boundaries of reality and dreams.";
    "The 'Lord of the Rings' trilogy, directed by Peter Jackson, brought J.R.R. Tolkien's epic fantasy world to life on the big screen.";
    "Pixar's 'Toy Story' was the first feature-length film entirely animated using computer-generated imagery (CGI).";
    "Superman, known for his incredible strength and ability to fly, is one of the most iconic superheroes in comic book history.";
    "Black Widow, portrayed by Scarlett Johansson, is a skilled spy and assassin in the Marvel Cinematic Universe.";
    "The character of Iron Man, played by Robert Downey Jr., kickstarted the immensely successful Marvel movie franchise in 2008."
  ] in
  let metadatas := [
    sample_metadata "Space"; sample_metadata "Space"; sample_metadata "Space";
    sample_metadata "History"; sample_metadata "History"; sample_metadata "History";
    sample_metadata "Animals"; sample_metadata "Animals"; sample_metadata "Animals";
    sample_metadata "Movies"; sample_metadata "Movies"; sample_metadata "Movies";
    sample_metadata "Superheroes"; sample_metadata "Superheroes";
    sample_metadata "Superheroes"
  ] in
  let ids := doc_ids (length documents) in
  add_documents svc chroma_client "sample_collection" documents
                (Some metadatas) (Some ids) None.

End SampleData.

(** ** Reading what the command-line client printed and sent *)

(** The requests among the events: everything but printed and logged
    lines and sleeps. *)
Definition is_request (ev : event) : bool :=
  match ev with
  | EvLog _ _ | EvPrint _ | EvSleep _ => false
  | _ => true
  end.

Definition requests (evs : list event) : list event := List.filter is_request evs.

(** The printed lines, in order. *)
Definition printed_lines (evs : list event) : list output :=
  omap (λ ev, match ev with EvPrint line => Some line | _ => None end) evs.

(** The content lines of the sample shown by [get_collection_info]. *)
Definition content_lines (evs : list event) : list string :=
  omap (λ ev, match ev with
              | EvPrint (OutSampleContent s) => Some s
              | _ => None
              end) evs.

(** What the content line of a sample document should be: the document,
    or its first hundred characters and an ellipsis. *)
Definition shown_content (doc : string) : string :=
  if (py_len doc <=? 100)%nat then doc
  else py_prefix 100 doc +:+ "...".

(** The three lines printed for one entry of a sample. *)
Definition sample_lines (entry : nat * (string * string * pydict)) : list output :=
  let '(idx, (doc_id, doc, metadata)) := entry in
  [OutSampleId idx doc_id; OutSampleContent (shown_content doc);
   OutSampleMetadata metadata].

(** The three lines printed for one hit of a query. *)
Definition hit_lines (entry : nat * (string * pydict * Q)) : list output :=
  let '(idx, (doc, metadata, distance)) := entry in
  [OutHit idx (1 - distance)%Q; OutHitDocument doc; OutHitMetadata metadata].

(** The first exception inside the [try] of [run_basic_query], if any: a
    failed or unknown [get_collection], a failed query, or an answer
    without a list for the first query text. *)
Definition basic_query_failure (svc : service) (name : string) (w : world)
    : option exn :=
  let r := rpc_calls w in
  match rpc_fault svc r with
  | Some e => Some e
  | None =>
      if bool_decide (name ∈ collections w) then
        match rpc_fault svc (S r) with
        | Some e => Some e
        | None =>
            let res := query_reply svc (S r) in
            match res_documents res, res_metadatas res, res_distances res with
            | _ :: _, _ :: _, _ :: _ => None
            | _, _, _ => Some (IndexError "list index out of range")
            end
        end
      else Some (ValueError ("Collection " +:+ name +:+ " does not exist."))
  end.

(** The collection [main] goes on with. *)
Definition selected_collection (a : args) (collections : list string) : string :=
  if bool_decide (arg_collection a ∈ collections) then arg_collection a
  else default "" (head collections).




(** The events [get_collection_info] should leave, read off the answers
    of the service. *)
Definition info_events (svc : service) (name : string) (w : world) : list event :=
  let r := rpc_calls w in
  EvGetCollection name ::
  match rpc_fault svc r with
  | Some e => [EvPrint (OutInfoError (str e))]
  | None =>
      if bool_decide (name ∈ collections w) then
        EvCount name ::
        match rpc_fault svc (S r) with
        | Some e => [EvPrint (OutInfoError (str e))]
        | None =>
            let count := count_reply svc (S r) in
            EvPrint (OutCollection name) :: EvPrint (OutCount count) ::
            if count >? 0 then
              EvPeek name 3 ::
              match rpc_fault svc (S (S r)) with
              | Some e => [EvPrint (OutInfoError (str e))]
              | None =>
                  let s := peek_reply svc (S (S r)) in
                  EvPrint OutSampleHeader ::
                  (EvPrint <$>
                     (enumerate1 (zip3 (sample_ids s) (sample_documents s)
                                       (sample_metadatas s)) ≫= sample_lines))
              end
            else []
        end
      else [EvPrint (OutInfoError
                       (str (ValueError ("Collection " +:+ name +:+ " does not exist."))))]
  end.

(** A request of the script that is made for collection [sel] with query
    text [q]: a lookup or a count of [sel], a peek of three of its
    documents, or the query [q] for three results without a filter.
    Events that name no collection pass. *)
Definition targets (sel q : string) (ev : event) : Prop :=
  match ev with
  | EvGetCollection name | EvCount name => name = sel
  | EvPeek name limit => name = sel ∧ limit = 3
  | EvQuery c qt n wh whd =>
      c = sel ∧ qt = QStr q ∧ n = 3 ∧ wh = None ∧ whd = None
  | EvGetOrCreate _ _ | EvAdd _ _ _ _ _ => False
  | _ => True
  end.

(** A computation all of whose events satisfy [P], and whose value, when
    it returns one, satisfies [Q]. *)
Definition emits {A} (P : event → Prop) (Q : A → Prop) (m : M A) : Prop :=
  ∀ w, ∃ o w' evs,
    m w = (o, w') ∧ trace w' = trace w ++ evs ∧ Forall P evs ∧
    ∀ a, o = Returned a → Q a.

(** ** [app/client.py]: the demonstration script *)

(** What [main] of [app/client.py] writes itself, one constructor per
    format string: the lines it prints, and the one record it logs at
    ERROR level. *)
Inductive demo_line :=
| DemoLoaded
| DemoSpaceHeader
| DemoSuperheroHeader
| DemoMultiHeader
| DemoAnimalsHeader
| DemoMoviesHeader
| DemoBullet (doc : string)
| DemoErrorOccurred (err : string).

(** The process [main] runs in: the environment variables, and the
    builtin [int] on a text, which raises on a text that is no integer. *)
Record process := Process {
  environ : gmap string string;
  int : string → exn + Z
}.

(** The script runs the wrapper against the [remote] world and keeps its
    own lines apart from the events of the wrapper. *)
Record session := Session {
  remote : world;
  console : list demo_line
}.

Definition Demo (A : Type) : Type := session → outcome A * session.

Global Instance Demo_ret : MRet Demo := λ A a st, (Returned a, st).

Global Instance Demo_bind : MBind Demo := λ A B f m st,
  match m st with
  | (Returned a, st') => f a st'
  | (Raised e, st') => (Raised e, st')
  | (Exited s, st') => (Exited s, st')
  | (OutOfFuel, st') => (OutOfFuel, st')
  end.

Global Instance Demo_throw : MThrow exn Demo := λ A e st, (Raised e, st).

(** A call into the wrapper. *)
Definition lift {A} (m : M A) : Demo A := λ st,
  ((m (remote st)).1, Session (m (remote st)).2 (console st)).

Definition say (line : demo_line) : Demo unit := λ st,
  (Returned tt, Session (remote st) (console st ++ [line])).

(** [try: body except Exception as e: handler e] of the script. *)
Definition demo_try {A} (body : Demo A) (handler : exn → Demo A) : Demo A := λ st,
  match body st with
  | (Raised e, st') => handler e st'
  | r => r
  end.

(** [for doc in docs: print(f"• {doc}")]. *)
Fixpoint print_bullets (docs : list string) : Demo unit :=
  match docs with
  | [] => mret tt
  | doc :: rest => say (DemoBullet doc);; print_bullets rest
  end.

(** [l[1]]. *)
Definition index1 {A} (l : list A) : M A :=
  match l with
  | _ :: x :: _ => mret x
  | _ => mthrow (IndexError "list index out of range")
  end.

(** [int(text)]. *)
Definition int_of (proc : process) (text : string) : Demo Z :=
  match int proc text with
  | inl e => mthrow e
  | inr z => mret z
  end.

(** [os.environ.get(key, fallback)]. *)
Definition environ_get (proc : process) (key fallback : string) : string :=
  default fallback (environ proc !! key).

Module AppClient.

Section Main.

Variable svc : service.
Variable proc : process.

Definition main : Demo unit :=
  let host := environ_get proc "CHROMA_HOST" "chroma" in
  port ← int_of proc (environ_get proc "CHROMA_PORT" "8000");
  demo_try
    (chroma_client ← lift (__init__ svc host port 5 2 true false);
     lift (load_sample_data svc chroma_client);;
     say DemoLoaded;;
     results ← lift (query_collection svc chroma_client "sample_collection"
                       (QStr "Give me some facts about space") 3 None None);
     say DemoSpaceHeader;;
     docs ← lift (index0 (res_documents results));
     print_bullets docs;;
     results ← lift (query_collection svc chroma_client "sample_collection"
                       (QStr "Tell me about superheroes") 3
                       (Some {[ "source" := PStr "Superheroes" ]}) None);
     say DemoSuperheroHeader;;
     docs ← lift (index0 (res_documents results));
     print_bullets docs;;
     multi_results ← lift (query_collection svc chroma_client "sample_collection"
                             (QList ["Tell me about animals"; "Tell me about movies"])
                             2 None None);
     say DemoMultiHeader;;
     say DemoAnimalsHeader;;
     docs ← lift (index0 (res_documents multi_results));
     print_bullets docs;;
     say DemoMoviesHeader;;
     docs ← lift (index1 (res_documents multi_results));
     print_bullets docs)
    (λ e, say (DemoErrorOccurred (str e));; mthrow e).

End Main.

End AppClient.

Definition is_error_line (line : demo_line) : bool :=
  match line with DemoErrorOccurred _ => true | _ => false end.

(** A call of the wrapper that ends by returning a value that satisfies
    [Q], or by raising. *)
Definition settles {A} (Q : A → Prop) (m : M A) : Prop :=
  ∀ w, ∃ o w', m w = (o, w') ∧ ((∃ a, o = Returned a ∧ Q a) ∨ (∃ e, o = Raised e)).

(** A part of the script that ends in the same way and writes no error
    record. *)
Definition orderly {A} (Q : A → Prop) (m : Demo A) : Prop :=
  ∀ st, ∃ o st' lines,
    m st = (o, st') ∧ console st' = console st ++ lines ∧
    Forall (λ line, is_error_line line = false) lines ∧
    ((∃ a, o = Returned a ∧ Q a) ∨ (∃ e, o = Raised e)).

(** ** Scenarios for the demonstration script *)

Definition two_lists : query_result :=
  QueryResult [["a"]; ["b"]] [[∅]; [∅]] [[0%Q]; [0%Q]].

(** A service that answers every request, and every query with a
    document list for each of two query texts. *)
Definition talkative : service :=
  Service (λ _, Alive) (λ _, None) letters (λ _, 0) (λ _, no_sample) (λ _, two_lists) (λ _, None).

(** A process without the two variables, whose [int] reads the default
    port text. *)
Definition plain_process : process :=
  Process ∅ (λ text, if decide (text = "8000") then inr 8000
                     else inl (ValueError "invalid literal for int() with base 10")).
(** * Proofs *)

Ltac run :=
  repeat (unfold try_except, log, print, emit, get_client, set_client, time_sleep,
            HttpClient, heartbeat, rpc, sys_exit, out_of_fuel,
            remote_collections,
            mbind, M_bind, mret, M_ret, mthrow, M_throw in *; simpl in * ).

Lemma while_loop_done {A St} fuel (cond : St → bool) (body : St → M (ctl A St)) s w :
  cond s = false → while_loop fuel cond body s w = (Returned None, w).
Proof. intros H. destruct fuel; simpl; rewrite H; reflexivity. Qed.

Lemma while_loop_continue {A St} fuel (cond : St → bool) (body : St → M (ctl A St)) s s' w w' :
  cond s = true → body s w = (Returned (Continue s'), w') →
  while_loop (S fuel) cond body s w = while_loop fuel cond body s' w'.
Proof. intros Hc Hb. simpl. rewrite Hc. run. rewrite Hb. reflexivity. Qed.

Lemma while_loop_break {A St} fuel (cond : St → bool) (body : St → M (ctl A St)) s a w w' :
  cond s = true → body s w = (Returned (Break a), w') →
  while_loop (S fuel) cond body s w = (Returned (Some a), w').
Proof. intros Hc Hb. simpl. rewrite Hc. run. rewrite Hb. reflexivity. Qed.

Lemma while_loop_raise {A St} fuel (cond : St → bool) (body : St → M (ctl A St)) s e w w' :
  cond s = true → body s w = (Raised e, w') →
  while_loop (S fuel) cond body s w = (Raised e, w').
Proof. intros Hc Hb. simpl. rewrite Hc. run. rewrite Hb. reflexivity. Qed.

(** ** Stepping through a computation *)

Lemma bind_eq {A B} (m : M A) (f : A → M B) w o w' :
  m w = (o, w') →
  (m ≫= f) w = match o with
               | Returned a => f a w'
               | Raised e => (Raised e, w')
               | Exited s => (Exited s, w')
               | OutOfFuel => (OutOfFuel, w')
               end.
Proof. intros H. unfold mbind, M_bind. rewrite H. by destruct o. Qed.

Lemma bind_print {B} line (f : unit → M B) w :
  (print line ≫= f) w = f tt (add_events w [EvPrint line]).
Proof. reflexivity. Qed.


Lemma bind_ret {A B} (a : A) (f : A → M B) w : (mret a ≫= f) w = f a w.
Proof. reflexivity. Qed.

Lemma bind_assoc {A B C} (m : M A) (f : A → M B) (g : B → M C) w :
  ((m ≫= f) ≫= g) w = (m ≫= λ a, f a ≫= g) w.
Proof. unfold mbind, M_bind. by destruct (m w) as [[]]. Qed.

Lemma bind_unfold {A B} (m : M A) (f : A → M B) w :
  (m ≫= f) w = match m w with
               | (Returned a, w') => f a w'
               | (Raised e, w') => (Raised e, w')
               | (Exited s, w') => (Exited s, w')
               | (OutOfFuel, w') => (OutOfFuel, w')
               end.
Proof. reflexivity. Qed.

(** ** Reading a trace *)

Lemma sleeps_app evs evs' : sleeps (evs ++ evs') = sleeps evs ++ sleeps evs'.
Proof. apply omap_app. Qed.

Lemma heartbeats_app evs evs' :
  heartbeats (evs ++ evs') = heartbeats evs ++ heartbeats evs'.
Proof. apply omap_app. Qed.

Lemma connection_attempts_app evs evs' :
  connection_attempts (evs ++ evs') =
  connection_attempts evs ++ connection_attempts evs'.
Proof. apply omap_app. Qed.

Section ConnectFacts.

Variable svc : service.
Variable self : ChromaDBClient.

Lemma connect_body_alive a w :
  connect_outcome svc (conn_calls w) = Alive →
  connect_body svc self a w =
    (Returned (Break tt),
     World (Some (conn_calls w)) (S (conn_calls w)) (rpc_calls w) (uuid_calls w)
           (collections w) (trace w ++ successful_attempt self (conn_calls w) (a + 1))).
Proof.
  intros H. unfold connect_body, successful_attempt. run.
  rewrite H. simpl. rewrite H. simpl. rewrite <- !app_assoc. reflexivity.
Qed.

Lemma connect_body_retry a w :
  attempt_error svc (conn_calls w) ≠ None → a + 1 < max_retries self →
  sleep_error svc (retry_delay self) = None →
  ∃ w', connect_body svc self a w = (Returned (Continue (a + 1)), w') ∧
        conn_calls w' = S (conn_calls w) ∧
        trace w' = trace w ++ failed_attempt svc self (conn_calls w) (a + 1) ++
                   [EvSleep (retry_delay self)] ∧
        same_remote w w'.
Proof.
  intros He Ha Hd. unfold attempt_error in He.
  unfold connect_body, failed_attempt, attempt_requests, attempt_error, same_remote.
  assert ((a + 1 >=? max_retries self) = false) as Hge by (rewrite Z.geb_leb; apply Z.leb_gt; lia).
  run.
  destruct (connect_outcome svc (conn_calls w)) as [e|e|] eqn:Ho; [| |done]; simpl;
    rewrite ?Ho; simpl; rewrite Hge; simpl; rewrite Hd; simpl;
    (eexists; split; [reflexivity|]); simpl; rewrite <- ?app_assoc; simpl; done.
Qed.

Lemma connect_body_last a w e :
  attempt_error svc (conn_calls w) = Some e → max_retries self ≤ a + 1 →
  ∃ w', connect_body svc self a w =
          (Raised (ConnectionError ("Could not connect to ChromaDB: " +:+ str e)), w') ∧
        conn_calls w' = S (conn_calls w) ∧
        trace w' = trace w ++ failed_attempt svc self (conn_calls w) (a + 1) ++
                   [EvLog ERROR (FailedToConnect (max_retries self))] ∧
        same_remote w w'.
Proof.
  intros He Ha. unfold attempt_error in He.
  unfold connect_body, failed_attempt, attempt_requests, attempt_error, same_remote.
  assert ((a + 1 >=? max_retries self) = true) as Hge by (rewrite Z.geb_leb; apply Z.leb_le; lia).
  run.
  destruct (connect_outcome svc (conn_calls w)) as [e'|e'|] eqn:Ho; [| |done];
    injection He as ->; simpl;
    rewrite ?Ho; simpl; rewrite Hge; simpl;
    (eexists; split; [reflexivity|]); simpl; rewrite <- ?app_assoc; simpl; done.
Qed.

(** [m] failing attempts that are not the last allowed one are each
    followed by a sleep and a further round of the loop. *)
Lemma connect_loop_retries m : ∀ a w fuel,
  (∀ j, (j < m)%nat → attempt_error svc (conn_calls w + j) ≠ None) →
  a + Z.of_nat m < max_retries self → sleep_error svc (retry_delay self) = None →
  ∃ w', while_loop (m + fuel) (λ attempts, attempts <? max_retries self)
                   (connect_body svc self) a w
        = while_loop fuel (λ attempts, attempts <? max_retries self)
                     (connect_body svc self) (a + Z.of_nat m) w' ∧
        conn_calls w' = (conn_calls w + m)%nat ∧
        trace w' = trace w ++ retried_attempts svc self (conn_calls w) a m ∧
        same_remote w w'.
Proof.
  induction m as [|m IH]; intros a w fuel Hfail Ha Hd.
  - exists w. rewrite Z.add_0_r, Nat.add_0_r, app_nil_r. by repeat split.
  - destruct (connect_body_retry a w) as (w1 & Hb & Hc1 & Ht1 & Hr1);
      [specialize (Hfail 0%nat); rewrite Nat.add_0_r in Hfail; apply Hfail; lia
      | lia | done |].
    destruct (IH (a + 1) w1 fuel) as (w2 & Hl & Hc2 & Ht2 & Hr2); [|lia|done|].
    { intros j Hj. rewrite Hc1. replace (S (conn_calls w) + j)%nat
        with (conn_calls w + S j)%nat by lia. apply Hfail. lia. }
    exists w2. split; [|split; [|split]].
    + simpl plus. erewrite while_loop_continue; [|apply Z.ltb_lt; lia|exact Hb].
      rewrite Hl. f_equal. lia.
    + lia.
    + rewrite Ht2, Ht1, Hc1. cbn [retried_attempts]. rewrite <- !app_assoc. reflexivity.
    + unfold same_remote in *. intuition congruence.
Qed.

Lemma sleeps_failed_attempt k i : sleeps (failed_attempt svc self k i) = [].
Proof.
  unfold failed_attempt, attempt_requests, sleeps.
  destruct (connect_outcome svc k); reflexivity.
Qed.

Lemma sleeps_retried_attempts m : ∀ k a,
  sleeps (retried_attempts svc self k a m) = replicate m (retry_delay self).
Proof.
  induction m as [|m IH]; intros k a; [reflexivity|].
  cbn [retried_attempts]. rewrite sleeps_app, sleeps_failed_attempt.
  change (sleeps (EvSleep ?d :: ?l)) with (d :: sleeps l).
  by rewrite IH.
Qed.

Lemma connection_attempts_failed_attempt k i :
  connection_attempts (failed_attempt svc self k i) = [i].
Proof.
  unfold failed_attempt, attempt_requests, connection_attempts.
  destruct (connect_outcome svc k); reflexivity.
Qed.

Lemma connection_attempts_retried m : ∀ k a,
  connection_attempts (retried_attempts svc self k a m) = (λ j, a + Z.of_nat j) <$> seq 1 m.
Proof.
  induction m as [|m IH]; intros k a; [reflexivity|].
  cbn [retried_attempts]. rewrite connection_attempts_app, connection_attempts_failed_attempt.
  change (connection_attempts (EvSleep ?d :: ?l)) with (connection_attempts l).
  rewrite IH. cbn [seq fmap list_fmap app]. f_equal.
  rewrite <- (fmap_S_seq 1 m), <- list_fmap_compose. apply list_fmap_ext.
  intros _ j _. simpl. lia.
Qed.

(** A heartbeat goes out in each failed attempt whose constructor
    returned a handle. *)
Lemma heartbeats_failed_attempt k i :
  heartbeats (failed_attempt svc self k i) =
    match connect_outcome svc k with CtorRaises _ => [] | _ => [k] end.
Proof.
  unfold failed_attempt, attempt_requests, heartbeats.
  destruct (connect_outcome svc k); reflexivity.
Qed.

Lemma heartbeats_retried m : ∀ k a,
  heartbeats (retried_attempts svc self k a m) = List.filter (handle_made svc) (seq k m).
Proof.
  induction m as [|m IH]; intros k a; [reflexivity|].
  cbn [retried_attempts]. rewrite heartbeats_app, heartbeats_failed_attempt.
  change (heartbeats (EvSleep ?d :: ?l)) with (heartbeats l).
  rewrite IH. cbn [seq List.filter]. unfold handle_made at 2.
  by destruct (connect_outcome svc k).
Qed.

(** Heartbeats go out in all the attempts when no constructor raises. *)
Lemma filter_handle_made k m :
  (∀ j e, (j < m)%nat → connect_outcome svc (k + j) ≠ CtorRaises e) →
  List.filter (handle_made svc) (seq k m) = seq k m.
Proof.
  revert k. induction m as [|m IH]; intros k Hc; [reflexivity|].
  cbn [seq List.filter]. unfold handle_made at 1.
  specialize (Hc 0%nat) as H0. rewrite Nat.add_0_r in H0.
  destruct (connect_outcome svc k) as [e0|e1|] eqn:Ho;
    [destruct (H0 e0); [lia|done]|..]; f_equal; apply IH;
    intros j e Hj; replace (S k + j)%nat with (k + S j)%nat by lia; apply Hc; lia.
Qed.

End ConnectFacts.

Section ConnectPolicy.

Variable svc : service.
Variable self : ChromaDBClient.

Lemma connect_of_loop_raised fuel w e w' :
  while_loop fuel (λ attempts, attempts <? max_retries self)
             (connect_body svc self) 0 w = (Raised e, w') →
  fuel = Z.to_nat (max_retries self) →
  _connect svc self w = (Raised e, w').
Proof. intros H ->. unfold _connect, mbind, M_bind. by rewrite H. Qed.

Lemma connect_of_loop_returned fuel w r w' :
  while_loop fuel (λ attempts, attempts <? max_retries self)
             (connect_body svc self) 0 w = (Returned r, w') →
  fuel = Z.to_nat (max_retries self) →
  _connect svc self w = (Returned tt, w').
Proof. intros H ->. unfold _connect, mbind, M_bind. by rewrite H. Qed.

Lemma connect_nonpositive w :
  max_retries self ≤ 0 → _connect svc self w = (Returned tt, w).
Proof.
  intros H. eapply connect_of_loop_returned; [|reflexivity].
  apply while_loop_done, Z.ltb_ge. lia.
Qed.

(** Every attempt allowed fails. *)
Lemma connect_all_fail (w : world) :
  1 ≤ max_retries self → sleep_error svc (retry_delay self) = None →
  let k := conn_calls w in
  let n := Z.to_nat (max_retries self) in
  (∀ j, (j < n)%nat → attempt_error svc (k + j) ≠ None) →
  ∃ e w',
    _connect svc self w =
      (Raised (ConnectionError ("Could not connect to ChromaDB: " +:+ str e)), w') ∧
    attempt_error svc (k + (n - 1)) = Some e ∧
    conn_calls w' = (k + n)%nat ∧ same_remote w w' ∧
    trace w' = trace w ++
      retried_attempts svc self k 0 (n - 1) ++
      failed_attempt svc self (k + (n - 1)) (max_retries self) ++
      [EvLog ERROR (FailedToConnect (max_retries self))].
Proof.
  intros Hn Hd k n Hfail. subst k.
  assert (Z.of_nat n = max_retries self) as HN by lia. clearbody n.
  destruct n as [|m]; [lia|].
  replace (S m - 1)%nat with m by lia.
  destruct (connect_loop_retries svc self m 0 w 1)
    as (w1 & Hl & Hc1 & Ht1 & Hr1); [intros j Hj; apply Hfail; lia|lia|done|].
  destruct (attempt_error svc (conn_calls w + m)) as [e|] eqn:He;
    [|by destruct (Hfail m ltac:(lia))].
  destruct (connect_body_last svc self (0 + Z.of_nat m) w1 e)
    as (w2 & Hb & Hc2 & Ht2 & Hr2); [by rewrite Hc1|lia|].
  replace (0 + Z.of_nat m + 1) with (max_retries self) in Ht2 by lia.
  exists e, w2. split; [|split; [done|split; [|split]]].
  - apply (connect_of_loop_raised (m + 1)); [|lia].
    rewrite Hl. eapply while_loop_raise; [apply Z.ltb_lt; lia|exact Hb].
  - rewrite Hc2, Hc1. lia.
  - unfold same_remote in *. intuition congruence.
  - rewrite Ht2, Ht1, Hc1. by rewrite <- !app_assoc.
Qed.

(** The attempt after [j] failed ones is answered. *)
Lemma connect_succeeds_after (w : world) (j : nat) :
  sleep_error svc (retry_delay self) = None →
  let k := conn_calls w in
  (j < Z.to_nat (max_retries self))%nat →
  (∀ i, (i < j)%nat → attempt_error svc (k + i) ≠ None) →
  connect_outcome svc (k + j) = Alive →
  _connect svc self w =
    (Returned tt,
     World (Some (k + j)%nat) (S (k + j)) (rpc_calls w) (uuid_calls w) (collections w)
           (trace w ++ retried_attempts svc self k 0 j ++
            successful_attempt self (k + j) (Z.of_nat j + 1))).
Proof.
  intros Hd k Hj Hfail Halive. subst k.
  set (n := Z.to_nat (max_retries self)) in *.
  destruct (connect_loop_retries svc self j 0 w (n - j))
    as (w1 & Hl & Hc1 & Ht1 & Hr & Hu & Hco); [done|lia|done|].
  apply (connect_of_loop_returned (j + (n - j)) _ (Some tt)); [|lia].
  rewrite Hl. destruct (n - j)%nat as [|fuel] eqn:Hf; [lia|].
  erewrite while_loop_break;
    [|apply Z.ltb_lt; lia|apply connect_body_alive; by rewrite Hc1].
  rewrite Hc1, Ht1, Hr, Hu, Hco, Z.add_0_l. by rewrite <- app_assoc.
Qed.

(** C1, amended.  With [max_retries >= 1] and a delay [time.sleep]
    accepts: when every attempt fails, [_connect] makes exactly
    [max_retries] attempts, sends the heartbeat in those whose constructor
    returned a handle, sleeps [retry_delay] after each failed attempt but
    the last, and raises [ConnectionError] from the last failure; when
    the attempt after [j < max_retries] failures succeeds, it returns at
    once, with no further attempt or sleep. *)
Theorem connect_retry_policy (w : world) :
  1 ≤ max_retries self → sleep_error svc (retry_delay self) = None →
  let k := conn_calls w in
  let n := Z.to_nat (max_retries self) in
  ((∀ j, (j < n)%nat → attempt_error svc (k + j) ≠ None) →
   ∃ e w' evs,
     _connect svc self w =
       (Raised (ConnectionError ("Could not connect to ChromaDB: " +:+ str e)), w') ∧
     attempt_error svc (k + (n - 1)) = Some e ∧
     conn_calls w' = (k + n)%nat ∧
     trace w' = trace w ++ evs ∧
     evs = retried_attempts svc self k 0 (n - 1) ++
           failed_attempt svc self (k + (n - 1)) (max_retries self) ++
           [EvLog ERROR (FailedToConnect (max_retries self))] ∧
     connection_attempts evs = Z.of_nat <$> seq 1 n ∧
     sleeps evs = replicate (n - 1) (retry_delay self) ∧
     heartbeats evs = List.filter (handle_made svc) (seq k n) ∧
     ((∀ j e', (j < n)%nat → connect_outcome svc (k + j) ≠ CtorRaises e') →
      heartbeats evs = seq k n))
  ∧
  (∀ j, (j < n)%nat →
     (∀ i, (i < j)%nat → attempt_error svc (k + i) ≠ None) →
     connect_outcome svc (k + j) = Alive →
     ∃ w' evs,
       _connect svc self w = (Returned tt, w') ∧
       client w' = Some (k + j)%nat ∧
       conn_calls w' = S (k + j) ∧
       trace w' = trace w ++ evs ∧
       evs = retried_attempts svc self k 0 j ++
             successful_attempt self (k + j) (Z.of_nat j + 1) ∧
       connection_attempts evs = Z.of_nat <$> seq 1 (S j) ∧
       sleeps evs = replicate j (retry_delay self) ∧
       last evs = Some (EvLog INFO Connected)).
Proof.
  intros Hn Hd k n. split.
  - intros Hfail.
    destruct (connect_all_fail w Hn Hd Hfail) as (e & w' & Hrun & He & Hc & _ & Ht).
    fold k n in He, Hc, Ht.
    assert (Z.of_nat n = max_retries self) as HN by lia.
    assert (heartbeats
              (retried_attempts svc self k 0 (n - 1) ++
               failed_attempt svc self (k + (n - 1)) (max_retries self) ++
               [EvLog ERROR (FailedToConnect (max_retries self))])
            = List.filter (handle_made svc) (seq k n)) as Hh.
    { rewrite !heartbeats_app, heartbeats_retried, heartbeats_failed_attempt.
      change (heartbeats [EvLog ERROR _]) with (@nil nat). rewrite app_nil_r.
      replace n with (S (n - 1)) at 3 by lia.
      rewrite seq_S, List.filter_app. f_equal. cbn [List.filter].
      unfold handle_made. by destruct (connect_outcome svc (k + (n - 1))). }
    exists e, w', (retried_attempts svc self k 0 (n - 1) ++
                   failed_attempt svc self (k + (n - 1)) (max_retries self) ++
                   [EvLog ERROR (FailedToConnect (max_retries self))]).
    split; [done|]. split; [done|]. split; [done|]. split; [done|].
    split; [done|]. split; [|split; [|split]].
    + rewrite !connection_attempts_app, connection_attempts_retried,
        connection_attempts_failed_attempt.
      change (connection_attempts [EvLog ERROR _]) with (@nil Z).
      rewrite app_nil_r. replace n with (S (n - 1)) at 2 by lia.
      rewrite seq_S, fmap_app. f_equal.
      cbn [fmap list_fmap]. f_equal. lia.
    + rewrite !sleeps_app, sleeps_retried_attempts, sleeps_failed_attempt.
      by rewrite app_nil_r.
    + exact Hh.
    + intros Hctor. rewrite Hh. by apply filter_handle_made.
  - intros j Hj Hfail Halive.
    pose proof (connect_succeeds_after w j Hd Hj Hfail Halive) as Hrun. fold k in Hrun.
    eexists _, (retried_attempts svc self k 0 j ++
                successful_attempt self (k + j) (Z.of_nat j + 1)).
    split; [exact Hrun|]. cbn [client conn_calls trace].
    split; [done|]. split; [done|]. split; [done|]. split; [done|].
    split; [|split].
    + rewrite connection_attempts_app, connection_attempts_retried, seq_S, fmap_app.
      f_equal. cbn. f_equal. lia.
    + rewrite sleeps_app, sleeps_retried_attempts.
      change (sleeps (successful_attempt _ _ _)) with (@nil Z). by rewrite app_nil_r.
    + by rewrite last_app.
Qed.

End ConnectPolicy.




(** ** What a reconnection leaves in the trace *)





Section ConnectEvents.

Variable svc : service.
Variable self : ChromaDBClient.





End ConnectEvents.

Section AccessPolicy.

Variable svc : service.
Variable self : ChromaDBClient.
Variable name : string.
Variable metadata : option pydict.

Lemma connect_alive w :
  1 ≤ max_retries self → connect_outcome svc (conn_calls w) = Alive →
  _connect svc self w =
    (Returned tt,
     World (Some (conn_calls w)) (S (conn_calls w)) (rpc_calls w) (uuid_calls w)
           (collections w) (trace w ++ successful_attempt self (conn_calls w) 1)).
Proof.
  intros Hn Ha. apply (connect_of_loop_returned svc self (Z.to_nat (max_retries self)) _ (Some tt));
    [|done].
  destruct (Z.to_nat (max_retries self)) as [|fuel] eqn:Hf; [lia|].
  eapply while_loop_break; [apply Z.ltb_lt; lia|].
  by apply connect_body_alive.
Qed.

(** The request goes through at the first try. *)
Lemma get_or_create_body_ok a w c :
  client w = Some c → rpc_fault svc (rpc_calls w) = None →
  get_or_create_body svc self name metadata a w =
    (Returned (Break (Some name)),
     World (client w) (conn_calls w) (S (rpc_calls w)) (uuid_calls w)
           (if bool_decide (name ∈ collections w) then collections w
            else collections w ++ [name])
           (trace w ++ successful_access name metadata)).
Proof.
  destruct w as [cl cc rc uc cols tr]. simpl. intros -> Hf.
  unfold get_or_create_body, client_get_or_create_collection,
    remote_get_or_create, successful_access.
  run. rewrite Hf. simpl.
  case_bool_decide; simpl; rewrite <- !app_assoc; reflexivity.
Qed.





End AccessPolicy.

Section AccessTheorem.

Variable svc : service.
Variable self : ChromaDBClient.
Variable name : string.
Variable metadata : option pydict.

Lemma get_or_create_of_loop fuel w (o : outcome (option (option string))) w' :
  while_loop fuel (λ attempts, attempts <? max_retries self)
             (get_or_create_body svc self name metadata) 0 w = (o, w') →
  fuel = Z.to_nat (max_retries self) →
  get_or_create_collection svc self name metadata w =
    (match o with
     | Returned r => Returned (default None r)
     | Raised e => Raised e
     | Exited s => Exited s
     | OutOfFuel => OutOfFuel
     end, w').
Proof.
  intros H ->. unfold get_or_create_collection, mbind, M_bind. rewrite H.
  by destruct o.
Qed.

Lemma get_or_create_nonpositive w :
  max_retries self ≤ 0 →
  get_or_create_collection svc self name metadata w = (Returned None, w).
Proof.
  intros H.
  apply (get_or_create_of_loop (Z.to_nat (max_retries self)) w (Returned None)); [|done].
  apply while_loop_done, Z.ltb_ge. lia.
Qed.

(** The service answers the first request. *)
Lemma get_or_create_first_try w c :
  1 ≤ max_retries self → client w = Some c → rpc_fault svc (rpc_calls w) = None →
  get_or_create_collection svc self name metadata w =
    (Returned (Some name),
     World (client w) (conn_calls w) (S (rpc_calls w)) (uuid_calls w)
           (if bool_decide (name ∈ collections w) then collections w
            else collections w ++ [name])
           (trace w ++ successful_access name metadata)).
Proof.
  intros Hn Hc Hf.
  apply (get_or_create_of_loop (Z.to_nat (max_retries self)) w
           (Returned (Some (Some name)))); [|done].
  destruct (Z.to_nat (max_retries self)) as [|fuel] eqn:E; [lia|].
  eapply while_loop_break; [apply Z.ltb_lt; lia|].
  by eapply get_or_create_body_ok.
Qed.



End AccessTheorem.

(** ** The retry policies at work *)

(** C1, as stated, fails.  With a delay [time.sleep] rejects, the first
    failed attempt is the only one and what is raised is no connection
    error; with an address that refuses the connection, the constructor
    raises in every attempt and no heartbeat is ever sent. *)
Lemma connect_policy_needs_sleep_and_handle :
  (∃ w', _connect down (config 3 (-1)) fresh_world =
           (Raised (ValueError "sleep length must be non-negative"), w') ∧
         connection_attempts (trace w') = [1] ∧ sleeps (trace w') = []) ∧
  (∃ w', _connect unreachable (config 3 2) fresh_world =
           (Raised (ConnectionError "Could not connect to ChromaDB: boom"), w') ∧
         connection_attempts (trace w') = [1; 2; 3] ∧ heartbeats (trace w') = []).
Proof. split; eexists; by vm_compute. Qed.

Lemma connect_retry_policy_witness :
  (∃ w', _connect down (config 3 2) fresh_world =
           (Raised (ConnectionError "Could not connect to ChromaDB: boom"), w') ∧
         conn_calls w' = 3%nat ∧ sleeps (trace w') = [2; 2] ∧
         heartbeats (trace w') = [0; 1; 2]%nat) ∧
  (∃ w', _connect healthy (config 3 2) fresh_world = (Returned tt, w') ∧
         client w' = Some 0%nat ∧ sleeps (trace w') = []).
Proof.
  split.
  - destruct (connect_retry_policy down (config 3 2) fresh_world) as [Hall _];
      [simpl; lia|reflexivity|].
    destruct Hall as (e & w' & evs & Hrun & He & Hc & Ht & _ & _ & Hs & _ & Hh);
      [intros j _; discriminate|].
    injection He as <-. exists w'. rewrite Ht. simpl.
    split; [exact Hrun|]. split; [exact Hc|]. split; [exact Hs|].
    apply Hh. intros j e' _. discriminate.
  - destruct (connect_retry_policy healthy (config 3 2) fresh_world) as [_ Hone];
      [simpl; lia|reflexivity|].
    destruct (Hone 0%nat) as (w' & evs & Hrun & Hcl & _ & Ht & _ & _ & Hs & _);
      [simpl; lia|intros i Hi; lia|reflexivity|].
    exists w'. rewrite Ht. split; [exact Hrun|]. split; [exact Hcl|exact Hs].
Defined.



(** ** A wrapper that may not try *)

(** C10.  With [max_retries <= 0] both loops run no round: constructing
    the wrapper returns with [self.client] left [None], [_connect] and
    [get_or_create_collection] return ([None] for the latter), and the
    world is otherwise untouched: no request, no sleep, no log line, no
    exception. *)
Theorem nonpositive_max_retries_no_contact (svc : service) (h : string)
    (p n d : Z) (reset telemetry : bool) (name : string)
    (metadata : option pydict) (w : world) :
  n ≤ 0 →
  let self := Build_ChromaDBClient h p n d reset telemetry in
  let w0 := World None (conn_calls w) (rpc_calls w) (uuid_calls w)
                  (collections w) (trace w) in
  __init__ svc h p n d reset telemetry w = (Returned self, w0) ∧
  _connect svc self w0 = (Returned tt, w0) ∧
  get_or_create_collection svc self name metadata w0 = (Returned None, w0).
Proof.
  intros Hn self w0.
  assert (_connect svc self w0 = (Returned tt, w0)) as Hc
    by (by apply connect_nonpositive).
  repeat split; [|done|by apply get_or_create_nonpositive].
  unfold __init__, set_client, mbind, M_bind, mret, M_ret. fold self w0.
  by rewrite Hc.
Qed.

Lemma nonpositive_max_retries_no_contact_witness :
  __init__ down "chroma" 8000 0 2 true false fresh_world
    = (Returned (config 0 2), fresh_world) ∧
  _connect down (config 0 2) fresh_world = (Returned tt, fresh_world) ∧
  get_or_create_collection down (config 0 2) "docs" None fresh_world
    = (Returned None, fresh_world).
Proof.
  apply (nonpositive_max_retries_no_contact down "chroma" 8000 0 2 true false
           "docs" None fresh_world).
  lia.
Defined.

(** ** Generated identifiers *)

Lemma added_ids_app evs evs' :
  added_ids (evs ++ evs') = added_ids evs ++ added_ids evs'.
Proof. apply omap_app. Qed.

Lemma letters_length k : String.length (letters k) = k.
Proof. induction k as [|k IH]; simpl; congruence. Qed.

Lemma letters_inj i j : letters i = letters j → i = j.
Proof. intros H. rewrite <- (letters_length i), <- (letters_length j). by rewrite H. Qed.

Section Identifiers.

Variable svc : service.
Variable self : ChromaDBClient.

(** The comprehension draws [n] identifiers, the next [n] of the source. *)
Lemma generate_ids_draws n : ∀ w,
  generate_ids svc n w =
    (Returned (uuid4 svc <$> seq (uuid_calls w) n),
     World (client w) (conn_calls w) (rpc_calls w) (uuid_calls w + n)
           (collections w) (trace w)).
Proof.
  induction n as [|n IH]; intros w.
  - destruct w. simpl. unfold mret, M_ret. by rewrite Nat.add_0_r.
  - cbn [generate_ids]. unfold mbind, M_bind, uuid4_str at 1.
    rewrite IH. simpl. unfold mret, M_ret. do 2 f_equal. f_equal. lia.
Qed.

(** C3.  When [uuid4] never repeats a value and [ids] is omitted, the
    identifiers [add_documents] generates, and hands to [collection.add]
    once the collection has been obtained, are as many as the documents
    and pairwise distinct. *)
Theorem add_documents_generates_ids (collection_name : string)
    (documents : list string) (metadatas : option (list pydict))
    (embeddings : option (list (list Q))) (w w1 : world) (c : string) :
  (∀ i j, uuid4 svc i = uuid4 svc j → i = j) →
  get_or_create_collection svc self collection_name None w = (Returned (Some c), w1) →
  ∃ ids o w2 evs,
    add_documents svc self collection_name documents metadatas None embeddings w
      = (o, w2) ∧
    uuid_calls w2 = (uuid_calls w1 + length documents)%nat ∧
    trace w2 = trace w1 ++ evs ∧
    added_ids evs = [ids] ∧
    (∃ rest, evs = EvAdd c documents metadatas ids embeddings :: rest) ∧
    length ids = length documents ∧
    NoDup ids.
Proof.
  intros Hinj Hgoc.
  exists (uuid4 svc <$> seq (uuid_calls w1) (length documents)).
  unfold add_documents, mbind at 1, M_bind at 1. rewrite Hgoc.
  unfold try_except, mbind at 1, M_bind at 1. rewrite generate_ids_draws.
  unfold collection_add, log. run.
  destruct (rpc_fault svc (rpc_calls w1)) as [e|]; simpl;
    eexists _, _, _; (split; [reflexivity|]); simpl;
    (split; [done|]); rewrite <- !app_assoc;
    (split; [reflexivity|]); simpl;
    (split; [done|]); (split; [by eexists|]);
    (split; [by rewrite length_fmap, length_seq|]);
    apply NoDup_fmap_2; [exact Hinj|apply NoDup_seq|exact Hinj|apply NoDup_seq].
Qed.

End Identifiers.

Lemma add_documents_generates_ids_witness :
  ∃ o w2 ids,
    add_documents healthy (config 5 2) "docs" ["a"; "b"; "c"] None None None
                  connected_world = (o, w2) ∧
    added_ids (trace w2) = [ids] ∧ length ids = 3%nat ∧ NoDup ids.
Proof.
  destruct (add_documents_generates_ids healthy (config 5 2) "docs" ["a"; "b"; "c"]
              None None connected_world
              (World (Some 0%nat) 1 1 0 ["docs"]
                     [EvGetOrCreate "docs" None; EvLog INFO (CollectionAccessed "docs")])
              "docs")
    as (ids & o & w2 & evs & Hrun & Hu & Ht & Hids & _ & Hlen & Hnd).
  - intros i j. apply letters_inj.
  - reflexivity.
  - exists o, w2, ids. split; [exact Hrun|].
    rewrite Ht, added_ids_app, Hids. by repeat split.
Defined.

(** ** Printing code *)

Lemma add_events_nil w : add_events w [] = w.
Proof. destruct w. unfold add_events. simpl. by rewrite app_nil_r. Qed.

Lemma add_events_app w evs evs' :
  add_events (add_events w evs) evs' = add_events w (evs ++ evs').
Proof. unfold add_events. simpl. by rewrite app_assoc. Qed.

Lemma printed_app evs evs' : printed evs → printed evs' → printed (evs ++ evs').
Proof. apply Forall_app_2. Qed.

Lemma printed_lookups evs : printed evs → lookups evs = [].
Proof. induction 1 as [|ev evs [line ->] _ IH]; [done|exact IH]. Qed.

Lemma printed_dispatched_queries evs : printed evs → dispatched_queries evs = [].
Proof. induction 1 as [|ev evs [line ->] _ IH]; [done|exact IH]. Qed.

Lemma lookups_app evs evs' : lookups (evs ++ evs') = lookups evs ++ lookups evs'.
Proof. apply omap_app. Qed.

Lemma dispatched_queries_app evs evs' :
  dispatched_queries (evs ++ evs') = dispatched_queries evs ++ dispatched_queries evs'.
Proof. apply omap_app. Qed.

Lemma quiet_ret {A} (a : A) : quiet (mret a).
Proof.
  intros w. exists (Returned a), []. rewrite add_events_nil.
  repeat split; [constructor|done..].
Qed.

Lemma quiet_throw {A} (e : exn) : quiet (mthrow e : M A).
Proof.
  intros w. exists (Raised e), []. rewrite add_events_nil.
  repeat split; [constructor|done..].
Qed.

Lemma quiet_print line : quiet (print line).
Proof.
  intros w. exists (Returned tt), [EvPrint line].
  repeat split; [|done..]. constructor; [by eexists|constructor].
Qed.

Lemma quiet_bind {A B} (m : M A) (f : A → M B) :
  quiet m → (∀ a, quiet (f a)) → quiet (m ≫= f).
Proof.
  intros Hm Hf w. destruct (Hm w) as (o & evs & Hrun & Hp & Hx & Hfuel).
  unfold mbind, M_bind. rewrite Hrun. destruct o as [a|e|s|].
  - destruct (Hf a (add_events w evs)) as (o' & evs' & Hrun' & Hp' & Hx' & Hfuel').
    exists o', (evs ++ evs'). rewrite Hrun', add_events_app.
    repeat split; [by apply printed_app|done..].
  - exists (Raised e), evs. by repeat split.
  - by destruct (Hx s).
  - done.
Qed.

Lemma quiet_index0 {A} (l : list A) : quiet (index0 l).
Proof. destruct l; [apply quiet_throw|apply quiet_ret]. Qed.

Lemma quiet_for_each {A} (l : list A) (body : A → M unit) :
  (∀ x, quiet (body x)) → quiet (for_each l body).
Proof.
  intros Hb. induction l as [|x l IH]; [apply quiet_ret|].
  apply quiet_bind; [apply Hb|intros _; exact IH].
Qed.

Lemma quiet_print_hits results : quiet (print_hits results).
Proof.
  unfold print_hits. repeat (apply quiet_bind; [apply quiet_index0|intros ?]).
  apply quiet_for_each. intros [idx [[doc metadata] distance]].
  repeat (apply quiet_bind; [apply quiet_print|intros _]). apply quiet_print.
Qed.

(** ** Requests of the command-line client *)

Section Requests.

Variable svc : service.

(** A request appends its event and counts; the call number picks the
    failure. *)
Lemma rpc_eq ev w :
  rpc svc ev w =
    (match rpc_fault svc (rpc_calls w) with
     | Some e => Raised e
     | None => Returned (rpc_calls w)
     end,
     World (client w) (conn_calls w) (S (rpc_calls w)) (uuid_calls w)
           (collections w) (trace w ++ [ev])).
Proof. unfold rpc. by destruct (rpc_fault svc (rpc_calls w)). Qed.

Lemma client_get_collection_eq h name w :
  client_get_collection svc h name w =
    (match rpc_fault svc (rpc_calls w) with
     | Some e => Raised e
     | None =>
         if bool_decide (name ∈ collections w) then Returned name
         else Raised (ValueError ("Collection " +:+ name +:+ " does not exist."))
     end,
     World (client w) (conn_calls w) (S (rpc_calls w)) (uuid_calls w)
           (collections w) (trace w ++ [EvGetCollection name])).
Proof.
  unfold client_get_collection. erewrite bind_eq by apply rpc_eq.
  destruct (rpc_fault svc (rpc_calls w)); [done|].
  unfold remote_collections, mbind, M_bind. simpl.
  by case_bool_decide.
Qed.

Lemma collection_query_eq c q n wh wd w :
  collection_query svc (Some c) q n wh wd w =
    (match rpc_fault svc (rpc_calls w) with
     | Some e => Raised e
     | None => Returned (query_reply svc (rpc_calls w))
     end,
     World (client w) (conn_calls w) (S (rpc_calls w)) (uuid_calls w)
           (collections w) (trace w ++ [EvQuery c q n wh wd])).
Proof.
  unfold collection_query. erewrite bind_eq by apply rpc_eq.
  by destruct (rpc_fault svc (rpc_calls w)).
Qed.

(** [run_basic_query] always returns; it looks the collection up once and,
    when the lookup succeeds, sends one query that carries the text as
    the string it was given. *)
Lemma run_basic_query_requests h name q n w :
  ∃ r w' evs,
    run_basic_query svc h name q n w = (Returned r, w') ∧
    collections w' = collections w ∧
    conn_calls w' = conn_calls w ∧
    trace w' = trace w ++ evs ∧
    lookups evs = [name] ∧
    dispatched_queries evs =
      if bool_decide (rpc_fault svc (rpc_calls w) = None ∧ name ∈ collections w)
      then [(name, QStr q)] else [].
Proof.
  unfold run_basic_query, try_except.
  erewrite bind_eq by apply client_get_collection_eq.
  destruct (rpc_fault svc (rpc_calls w)) as [e|] eqn:Hf.
  { eexists _, _, _. unfold print, emit, mbind, M_bind, mret, M_ret. simpl.
    split; [reflexivity|]. simpl. rewrite <- app_assoc.
    repeat split; try done;
      (rewrite bool_decide_eq_false_2; [done|by intros [? _]]). }
  case_bool_decide as Hin.
  2:{ eexists _, _, _. unfold print, emit, mbind, M_bind, mret, M_ret. simpl.
      split; [reflexivity|]. simpl. rewrite <- app_assoc.
      repeat split; try done;
        (rewrite bool_decide_eq_false_2; [done|by intros [_ ?]]). }
  rewrite bool_decide_eq_true_2 by done.
  erewrite bind_eq by apply collection_query_eq. cbn [rpc_calls].
  destruct (rpc_fault svc (S (rpc_calls w))) as [e|] eqn:Hf2.
  { eexists _, _, _. unfold print, emit, mbind, M_bind, mret, M_ret. simpl.
    split; [reflexivity|]. simpl. rewrite <- !app_assoc. by repeat split. }
  match goal with |- context [(?m ≫= ?f) ?w1] =>
    assert (quiet (m ≫= f)) as Hq; [|destruct (Hq w1) as (o & evs & -> & Hp & Hx & Hfuel)]
  end.
  { repeat (apply quiet_bind; [apply quiet_print|intros _]).
    apply quiet_bind; [apply quiet_print_hits|intros _]. apply quiet_ret. }
  destruct o as [r|e|s|]; [| |by destruct (Hx s)|done].
  - eexists _, _, _. split; [reflexivity|]. simpl. rewrite <- !app_assoc.
    repeat split.
    + rewrite !lookups_app, (printed_lookups evs) by done. reflexivity.
    + rewrite !dispatched_queries_app, (printed_dispatched_queries evs) by done.
      reflexivity.
  - eexists _, _, _. unfold print, emit, mbind, M_bind, mret, M_ret. simpl.
    split; [reflexivity|]. simpl. rewrite <- !app_assoc.
    repeat split.
    + rewrite !lookups_app, (printed_lookups evs) by done. reflexivity.
    + rewrite !dispatched_queries_app, (printed_dispatched_queries evs) by done.
      reflexivity.
Qed.

End Requests.

Section Queries.

Variable svc : service.

(** [run_filtered_query] always returns; it looks the collection up once
    and, when the lookup succeeds, sends one query that carries the text
    as the string it was given. *)
Lemma run_filtered_query_requests h name q fk fv n w :
  ∃ r w' evs,
    run_filtered_query svc h name q fk fv n w = (Returned r, w') ∧
    trace w' = trace w ++ evs ∧
    lookups evs = [name] ∧
    dispatched_queries evs =
      if bool_decide (rpc_fault svc (rpc_calls w) = None ∧ name ∈ collections w)
      then [(name, QStr q)] else [].
Proof.
  unfold run_filtered_query, try_except.
  erewrite bind_eq by apply client_get_collection_eq.
  destruct (rpc_fault svc (rpc_calls w)) as [e|] eqn:Hf.
  { eexists _, _, _. unfold print, emit, mbind, M_bind, mret, M_ret. simpl.
    split; [reflexivity|]. simpl. rewrite <- app_assoc.
    repeat split; try done;
      (rewrite bool_decide_eq_false_2; [done|by intros [? _]]). }
  case_bool_decide as Hin.
  2:{ eexists _, _, _. unfold print, emit, mbind, M_bind, mret, M_ret. simpl.
      split; [reflexivity|]. simpl. rewrite <- app_assoc.
      repeat split; try done;
        (rewrite bool_decide_eq_false_2; [done|by intros [_ ?]]). }
  rewrite bool_decide_eq_true_2 by done. cbv zeta.
  erewrite bind_eq by apply collection_query_eq. cbn [rpc_calls].
  destruct (rpc_fault svc (S (rpc_calls w))) as [e|] eqn:Hf2.
  { eexists _, _, _. unfold print, emit, mbind, M_bind, mret, M_ret. simpl.
    split; [reflexivity|]. simpl. rewrite <- !app_assoc. by repeat split. }
  match goal with |- context [(?m ≫= ?f) ?w1] =>
    assert (quiet (m ≫= f)) as Hq; [|destruct (Hq w1) as (o & evs & -> & Hp & Hx & Hfuel)]
  end.
  { repeat (apply quiet_bind; [apply quiet_print|intros _]).
    apply quiet_bind; [apply quiet_index0|intros docs].
    destruct docs.
    - apply quiet_bind; [apply quiet_print|intros _]. apply quiet_ret.
    - apply quiet_bind; [apply quiet_print_hits|intros _]. apply quiet_ret. }
  destruct o as [r|e|s|]; [| |by destruct (Hx s)|done].
  - eexists _, _, _. split; [reflexivity|]. simpl. rewrite <- !app_assoc.
    repeat split.
    + rewrite !lookups_app, (printed_lookups evs) by done. reflexivity.
    + rewrite !dispatched_queries_app, (printed_dispatched_queries evs) by done.
      reflexivity.
  - eexists _, _, _. unfold print, emit, mbind, M_bind, mret, M_ret. simpl.
    split; [reflexivity|]. simpl. rewrite <- !app_assoc.
    repeat split.
    + rewrite !lookups_app, (printed_lookups evs) by done. reflexivity.
    + rewrite !dispatched_queries_app, (printed_dispatched_queries evs) by done.
      reflexivity.
Qed.

(** What [query_collection] does once the collection is obtained. *)
Lemma query_collection_after_access self name q n wh wd w c w1 :
  get_or_create_collection svc self name None w = (Returned (Some c), w1) →
  query_collection svc self name q n wh wd w =
    let q' := match q with QStr s => QList [s] | QList l => QList l end in
    match rpc_fault svc (rpc_calls w1) with
    | Some e =>
        (Raised e,
         World (client w1) (conn_calls w1) (S (rpc_calls w1)) (uuid_calls w1)
               (collections w1)
               (trace w1 ++ [EvQuery c q' n wh wd; EvLog ERROR (FailedToQuery (str e))]))
    | None =>
        (Returned (query_reply svc (rpc_calls w1)),
         World (client w1) (conn_calls w1) (S (rpc_calls w1)) (uuid_calls w1)
               (collections w1)
               (trace w1 ++ [EvQuery c q' n wh wd; EvLog INFO (Queried name)]))
    end.
Proof.
  intros Hgoc. unfold query_collection. erewrite bind_eq by exact Hgoc.
  unfold try_except. erewrite bind_eq by apply collection_query_eq.
  destruct (rpc_fault svc (rpc_calls w1)) as [e|];
    unfold log, emit, mbind, M_bind, mret, M_ret, mthrow, M_throw; simpl;
    by rewrite <- app_assoc.
Qed.

End Queries.

(** ** Wrapping of a single query string *)

(** C4, as stated, fails: the query [run_basic_query] sends carries the
    bare string. *)
Lemma run_basic_query_sends_bare_string :
  ¬ wraps_single_string "space"
      (trace (run_basic_query healthy 0 "sample_collection" "space" 3 stocked_world).2).
Proof.
  intros H. specialize (H "sample_collection" (QStr "space")).
  discriminate H. vm_compute. left.
Qed.

(** C4, amended.  [ChromaDBClient.query_collection] sends a single query
    string as a one-element list; [run_basic_query] and
    [run_filtered_query] send the string as it is. *)
Theorem single_query_string_dispatch (svc : service) (name q : string) (n : Z) :
  (∀ self wh wd w c w1,
     get_or_create_collection svc self name None w = (Returned (Some c), w1) →
     ∃ o w2 evs,
       query_collection svc self name (QStr q) n wh wd w = (o, w2) ∧
       trace w2 = trace w1 ++ evs ∧
       dispatched_queries evs = [(c, QList [q])] ∧
       wraps_single_string q evs) ∧
  (∀ h w,
     rpc_fault svc (rpc_calls w) = None → name ∈ collections w →
     ∃ r w' evs,
       run_basic_query svc h name q n w = (Returned r, w') ∧
       trace w' = trace w ++ evs ∧
       dispatched_queries evs = [(name, QStr q)]) ∧
  (∀ h fk fv w,
     rpc_fault svc (rpc_calls w) = None → name ∈ collections w →
     ∃ r w' evs,
       run_filtered_query svc h name q fk fv n w = (Returned r, w') ∧
       trace w' = trace w ++ evs ∧
       dispatched_queries evs = [(name, QStr q)]).
Proof.
  repeat split.
  - intros self wh wd w c w1 Hgoc.
    rewrite (query_collection_after_access svc self name (QStr q) n wh wd w c w1 Hgoc).
    cbv zeta. unfold wraps_single_string.
    destruct (rpc_fault svc (rpc_calls w1)) as [e|];
      eexists _, _, _; (split; [reflexivity|]); simpl;
      (repeat split; [done..|]);
      intros c' arg [[= -> ->]|[]%elem_of_nil]%elem_of_cons; done.
  - intros h w Hf Hin.
    destruct (run_basic_query_requests svc h name q n w)
      as (r & w' & evs & Hrun & _ & _ & Ht & _ & Hq).
    rewrite bool_decide_eq_true_2 in Hq by done. by exists r, w', evs.
  - intros h fk fv w Hf Hin.
    destruct (run_filtered_query_requests svc h name q fk fv n w)
      as (r & w' & evs & Hrun & Ht & _ & Hq).
    rewrite bool_decide_eq_true_2 in Hq by done. by exists r, w', evs.
Qed.

Lemma single_query_string_dispatch_witness :
  (∃ o w2, query_collection healthy (config 5 2) "docs" (QStr "space") 3 None None
             connected_world = (o, w2) ∧
           dispatched_queries (trace w2) = [("docs", QList ["space"])]) ∧
  (∃ r w', run_basic_query healthy 0 "sample_collection" "space" 3 stocked_world
             = (Returned r, w') ∧
           dispatched_queries (trace w') = [("sample_collection", QStr "space")]).
Proof.
  destruct (single_query_string_dispatch healthy "docs" "space" 3) as (Hwrap & _ & _).
  destruct (single_query_string_dispatch healthy "sample_collection" "space" 3)
    as (_ & Hbare & _).
  split.
  - destruct (Hwrap (config 5 2) None None connected_world "docs"
                (World (Some 0%nat) 1 1 0 ["docs"]
                   [EvGetOrCreate "docs" None; EvLog INFO (CollectionAccessed "docs")]))
      as (o & w2 & evs & Hrun & Ht & Hq & _); [reflexivity|].
    exists o, w2. split; [exact Hrun|]. rewrite Ht, dispatched_queries_app, Hq.
    reflexivity.
  - destruct (Hbare 0%nat stocked_world) as (r & w' & evs & Hrun & Ht & Hq);
      [reflexivity|apply list_elem_of_here|].
    exists r, w'. split; [exact Hrun|]. rewrite Ht, dispatched_queries_app, Hq.
    reflexivity.
Defined.

(** ** A filtered query that matches nothing *)

(** C5, as stated, fails: on an empty match [run_filtered_query] returns
    [None], not a result with an empty list. *)
Lemma run_filtered_query_no_match_returns_none :
  ¬ returns_empty_result
      (run_filtered_query unmatched 0 "sample_collection" "space" "source"
                          "Nowhere" 3 stocked_world).1.
Proof. intros (res & rest & H & _). vm_compute in H. discriminate H. Qed.

(** C5, amended.  When the service answers a filtered query with an empty
    document list for the query text, no error is raised and no document
    is shown: [run_filtered_query] prints that nothing matched and
    returns [None]; [ChromaDBClient.query_collection] returns the answer
    of the service, empty list included, as it is. *)
Theorem filtered_query_no_match (svc : service) (name q fk fv : string) (n : Z)
    (h : nat) (w : world) (rest : list (list string)) :
  rpc_fault svc (rpc_calls w) = None → name ∈ collections w →
  rpc_fault svc (S (rpc_calls w)) = None →
  res_documents (query_reply svc (S (rpc_calls w))) = [] :: rest →
  run_filtered_query svc h name q fk fv n w =
    (Returned None,
     World (client w) (conn_calls w) (S (S (rpc_calls w))) (uuid_calls w)
           (collections w)
           (trace w ++
            [EvGetCollection name;
             EvQuery name (QStr q) n (Some {[ fk := PStr fv ]}) None;
             EvPrint (OutFilteredQuery q fk fv); EvPrint (OutTop n);
             EvPrint OutNoMatch])) ∧
  (∀ self w0 w1 c,
     get_or_create_collection svc self name None w0 = (Returned (Some c), w1) →
     rpc_fault svc (rpc_calls w1) = None →
     ∃ w2, query_collection svc self name (QStr q) n (Some {[ fk := PStr fv ]}) None w0
           = (Returned (query_reply svc (rpc_calls w1)), w2) ∧
           shown_documents (trace w2) = shown_documents (trace w1)).
Proof.
  intros Hf Hin Hf2 Hdocs. split.
  - unfold run_filtered_query, try_except.
    erewrite bind_eq by apply client_get_collection_eq.
    rewrite Hf, bool_decide_eq_true_2 by done. cbv zeta.
    erewrite bind_eq by apply collection_query_eq. cbn [rpc_calls]. rewrite Hf2.
    unfold print, emit, mbind, M_bind, mret, M_ret. simpl. rewrite Hdocs. simpl.
    by rewrite <- !app_assoc.
  - intros self w0 w1 c Hgoc Hr.
    rewrite (query_collection_after_access svc self name (QStr q) n _ None w0 c w1 Hgoc).
    rewrite Hr. cbv zeta. eexists. split; [reflexivity|].
    unfold shown_documents. simpl. rewrite omap_app. simpl. by rewrite app_nil_r.
Qed.

Lemma filtered_query_no_match_witness :
  (run_filtered_query unmatched 0 "sample_collection" "space" "source" "Nowhere"
                      3 stocked_world).1 = Returned None.
Proof.
  destruct (filtered_query_no_match unmatched "sample_collection" "space" "source"
              "Nowhere" 3 0 stocked_world [])
    as [Hrun _]; [reflexivity|apply list_elem_of_here|reflexivity|reflexivity|].
  by rewrite Hrun.
Defined.

(** ** The info lookup *)

Lemma calm_ret {A} (a : A) : calm (mret a).
Proof. intros w. exists a, []. rewrite add_events_nil. split; [done|constructor]. Qed.

Lemma calm_print line : calm (print line).
Proof.
  intros w. exists tt, [EvPrint line]. split; [done|].
  constructor; [by eexists|constructor].
Qed.

Lemma calm_bind {A B} (m : M A) (f : A → M B) :
  calm m → (∀ a, calm (f a)) → calm (m ≫= f).
Proof.
  intros Hm Hf w. destruct (Hm w) as (a & evs & Hrun & Hp).
  destruct (Hf a (add_events w evs)) as (b & evs' & Hrun' & Hp').
  exists b, (evs ++ evs'). erewrite bind_eq by exact Hrun. cbv beta iota.
  rewrite Hrun', add_events_app. split; [done|by apply printed_app].
Qed.

Lemma calm_for_each {A} (l : list A) (body : A → M unit) :
  (∀ x, calm (body x)) → calm (for_each l body).
Proof.
  intros Hb. induction l as [|x l IH]; [apply calm_ret|].
  apply calm_bind; [apply Hb|intros _; exact IH].
Qed.

Section InfoLookup.

Variable svc : service.

Lemma collection_count_eq c w :
  collection_count svc c w =
    (match rpc_fault svc (rpc_calls w) with
     | Some e => Raised e
     | None => Returned (count_reply svc (rpc_calls w))
     end,
     World (client w) (conn_calls w) (S (rpc_calls w)) (uuid_calls w)
           (collections w) (trace w ++ [EvCount c])).
Proof.
  unfold collection_count. erewrite bind_eq by apply rpc_eq.
  by destruct (rpc_fault svc (rpc_calls w)).
Qed.

Lemma collection_peek_eq c limit w :
  collection_peek svc c limit w =
    (match rpc_fault svc (rpc_calls w) with
     | Some e => Raised e
     | None => Returned (peek_reply svc (rpc_calls w))
     end,
     World (client w) (conn_calls w) (S (rpc_calls w)) (uuid_calls w)
           (collections w) (trace w ++ [EvPeek c limit])).
Proof.
  unfold collection_peek. erewrite bind_eq by apply rpc_eq.
  by destruct (rpc_fault svc (rpc_calls w)).
Qed.

(** [get_collection_info] always returns: the empty dictionary, after
    reporting the exception, when a step of the lookup fails, and the
    name and count otherwise. *)
Lemma get_collection_info_eq h name w :
  ∃ w' evs,
    get_collection_info svc h name w =
      (Returned (match info_failure svc name w with
                 | Some _ => ∅
                 | None => {[ "name" := PStr name;
                              "count" := PInt (count_reply svc (S (rpc_calls w))) ]}
                 end), w') ∧
    collections w' = collections w ∧
    conn_calls w' = conn_calls w ∧
    trace w' = trace w ++ evs ∧
    lookups evs = [name] ∧
    dispatched_queries evs = [] ∧
    (∀ e, info_failure svc name w = Some e →
          last evs = Some (EvPrint (OutInfoError (str e)))).
Proof.
  unfold get_collection_info, try_except, info_failure.
  erewrite bind_eq by apply client_get_collection_eq.
  destruct (rpc_fault svc (rpc_calls w)) as [e|] eqn:Hf.
  { cbv beta iota. rewrite bind_print. eexists _, _. split; [reflexivity|].
    simpl. rewrite <- app_assoc. repeat split. by intros ? [= <-]. }
  case_bool_decide as Hin.
  2:{ cbv beta iota. rewrite bind_print. eexists _, _. split; [reflexivity|].
      simpl. rewrite <- app_assoc. repeat split. by intros ? [= <-]. }
  erewrite bind_eq by apply collection_count_eq. cbn [rpc_calls].
  destruct (rpc_fault svc (S (rpc_calls w))) as [e|] eqn:Hf2.
  { cbv beta iota. rewrite bind_print. eexists _, _. split; [reflexivity|].
    simpl. rewrite <- !app_assoc. repeat split. by intros ? [= <-]. }
  rewrite !bind_print.
  destruct (count_reply svc (S (rpc_calls w)) >? 0).
  2:{ rewrite !bind_ret. eexists _, _. split; [reflexivity|].
      simpl. rewrite <- !app_assoc. by repeat split. }
  rewrite bind_assoc. erewrite bind_eq by apply collection_peek_eq.
  cbn [rpc_calls add_events].
  destruct (rpc_fault svc (S (S (rpc_calls w)))) as [e|] eqn:Hf3.
  { cbv beta iota. rewrite bind_print. eexists _, _. split; [reflexivity|].
    simpl. rewrite <- !app_assoc. repeat split. by intros ? [= <-]. }
  rewrite bind_assoc, bind_print.
  match goal with |- context [(for_each ?l ?body ≫= _) ?w1] =>
    destruct (calm_for_each l body) with (w := w1) as ([] & evs & Hrun & Hp)
  end.
  { intros [idx [[doc_id doc] metadata]].
    repeat (apply calm_bind; [apply calm_print|intros _]). apply calm_print. }
  erewrite bind_eq by exact Hrun. cbv beta iota.
  eexists _, _. split; [reflexivity|]. simpl. rewrite <- !app_assoc.
  repeat split.
  - rewrite !lookups_app, (printed_lookups evs) by done. reflexivity.
  - rewrite !dispatched_queries_app, (printed_dispatched_queries evs) by done.
    reflexivity.
  - done.
Qed.

End InfoLookup.

(** ** Failures of the remote service *)

Section Failures.

Variable svc : service.

(** What [add_documents] does once the collection is obtained. *)
Lemma add_documents_after_access self name documents metadatas ids embeddings
    w c w1 :
  get_or_create_collection svc self name None w = (Returned (Some c), w1) →
  add_documents svc self name documents metadatas ids embeddings w =
    let ids' := match ids with
                | None => uuid4 svc <$> seq (uuid_calls w1) (length documents)
                | Some ids => ids
                end in
    let drawn := match ids with
                 | None => (uuid_calls w1 + length documents)%nat
                 | Some _ => uuid_calls w1
                 end in
    match rpc_fault svc (rpc_calls w1) with
    | Some e =>
        (Raised e,
         World (client w1) (conn_calls w1) (S (rpc_calls w1)) drawn (collections w1)
               (trace w1 ++ [EvAdd c documents metadatas ids' embeddings;
                             EvLog ERROR (FailedToAdd (str e))]))
    | None =>
        (Returned tt,
         World (client w1) (conn_calls w1) (S (rpc_calls w1)) drawn (collections w1)
               (trace w1 ++ [EvAdd c documents metadatas ids' embeddings;
                             EvLog INFO (AddedDocuments (length documents) name)]))
    end.
Proof.
  intros Hgoc. unfold add_documents. erewrite bind_eq by exact Hgoc.
  unfold try_except. destruct ids as [ids|].
  - rewrite bind_ret. unfold collection_add. rewrite bind_assoc.
    erewrite bind_eq by apply rpc_eq.
    destruct (rpc_fault svc (rpc_calls w1)) as [e|];
      unfold log, emit, mbind, M_bind, mret, M_ret, mthrow, M_throw; simpl.
    + rewrite <- app_assoc. reflexivity.
    + rewrite <- app_assoc. reflexivity.
  - erewrite bind_eq by apply generate_ids_draws. cbv beta iota.
    unfold collection_add. rewrite bind_assoc.
    erewrite bind_eq by apply rpc_eq. cbn [rpc_calls].
    destruct (rpc_fault svc (rpc_calls w1)) as [e|];
      unfold log, emit, mbind, M_bind, mret, M_ret, mthrow, M_throw; simpl;
      by rewrite <- app_assoc.
Qed.


End Failures.


(** ** The command-line script *)

Section Script.

Variable svc : service.

Lemma connect_to_chroma_eq host port w :
  connect_to_chroma svc host port w =
    let k := conn_calls w in
    match connect_outcome svc k with
    | CtorRaises e =>
        (Exited 1,
         World (client w) (S k) (rpc_calls w) (uuid_calls w) (collections w)
               (trace w ++ [EvPrint (OutConnecting host port); EvHttpClient host port;
                            EvPrint (OutConnectFailed (str e))]))
    | HeartbeatRaises e =>
        (Exited 1,
         World (client w) (S k) (rpc_calls w) (uuid_calls w) (collections w)
               (trace w ++ [EvPrint (OutConnecting host port); EvHttpClient host port;
                            EvHeartbeat k; EvPrint (OutConnectFailed (str e))]))
    | Alive =>
        (Returned k,
         World (client w) (S k) (rpc_calls w) (uuid_calls w) (collections w)
               (trace w ++ [EvPrint (OutConnecting host port); EvHttpClient host port;
                            EvHeartbeat k; EvPrint OutConnected]))
    end.
Proof.
  unfold connect_to_chroma. rewrite bind_print.
  unfold try_except, HttpClient, heartbeat, print, emit, sys_exit,
    mbind, M_bind, mret, M_ret, add_events. simpl.
  destruct (connect_outcome svc (conn_calls w)) as [e|e|] eqn:Ho; simpl;
    rewrite ?Ho; simpl; by rewrite <- !app_assoc.
Qed.

Lemma list_names_returns cs : ∀ idx acc w,
  ∃ evs, list_names idx cs acc w = (Returned (acc ++ cs), add_events w evs) ∧
         printed evs.
Proof.
  induction cs as [|c cs IH]; intros idx acc w.
  - exists []. rewrite add_events_nil, app_nil_r. split; [done|constructor].
  - cbn [list_names]. rewrite bind_print.
    destruct (IH (S idx) (acc ++ [c]) (add_events w [EvPrint (OutListed idx c)]))
      as (evs & -> & Hp).
    exists (EvPrint (OutListed idx c) :: evs). rewrite add_events_app, <- app_assoc.
    split; [done|]. constructor; [by eexists|done].
Qed.

(** When the listing request is answered, [list_collections] returns the
    names the service holds, in order. *)
Lemma list_collections_eq h w :
  rpc_fault svc (rpc_calls w) = None →
  ∃ evs,
    list_collections svc h w =
      (Returned (collections w),
       World (client w) (conn_calls w) (S (rpc_calls w)) (uuid_calls w)
             (collections w) (trace w ++ EvListCollections :: evs)) ∧
    printed evs.
Proof.
  intros Hf. unfold list_collections, client_list_collections.
  rewrite bind_assoc. erewrite bind_eq by apply rpc_eq. rewrite Hf.
  unfold remote_collections at 1. unfold mbind at 1, M_bind at 1.
  cbn [collections].
  destruct (collections w) as [|c cs] eqn:Hcs.
  - rewrite bind_print. exists [EvPrint OutNoCollections].
    unfold add_events. simpl. rewrite ?Hcs, <- ?app_assoc.
    split; [done|]. constructor; [by eexists|constructor].
  - rewrite bind_print.
    match goal with |- context [list_names 1 ?l [] ?w1] =>
      destruct (list_names_returns l 1 [] w1) as (evs & -> & Hp) end.
    exists (EvPrint (OutFound (length (c :: cs))) :: evs).
    unfold add_events. simpl. rewrite ?Hcs, <- ?app_assoc.
    split; [done|]. constructor; [by eexists|done].
Qed.

End Script.

Lemma info_nonempty (name : string) (count : Z) :
  ({[ "name" := PStr name; "count" := PInt count ]} : pydict) ≠ ∅.
Proof.
  intros H. apply (f_equal (λ m : pydict, m !! "name")) in H.
  by rewrite lookup_insert_eq in H.
Qed.


Section ScriptTheorems.

Variable svc : service.


End ScriptTheorems.


(** ** Get-or-create before every operation *)

(** A loop that returns a value returned it from some round of its body. *)
Lemma while_loop_returned {A St} fuel (cond : St → bool) (body : St → M (ctl A St)) :
  ∀ s w a w',
    while_loop fuel cond body s w = (Returned (Some a), w') →
    ∃ s0 w0, body s0 w0 = (Returned (Break a), w').
Proof.
  induction fuel as [|fuel IH]; intros s w a w' H; simpl in H.
  - by destruct (cond s).
  - destruct (cond s); [|done]. rewrite bind_unfold in H.
    destruct (body s w) as [[[b|s1]|e|st|] w1] eqn:Hb; try done.
    + injection H as <- <-. by exists s, w.
    + by apply IH in H.
Qed.

Section Creation.

Variable svc : service.
Variable self : ChromaDBClient.
Variable name : string.

(** A round of the get-or-create loop returns only the collection asked
    for, which the service then holds. *)
Lemma get_or_create_body_returned metadata a w r w' :
  get_or_create_body svc self name metadata a w = (Returned (Break r), w') →
  r = Some name ∧ name ∈ collections w'.
Proof.
  unfold get_or_create_body, client_get_or_create_collection, remote_get_or_create.
  run.
  destruct (client w) as [c|]; run;
    [destruct (rpc_fault svc (rpc_calls w)) as [e|]; run|];
    try (destruct (a + 1 >=? max_retries self); run; [done|];
         destruct (sleep_error svc (retry_delay self)); run; [done|];
         destruct ((a + 1) `mod` 2 =? 0); run; [|done];
         match goal with |- context [_connect svc self ?w1] =>
           by destruct (_connect svc self w1) as [[[]|?|?|] ?] end).
  intros [= <- <-]. split; [done|]. simpl.
  case_bool_decide; [done|]. apply elem_of_app. right. apply list_elem_of_here.
Qed.

(** Whenever [get_or_create_collection] returns a collection, on whatever
    attempt, it is the one asked for and the service holds it. *)
Lemma get_or_create_returned metadata w c w' :
  get_or_create_collection svc self name metadata w = (Returned (Some c), w') →
  c = name ∧ name ∈ collections w'.
Proof.
  unfold get_or_create_collection. rewrite bind_unfold.
  destruct (while_loop _ _ _ _ w) as [[[r|]|e|st|] w1] eqn:Hloop; try done.
  intros [= -> <-].
  apply while_loop_returned in Hloop as (s0 & w0 & Hb).
  apply get_or_create_body_returned in Hb as [[= ->] Hin]. done.
Qed.

End Creation.

Section CreationTheorem.

Variable svc : service.
Variable self : ChromaDBClient.
Variable name : string.


End CreationTheorem.


(** * Further properties of the wrapper *)

Section ConnectTotal.

Variable svc : service.
Variable self : ChromaDBClient.

(** One round of the connection loop: it makes one attempt, touches
    nothing but the handle and the trace, and goes round again only when
    a further attempt is allowed. *)
Lemma connect_body_cases a w :
  ∃ o w', connect_body svc self a w = (o, w') ∧
          conn_calls w' = S (conn_calls w) ∧ same_remote w w' ∧
          ((o = Returned (Break tt) ∧ connect_outcome svc (conn_calls w) = Alive ∧
            client w' = Some (conn_calls w) ∧
            last (trace w') = Some (EvLog INFO Connected)) ∨
           (o = Returned (Continue (a + 1)) ∧ a + 1 < max_retries self ∧
            attempt_error svc (conn_calls w) ≠ None) ∨
           (∃ e, o = Raised e ∧ attempt_error svc (conn_calls w) ≠ None)).
Proof.
  unfold connect_body, attempt_error, same_remote. run.
  destruct (connect_outcome svc (conn_calls w)) as [e|e|] eqn:Ho; simpl; rewrite ?Ho; simpl.
  3:{ eexists _, _. split; [reflexivity|]. simpl. repeat split. left.
      repeat split. by rewrite last_app. }
  all: destruct (a + 1 >=? max_retries self) eqn:Hge; simpl;
    [eexists _, _; (split; [reflexivity|]); simpl; repeat split; right; right;
     by eexists|];
    destruct (sleep_error svc (retry_delay self)); simpl;
    eexists _, _; (split; [reflexivity|]); simpl; repeat split; right;
    [right; by eexists|left; repeat split; [|done]];
    rewrite Z.geb_leb in Hge; apply Z.leb_gt in Hge; lia.
Qed.

(** The connection loop ends within its fuel: it returns after a
    successful attempt or raises, after at least one and at most the
    remaining number of attempts. *)
Lemma connect_loop_total fuel : ∀ a w,
  a < max_retries self → (Z.to_nat (max_retries self - a) ≤ fuel)%nat →
  ∃ o w',
    while_loop fuel (λ attempts, attempts <? max_retries self)
               (connect_body svc self) a w = (o, w') ∧
    same_remote w w' ∧
    (conn_calls w < conn_calls w' ≤ conn_calls w + Z.to_nat (max_retries self - a))%nat ∧
    ((o = Returned (Some tt) ∧
      connect_outcome svc (conn_calls w' - 1) = Alive ∧
      client w' = Some (conn_calls w' - 1)%nat ∧
      last (trace w') = Some (EvLog INFO Connected)) ∨
     (∃ e, o = Raised e)).
Proof.
  induction fuel as [|fuel IH]; intros a w Ha Hfuel; [lia|].
  destruct (connect_body_cases a w) as (o & w1 & Hb & Hc & Hr & Hcases).
  assert ((a <? max_retries self) = true) as Hcond by (apply Z.ltb_lt; lia).
  destruct Hcases as [(-> & Hal & Hcl & Hlast)|[(-> & Hlt & _)|(e & -> & _)]].
  - exists (Returned (Some tt)), w1. split; [by eapply while_loop_break|].
    split; [done|]. split; [lia|]. left. rewrite Hc. simpl.
    rewrite Nat.sub_0_r. by repeat split.
  - destruct (IH (a + 1) w1) as (o & w2 & Hl & Hr2 & Hc2 & Hcases); [lia..|].
    exists o, w2. split; [by erewrite while_loop_continue|].
    split; [unfold same_remote in *; intuition congruence|].
    split; [lia|done].
  - exists (Raised e), w1. split; [by eapply while_loop_raise|].
    split; [done|]. split; [lia|]. right. by eexists.
Qed.

(** [_connect] in every case. *)
Lemma connect_cases (w : world) :
  ∃ o w',
    _connect svc self w = (o, w') ∧
    same_remote w w' ∧
    (conn_calls w ≤ conn_calls w' ≤ conn_calls w + Z.to_nat (max_retries self))%nat ∧
    ((o = Returned tt ∧
      (1 ≤ max_retries self →
       connect_outcome svc (conn_calls w' - 1) = Alive ∧
       client w' = Some (conn_calls w' - 1)%nat ∧
       (conn_calls w < conn_calls w')%nat ∧
       last (trace w') = Some (EvLog INFO Connected))) ∨
     (∃ e, o = Raised e)).
Proof.
  destruct (Z_lt_le_dec 0 (max_retries self)) as [Hn|Hn].
  - destruct (connect_loop_total (Z.to_nat (max_retries self)) 0 w)
      as (o & w' & Hl & Hr & Hc & Hcases); [lia..|].
    rewrite Z.sub_0_r in Hc.
    destruct Hcases as [(-> & Hal & Hcl & Hlast)|(e & ->)].
    + exists (Returned tt), w'.
      rewrite (connect_of_loop_returned svc self _ w (Some tt) w' Hl eq_refl).
      split; [done|]. split; [done|]. split; [lia|]. left. split; [done|].
      intros _. repeat split; [done|done|lia|done].
    + exists (Raised e), w'.
      rewrite (connect_of_loop_raised svc self _ w e w' Hl eq_refl).
      split; [done|]. split; [done|]. split; [lia|]. right. by eexists.
  - exists (Returned tt), w. rewrite connect_nonpositive by done.
    split; [done|]. split; [done|]. split; [lia|]. left. split; [done|]. lia.
Qed.

(** X1.  Whatever the service does, [_connect] ends: it returns or
    raises.  It makes at most [max_retries] attempts, and it sends no
    other request, draws no identifier and leaves the collections alone. *)
Theorem connect_bounded_and_framed (w : world) :
  ∃ o w',
    _connect svc self w = (o, w') ∧
    (o = Returned tt ∨ ∃ e, o = Raised e) ∧
    rpc_calls w' = rpc_calls w ∧ uuid_calls w' = uuid_calls w ∧
    collections w' = collections w ∧
    (conn_calls w ≤ conn_calls w' ≤ conn_calls w + Z.to_nat (max_retries self))%nat.
Proof.
  destruct (connect_cases w) as (o & w' & Hrun & (Hr & Hu & Hco) & Hc & Hcases).
  exists o, w'. repeat split; try done; try lia.
  destruct Hcases as [[-> _]|He]; [by left|by right].
Qed.

(** X2.  When at least one attempt is allowed and [_connect] returns, the
    handle it stored in [self.client] is the one of its last attempt, and
    the heartbeat on that handle succeeded. *)
Theorem connect_returns_live_handle (w w' : world) :
  1 ≤ max_retries self →
  _connect svc self w = (Returned tt, w') →
  ∃ h, client w' = Some h ∧ connect_outcome svc h = Alive ∧
       conn_calls w' = S h ∧ (conn_calls w ≤ h)%nat ∧
       last (trace w') = Some (EvLog INFO Connected).
Proof.
  intros Hn Hrun.
  destruct (connect_cases w) as (o & w1 & Hrun1 & _ & Hc & Hcases).
  rewrite Hrun in Hrun1. injection Hrun1 as <- <-.
  destruct Hcases as [[_ Hlive]|[e [=]]].
  destruct (Hlive Hn) as (Hal & Hcl & Hlt & Hlast).
  exists (conn_calls w' - 1)%nat. repeat split; [done|done|lia|lia|done].
Qed.

End ConnectTotal.

Lemma connect_returns_live_handle_witness :
  ∃ w', _connect healthy (config 3 2) fresh_world = (Returned tt, w') ∧
        client w' = Some 0%nat.
Proof.
  exists (_connect healthy (config 3 2) fresh_world).2. split; [reflexivity|].
  destruct (connect_returns_live_handle healthy (config 3 2) fresh_world
              (_connect healthy (config 3 2) fresh_world).2)
    as (h & Hcl & _ & Hc & _); [simpl; lia|reflexivity|].
  rewrite Hcl. f_equal. simpl in Hc. lia.
Defined.

Section RejectedDelay.

Variable svc : service.
Variable self : ChromaDBClient.

(** X3.  A [retry_delay] that [time.sleep] rejects, with at least two
    attempts allowed: the first failure is followed by [time.sleep]
    raising its exception, which ends [_connect] and
    [get_or_create_collection] after a single attempt, with a warning but
    no error log line, in place of the failure of the service.  The
    exception is [ValueError] for a negative delay down to [- SLEEP_MAX]
    seconds and [OverflowError] for a delay beyond [SLEEP_MAX] on either
    side. *)
Theorem rejected_delay_ends_retries (w : world) (err : exn) :
  sleep_error svc (retry_delay self) = Some err → 2 ≤ max_retries self →
  (attempt_error svc (conn_calls w) ≠ None →
   ∃ w', _connect svc self w = (Raised err, w') ∧
         conn_calls w' = S (conn_calls w) ∧
         trace w' = trace w ++ failed_attempt svc self (conn_calls w) 1) ∧
  (∀ name metadata c e,
     client w = Some c → rpc_fault svc (rpc_calls w) = Some e →
     ∃ w', get_or_create_collection svc self name metadata w = (Raised err, w') ∧
           rpc_calls w' = S (rpc_calls w) ∧
           trace w' = trace w ++ failed_access svc name metadata (rpc_calls w) 1) ∧
  (- SLEEP_MAX ≤ retry_delay self < 0 →
   err = ValueError "sleep length must be non-negative") ∧
  (retry_delay self < - SLEEP_MAX ∨ SLEEP_MAX < retry_delay self →
   ∃ msg, err = OverflowError msg).
Proof.
  intros Hs Hn.
  assert ((0 <? max_retries self) = true) as Hcond by (apply Z.ltb_lt; lia).
  assert ((0 + 1 >=? max_retries self) = false) as Hge
    by (rewrite Z.geb_leb; apply Z.leb_gt; lia).
  destruct (Z.to_nat (max_retries self)) as [|fuel] eqn:Hfuel; [lia|].
  split; [|split; [|split]].
  - intros He. unfold attempt_error in He.
    destruct (connect_outcome svc (conn_calls w)) as [e|e|] eqn:Ho; [| |done];
      (eexists; split;
       [eapply (connect_of_loop_raised svc self (S fuel)); [|done];
        eapply while_loop_raise; [done|];
        unfold connect_body; run; rewrite ?Ho; simpl; rewrite ?Ho; simpl;
        rewrite Hge; simpl; rewrite Hs; reflexivity|]);
      unfold failed_attempt, attempt_requests, attempt_error; rewrite Ho;
      simpl; rewrite <- ?app_assoc; by split.
  - intros name metadata c e Hc Hf. eexists. split.
    + eapply (get_or_create_of_loop svc self name metadata (S fuel) w (Raised _));
        [|done].
      eapply while_loop_raise; [done|].
      unfold get_or_create_body, client_get_or_create_collection. run.
      rewrite Hc. run. rewrite Hf. simpl. rewrite Hge. simpl. rewrite Hs. reflexivity.
    + unfold failed_access. simpl. rewrite Hf, <- ?app_assoc. by split.
  - intros Hneg. unfold sleep_error in Hs.
    destruct (Z.ltb_spec (retry_delay self) (- SLEEP_MAX)); [lia|].
    destruct (Z.ltb_spec SLEEP_MAX (retry_delay self)); [lia|].
    destruct (Z.ltb_spec (retry_delay self) 0); [|lia].
    simpl in Hs. by injection Hs as <-.
  - intros Hout. unfold sleep_error in Hs.
    destruct (Z.ltb_spec (retry_delay self) (- SLEEP_MAX));
      [simpl in Hs; injection Hs as <-; by eexists|].
    destruct (Z.ltb_spec SLEEP_MAX (retry_delay self)); [|lia].
    simpl in Hs. injection Hs as <-. by eexists.
Qed.

End RejectedDelay.

Lemma rejected_delay_ends_retries_witness :
  (_connect down (config 3 (-1)) fresh_world).1
    = Raised (ValueError "sleep length must be non-negative") ∧
  (get_or_create_collection failing (config 3 (-1)) "docs" None connected_world).1
    = Raised (ValueError "sleep length must be non-negative").
Proof.
  destruct (rejected_delay_ends_retries down (config 3 (-1)) fresh_world
              (ValueError "sleep length must be non-negative"))
    as (Hconn & _); [reflexivity|simpl; lia|].
  destruct (rejected_delay_ends_retries failing (config 3 (-1)) connected_world
              (ValueError "sleep length must be non-negative"))
    as (_ & Hgoc & _); [reflexivity|simpl; lia|].
  split.
  - destruct Hconn as (w' & Hrun & _); [discriminate|]. by rewrite Hrun.
  - destruct (Hgoc "docs" None 0%nat boom) as (w' & Hrun & _); [reflexivity..|].
    by rewrite Hrun.
Defined.

Section AccessTotal.

Variable svc : service.
Variable self : ChromaDBClient.
Variable name : string.
Variable metadata : option pydict.

(** One round of the get-or-create loop, in every case. *)
Lemma get_or_create_body_cases a w :
  ∃ o w', get_or_create_body svc self name metadata a w = (o, w') ∧
          uuid_calls w' = uuid_calls w ∧
          (rpc_calls w ≤ rpc_calls w' ≤ S (rpc_calls w))%nat ∧
          ((o = Returned (Break (Some name)) ∧ name ∈ collections w' ∧
            (collections w' = collections w ∨
             (name ∉ collections w) ∧ collections w' = collections w ++ [name])) ∨
           (o = Returned (Continue (a + 1)) ∧ a + 1 < max_retries self ∧
            collections w' = collections w) ∨
           (∃ e, o = Raised e ∧ collections w' = collections w)).
Proof.
  unfold get_or_create_body, client_get_or_create_collection, remote_get_or_create.
  run.
  destruct (client w) as [c|]; run;
    [destruct (rpc_fault svc (rpc_calls w)) as [e|] eqn:Hf; run|].
  2:{ eexists _, _. split; [reflexivity|]. simpl.
      split; [by case_bool_decide|]. split; [case_bool_decide; simpl; lia|].
      left. split; [done|]. case_bool_decide; simpl; [by split; [|left]|].
      split; [apply elem_of_app; right; apply list_elem_of_here|by right]. }
  all: destruct (a + 1 >=? max_retries self) eqn:Hge; run;
    [eexists _, _; (split; [reflexivity|]); simpl;
     repeat split; try lia; right; right; by eexists|];
    rewrite Z.geb_leb in Hge; apply Z.leb_gt in Hge;
    destruct (sleep_error svc (retry_delay self)); run;
    [eexists _, _; (split; [reflexivity|]); simpl;
     repeat split; try lia; right; right; by eexists|];
    destruct ((a + 1) `mod` 2 =? 0); run;
    [|eexists _, _; (split; [reflexivity|]); simpl;
      repeat split; try lia; right; left; repeat split; (done || lia)];
    match goal with |- context [_connect svc self ?w1] =>
      destruct (connect_cases svc self w1)
        as (o & w' & -> & (Hr & Hu & Hco) & _ & [[-> _]|[e' ->]]) end;
    simpl in *; eexists _, _; (split; [reflexivity|]);
    (split; [done|]); (split; [lia|]);
    [right; left; repeat split; (done || lia)|right; right; by eexists].
Qed.

(** The get-or-create loop ends within its fuel, by a [return] from its
    body or by an exception, never by its condition. *)
Lemma get_or_create_loop_total fuel : ∀ a w,
  a < max_retries self → (Z.to_nat (max_retries self - a) ≤ fuel)%nat →
  ∃ o w',
    while_loop fuel (λ attempts, attempts <? max_retries self)
               (get_or_create_body svc self name metadata) a w = (o, w') ∧
    uuid_calls w' = uuid_calls w ∧
    (rpc_calls w ≤ rpc_calls w' ≤ rpc_calls w + Z.to_nat (max_retries self - a))%nat ∧
    ((o = Returned (Some (Some name)) ∧ name ∈ collections w' ∧
      (collections w' = collections w ∨
       (name ∉ collections w) ∧ collections w' = collections w ++ [name])) ∨
     (∃ e, o = Raised e ∧ collections w' = collections w)).
Proof.
  induction fuel as [|fuel IH]; intros a w Ha Hfuel; [lia|].
  destruct (get_or_create_body_cases a w) as (o & w1 & Hb & Hu & Hr & Hcases).
  assert ((a <? max_retries self) = true) as Hcond by (apply Z.ltb_lt; lia).
  destruct Hcases as [(-> & Hin & Hco)|[(-> & Hlt & Hco)|(e & -> & Hco)]].
  - exists (Returned (Some (Some name))), w1.
    split; [by eapply while_loop_break|]. split; [done|]. split; [lia|]. by left.
  - destruct (IH (a + 1) w1) as (o & w2 & Hl & Hu2 & Hr2 & Hcases); [lia..|].
    exists o, w2. split; [by erewrite while_loop_continue|].
    split; [congruence|]. split; [lia|]. by rewrite <- Hco.
  - exists (Raised e), w1. split; [by eapply while_loop_raise|].
    split; [done|]. split; [lia|]. right. by eexists.
Qed.

(** [get_or_create_collection] in every case, when an attempt is allowed. *)
Lemma get_or_create_cases w :
  1 ≤ max_retries self →
  ∃ o w',
    get_or_create_collection svc self name metadata w = (o, w') ∧
    uuid_calls w' = uuid_calls w ∧
    (rpc_calls w ≤ rpc_calls w' ≤ rpc_calls w + Z.to_nat (max_retries self))%nat ∧
    ((o = Returned (Some name) ∧ name ∈ collections w' ∧
      (collections w' = collections w ∨
       (name ∉ collections w) ∧ collections w' = collections w ++ [name])) ∨
     (∃ e, o = Raised e ∧ collections w' = collections w)).
Proof.
  intros Hn.
  destruct (get_or_create_loop_total (Z.to_nat (max_retries self)) 0 w)
    as (o & w' & Hl & Hu & Hr & Hcases); [lia..|].
  rewrite Z.sub_0_r in Hr.
  rewrite (get_or_create_of_loop svc self name metadata _ w o w' Hl eq_refl).
  destruct Hcases as [(-> & Hin & Hco)|(e & -> & Hco)].
  - eexists _, w'. split; [reflexivity|]. split; [done|]. split; [done|]. by left.
  - eexists _, w'. split; [reflexivity|]. split; [done|]. split; [done|].
    right. by eexists.
Qed.


End AccessTotal.


Section Operations.

Variable svc : service.
Variable self : ChromaDBClient.
Variable name : string.

(** X5.  With [max_retries <= 0] the collection obtained is [None], so
    [add_documents] and [query_collection] raise [AttributeError], logged
    at error level, without a single request; [add_documents] has by then
    drawn its identifiers when none were given. *)
Theorem operations_without_attempts (w : world) :
  max_retries self ≤ 0 →
  (∀ documents metadatas ids embeddings,
     add_documents svc self name documents metadatas ids embeddings w =
       (Raised (AttributeError "'NoneType' object has no attribute 'add'"),
        World (client w) (conn_calls w) (rpc_calls w)
              (match ids with
               | None => uuid_calls w + length documents
               | Some _ => uuid_calls w
               end)%nat
              (collections w)
              (trace w ++ [EvLog ERROR
                             (FailedToAdd "'NoneType' object has no attribute 'add'")]))) ∧
  (∀ q n wh wd,
     query_collection svc self name q n wh wd w =
       (Raised (AttributeError "'NoneType' object has no attribute 'query'"),
        add_events w [EvLog ERROR
                        (FailedToQuery "'NoneType' object has no attribute 'query'")])).
Proof.
  intros Hn. split.
  - intros documents metadatas ids embeddings. unfold add_documents.
    erewrite bind_eq by (by apply get_or_create_nonpositive). cbv beta iota.
    unfold try_except. destruct ids as [ids|].
    + by destruct w.
    + erewrite bind_eq by apply generate_ids_draws. reflexivity.
  - intros q n wh wd. unfold query_collection.
    erewrite bind_eq by (by apply get_or_create_nonpositive). reflexivity.
Qed.

(** X6.  Identifiers given to [add_documents] are handed to
    [collection.add] as they are, whatever their number, and none is
    generated; the success line counts the documents. *)
Theorem add_documents_forwards_given_ids (documents : list string)
    (metadatas : option (list pydict)) (ids : list string)
    (embeddings : option (list (list Q))) (w w1 : world) (c : string) :
  get_or_create_collection svc self name None w = (Returned (Some c), w1) →
  ∃ o w2 line,
    add_documents svc self name documents metadatas (Some ids) embeddings w
      = (o, w2) ∧
    uuid_calls w2 = uuid_calls w1 ∧ rpc_calls w2 = S (rpc_calls w1) ∧
    trace w2 = trace w1 ++ [EvAdd c documents metadatas ids embeddings; line] ∧
    (o = Returned tt ↔ rpc_fault svc (rpc_calls w1) = None) ∧
    (o = Returned tt → line = EvLog INFO (AddedDocuments (length documents) name)).
Proof.
  intros Hgoc.
  rewrite (add_documents_after_access svc self name documents metadatas (Some ids)
             embeddings w c w1 Hgoc). cbv zeta.
  destruct (rpc_fault svc (rpc_calls w1)) as [e|];
    eexists _, _, _; (split; [reflexivity|]); by repeat split.
Qed.

(** X7.  [query_collection] sends one query, always in list form: a list
    of texts, the empty one too, goes out as it is, and the count and
    both filters go out unchanged; what it returns is the answer of the
    service to that query. *)
Theorem query_collection_forwards_request (q : query_arg) (n : Z)
    (wh wd : option pydict) (w w1 : world) (c : string) :
  get_or_create_collection svc self name None w = (Returned (Some c), w1) →
  ∃ o w2 l line,
    query_collection svc self name q n wh wd w = (o, w2) ∧
    trace w2 = trace w1 ++ [EvQuery c (QList l) n wh wd; line] ∧
    l = match q with QStr s => [s] | QList l => l end ∧
    (∀ res, o = Returned res → res = query_reply svc (rpc_calls w1)) ∧
    (rpc_fault svc (rpc_calls w1) = None → o = Returned (query_reply svc (rpc_calls w1))).
Proof.
  intros Hgoc.
  rewrite (query_collection_after_access svc self name q n wh wd w c w1 Hgoc).
  cbv zeta.
  destruct (rpc_fault svc (rpc_calls w1)) as [e|]; destruct q as [s|l];
    eexists _, _, _, _; (split; [reflexivity|]);
    repeat split; try done;
    first [by intros ? [= <-]|by intros ? [=]|by intros [=]].
Qed.

(** X8.  Two operations in a row on a name the service does not hold,
    with a service that answers: the first creates the collection, the
    second finds it, so the name is registered once. *)
Theorem add_then_query_creates_once (documents : list string)
    (metadatas : option (list pydict)) (ids : list string) (q : query_arg)
    (n : Z) (w : world) (c0 : nat) :
  1 ≤ max_retries self → client w = Some c0 → name ∉ collections w →
  (∀ k, (k < 4)%nat → rpc_fault svc (rpc_calls w + k) = None) →
  ∃ w',
    (add_documents svc self name documents metadatas (Some ids) None;;
     query_collection svc self name q n None None) w
      = (Returned (query_reply svc (rpc_calls w + 3)), w') ∧
    collections w' = collections w ++ [name] ∧
    rpc_calls w' = (rpc_calls w + 4)%nat ∧
    ∃ evs, trace w' = trace w ++ evs ∧ accesses evs = [name; name] ∧
           added_ids evs = [ids].
Proof.
  intros Hn Hc Hnew Hf.
  pose proof (Hf 0%nat ltac:(lia)) as Hf0. rewrite Nat.add_0_r in Hf0.
  pose proof (get_or_create_first_try svc self name None w c0 Hn Hc Hf0) as Hgoc.
  rewrite bool_decide_eq_false_2 in Hgoc by done.
  rewrite bind_unfold,
    (add_documents_after_access svc self name documents metadatas
       (Some ids) None w name _ Hgoc).
  cbv zeta. cbn [rpc_calls].
  replace (S (rpc_calls w)) with (rpc_calls w + 1)%nat by lia.
  rewrite (Hf 1%nat) by lia. cbv beta iota.
  cbn [rpc_calls collections trace client conn_calls uuid_calls].
  match goal with |- context [query_collection _ _ _ _ _ _ _ ?w2] =>
    pose proof (get_or_create_first_try svc self name None w2 c0 Hn Hc) as Hgoc2 end.
  cbn [rpc_calls collections trace client conn_calls uuid_calls] in Hgoc2.
  replace (S (rpc_calls w + 1)) with (rpc_calls w + 2)%nat in * by lia.
  specialize (Hgoc2 (Hf 2%nat ltac:(lia))).
  rewrite bool_decide_eq_true_2 in Hgoc2
    by (apply elem_of_app; right; apply list_elem_of_here).
  rewrite (query_collection_after_access svc self name q n None None _ name _ Hgoc2).
  cbv zeta. cbn [rpc_calls].
  replace (S (rpc_calls w + 2)) with (rpc_calls w + 3)%nat by lia.
  rewrite (Hf 3%nat) by lia.
  eexists. split; [reflexivity|]. cbn [collections rpc_calls trace].
  split; [done|]. split; [lia|].
  eexists. rewrite <- !app_assoc. split; [reflexivity|]. by split.
Qed.

End Operations.

Lemma operations_without_attempts_witness :
  (add_documents down (config 0 2) "docs" ["a"; "b"] None None None fresh_world).1
    = Raised (AttributeError "'NoneType' object has no attribute 'add'") ∧
  uuid_calls (add_documents down (config 0 2) "docs" ["a"; "b"] None None None
                            fresh_world).2 = 2%nat.
Proof.
  destruct (operations_without_attempts down (config 0 2) "docs" fresh_world)
    as [Hadd _]; [simpl; lia|].
  rewrite (Hadd ["a"; "b"] None None None). by split.
Defined.

Lemma add_documents_forwards_given_ids_witness :
  ∃ o w2, add_documents healthy (config 5 2) "docs" ["a"; "b"] None (Some ["only"])
            None connected_world = (o, w2) ∧
          added_ids (trace w2) = [["only"]] ∧ uuid_calls w2 = 0%nat.
Proof.
  destruct (add_documents_forwards_given_ids healthy (config 5 2) "docs" ["a"; "b"]
              None ["only"] None connected_world
              (World (Some 0%nat) 1 1 0 ["docs"]
                 [EvGetOrCreate "docs" None; EvLog INFO (CollectionAccessed "docs")])
              "docs") as (o & w2 & line & Hrun & Hu & _ & Ht & Hok & Hline);
    [reflexivity|].
  exists o, w2. split; [done|]. rewrite Ht, Hu. split; [|done].
  rewrite (Hline (proj2 Hok eq_refl)). reflexivity.
Defined.

Lemma query_collection_forwards_request_witness :
  ∃ w2 line,
    query_collection healthy (config 5 2) "docs" (QList []) 3 None None
      connected_world = (Returned one_hit, w2) ∧
    trace w2 = [EvGetOrCreate "docs" None; EvLog INFO (CollectionAccessed "docs");
                EvQuery "docs" (QList []) 3 None None; line].
Proof.
  destruct (query_collection_forwards_request healthy (config 5 2) "docs" (QList [])
              3 None None connected_world
              (World (Some 0%nat) 1 1 0 ["docs"]
                 [EvGetOrCreate "docs" None; EvLog INFO (CollectionAccessed "docs")])
              "docs") as (o & w2 & l & line & Hrun & Ht & -> & _ & Hok);
    [reflexivity|].
  rewrite (Hok eq_refl) in Hrun. by exists w2, line.
Defined.

Lemma add_then_query_creates_once_witness :
  ∃ w', (add_documents healthy (config 5 2) "docs" ["a"] None (Some ["id1"]) None;;
         query_collection healthy (config 5 2) "docs" (QStr "space") 3 None None)
          connected_world = (Returned one_hit, w') ∧
        collections w' = ["docs"].
Proof.
  destruct (add_then_query_creates_once healthy (config 5 2) "docs" ["a"] None
              ["id1"] (QStr "space") 3 connected_world 0)
    as (w' & Hrun & Hco & _); [simpl; lia|reflexivity|apply not_elem_of_nil|done|].
  by exists w'.
Defined.

(** * The sample data *)

(** X9.  The identifiers [load_sample_data] builds for [n] documents are
    [n] in number, pairwise distinct, and the [i]-th (from 0) is ["doc_"]
    followed by the decimal of [i + 1]. *)
Theorem doc_ids_distinct (n : nat) :
  length (doc_ids n) = n ∧ NoDup (doc_ids n) ∧
  ∀ i, (i < n)%nat → doc_ids n !! i = Some ("doc_" +:+ pretty (S i)).
Proof.
  unfold doc_ids. split; [by rewrite length_fmap, length_seq|]. split.
  - apply NoDup_fmap_2; [|apply NoDup_seq].
    intros i j H. apply (inj (String.app "doc_")) in H.
    apply (inj pretty) in H. lia.
  - intros i Hi. rewrite list_lookup_fmap, lookup_seq_lt by done. simpl.
    by rewrite Nat.add_1_r.
Qed.

Section SampleLoad.

Variable svc : service.
Variable self : ChromaDBClient.

(** X10.  [load_sample_data], once the collection is obtained, sends one
    add request to ["sample_collection"] with fifteen documents, fifteen
    metadata dictionaries and the identifiers [doc_1] to [doc_15]; it
    draws no identifier, so loading again sends the same ones.  When it
    returns, the service holds the collection the command-line client
    asks for by default. *)
Theorem load_sample_data_request (w w1 : world) (c : string) :
  get_or_create_collection svc self "sample_collection" None w
    = (Returned (Some c), w1) →
  ∃ o w2 documents metadatas line,
    load_sample_data svc self w = (o, w2) ∧
    trace w2 = trace w1 ++
      [EvAdd c documents (Some metadatas)
             ["doc_1"; "doc_2"; "doc_3"; "doc_4"; "doc_5"; "doc_6"; "doc_7";
              "doc_8"; "doc_9"; "doc_10"; "doc_11"; "doc_12"; "doc_13";
              "doc_14"; "doc_15"] None; line] ∧
    length documents = 15%nat ∧ length metadatas = 15%nat ∧
    uuid_calls w2 = uuid_calls w1 ∧
    (o = Returned tt ↔ rpc_fault svc (rpc_calls w1) = None) ∧
    (o = Returned tt → arg_collection default_args ∈ collections w2).
Proof.
  intros Hgoc. unfold load_sample_data. cbv zeta.
  rewrite (add_documents_after_access svc self _ _ _ _ _ w c w1 Hgoc). cbv zeta.
  pose proof (get_or_create_returned svc self _ None w c w1 Hgoc) as [_ Hin].
  destruct (rpc_fault svc (rpc_calls w1)) as [e|];
    eexists _, _, _, _, _; (split; [reflexivity|]);
    (split; [reflexivity|]); by repeat split.
Qed.

End SampleLoad.

Lemma load_sample_data_request_witness :
  ∃ w2, load_sample_data healthy (config 5 2) connected_world = (Returned tt, w2) ∧
        collections w2 = ["sample_collection"] ∧
        length <$> added_ids (trace w2) = [15%nat].
Proof.
  destruct (load_sample_data_request healthy (config 5 2) connected_world
              (World (Some 0%nat) 1 1 0 ["sample_collection"]
                 [EvGetOrCreate "sample_collection" None;
                  EvLog INFO (CollectionAccessed "sample_collection")])
              "sample_collection")
    as (o & w2 & documents & metadatas & line & Hrun & Ht & _ & _ & _ & Hok & _);
    [reflexivity|].
  rewrite (proj2 Hok eq_refl) in Hrun. exists w2. split; [done|].
  vm_compute in Hrun. injection Hrun as <-. by split.
Defined.

(** * Further properties of the command-line client *)

Lemma printed_fmap lines : printed (EvPrint <$> lines).
Proof. induction lines; constructor; [by eexists|done]. Qed.

Lemma printed_lines_fmap lines : printed_lines (EvPrint <$> lines) = lines.
Proof. induction lines as [|l lines IH]; [done|]. simpl. f_equal. apply IH. Qed.

Lemma requests_app evs evs' : requests (evs ++ evs') = requests evs ++ requests evs'.
Proof. apply List.filter_app. Qed.

Lemma printed_requests evs : printed evs → requests evs = [].
Proof. induction 1 as [|ev evs [line ->] _ IH]; [done|exact IH]. Qed.

(** A loop whose body prints given lines prints them for each element in
    turn. *)
Lemma for_each_prints {A} (l : list A) (body : A → M unit)
    (lines : A → list output) :
  (∀ x w, body x w = (Returned tt, add_events w (EvPrint <$> lines x))) →
  ∀ w, for_each l body w = (Returned tt, add_events w (EvPrint <$> (l ≫= lines))).
Proof.
  intros Hb. induction l as [|x l IH]; intros w.
  - by rewrite add_events_nil.
  - cbn [for_each]. erewrite bind_eq by apply Hb. cbv beta iota.
    rewrite IH, add_events_app. by rewrite bind_cons, fmap_app.
Qed.

Section Connection.

Variable svc : service.

(** X11.  [connect_to_chroma] makes exactly one attempt, without retry or
    sleep: it returns the handle when the service answers and otherwise
    prints the failure and exits with status 1; it never raises. *)
Theorem connect_to_chroma_single_attempt (host : string) (port : Z) (w : world) :
  ∃ o w' evs,
    connect_to_chroma svc host port w = (o, w') ∧
    trace w' = trace w ++ evs ∧
    conn_calls w' = S (conn_calls w) ∧ same_remote w w' ∧
    sleeps evs = [] ∧ (length (requests evs) ≤ 2)%nat ∧
    match attempt_error svc (conn_calls w) with
    | None => o = Returned (conn_calls w) ∧
              last evs = Some (EvPrint OutConnected)
    | Some e => o = Exited 1 ∧
                last evs = Some (EvPrint (OutConnectFailed (str e)))
    end.
Proof.
  rewrite connect_to_chroma_eq. cbv zeta. unfold attempt_error.
  destruct (connect_outcome svc (conn_calls w)) as [e|e|];
    eexists _, _, _; (split; [reflexivity|]); simpl;
    (split; [reflexivity|]); repeat split; simpl; lia.
Qed.

(** X12.  [list_collections]: a failed listing request is raised to the
    caller with nothing printed; an answered one returns the names the
    service holds, in its order, after printing that none was found or
    their number and one line per name, numbered from 1. *)
Theorem list_collections_lists_in_order (h : nat) (w : world) :
  ∃ o w' evs,
    list_collections svc h w = (o, w') ∧
    trace w' = trace w ++ EvListCollections :: evs ∧
    rpc_calls w' = S (rpc_calls w) ∧ collections w' = collections w ∧
    requests evs = [] ∧
    match rpc_fault svc (rpc_calls w) with
    | Some e => o = Raised e ∧ evs = []
    | None =>
        o = Returned (collections w) ∧
        printed_lines evs =
          match collections w with
          | [] => [OutNoCollections]
          | cs => OutFound (length cs) :: imap (λ i name, OutListed (S i) name) cs
          end
    end.
Proof.
  assert (∀ cs idx acc w0,
    list_names idx cs acc w0 =
      (Returned (acc ++ cs),
       add_events w0 (EvPrint <$> imap (λ i name, OutListed (idx + i) name) cs)))
    as Hnames.
  { induction cs as [|c cs IH]; intros idx acc w0.
    - simpl. by rewrite add_events_nil, app_nil_r.
    - cbn [list_names]. rewrite bind_print, IH, add_events_app, <- app_assoc.
      simpl. rewrite Nat.add_0_r. do 4 f_equal.
      apply imap_ext. intros i x _. simpl. f_equal. lia. }
  unfold list_collections, client_list_collections.
  rewrite bind_assoc, bind_unfold, rpc_eq.
  destruct (rpc_fault svc (rpc_calls w)) as [e|].
  { eexists _, _, []. split; [reflexivity|]. by repeat split. }
  cbv beta iota. unfold remote_collections at 1. rewrite bind_unfold.
  cbv beta iota. cbn [collections].
  destruct (collections w) as [|c cs] eqn:Hcs.
  - rewrite bind_print. eexists _, _, [_]. split; [reflexivity|].
    simpl. rewrite <- app_assoc. by repeat split.
  - rewrite bind_print, Hnames. eexists _, _, (_ :: _).
    split; [reflexivity|]. simpl. rewrite <- !app_assoc. simpl.
    repeat split; try done.
    + change (requests (EvPrint ?l :: ?evs)) with (requests evs).
      apply printed_requests, printed_fmap.
    + change (printed_lines (EvPrint ?l :: ?evs)) with (l :: printed_lines evs).
      by rewrite printed_lines_fmap.
Qed.

End Connection.

(** ** The sample shown by the info lookup *)

Lemma py_len_app (s1 s2 : string) : py_len (s1 +:+ s2) = (py_len s1 + py_len s2)%nat.
Proof.
  induction s1 as [|c s1 IH]; [done|].
  change (String c s1 +:+ s2) with (String c (s1 +:+ s2)). cbn [py_len].
  rewrite IH. by destruct (is_continuation c).
Qed.

Lemma py_prefix_whole (s : string) : ∀ n, (py_len s ≤ n)%nat → py_prefix n s = s.
Proof.
  induction s as [|c s IH]; intros n H; [done|]. cbn [py_len py_prefix] in *.
  destruct (is_continuation c); [by rewrite IH|].
  destruct n as [|n]; [lia|]. rewrite IH by lia. reflexivity.
Qed.

Lemma py_prefix_len (s : string) : ∀ n,
  py_len (py_prefix n s) = (n `min` py_len s)%nat.
Proof.
  induction s as [|c s IH]; intros n; [by destruct n|]. cbn [py_len py_prefix].
  destruct (is_continuation c) eqn:Hc.
  - cbn [py_len]. by rewrite Hc, IH.
  - destruct n as [|n]; [done|]. cbn [py_len]. rewrite Hc, IH. lia.
Qed.

(** The expression of the source and the intended content agree. *)
Lemma content_expression (doc : string) :
  py_prefix 100 doc +:+ (if (100 <? py_len doc)%nat then "..." else "")
  = shown_content doc.
Proof.
  unfold shown_content.
  destruct (Nat.ltb_spec 100 (py_len doc)) as [H|H];
    destruct (Nat.leb_spec (py_len doc) 100) as [H'|H']; try lia;
    [reflexivity|].
  rewrite py_prefix_whole by done. clear.
  induction doc as [|c doc IH]; [reflexivity|].
  change (String c (doc +:+ "") = String c doc). by rewrite IH.
Qed.

Lemma shown_content_length (doc : string) : (py_len (shown_content doc) ≤ 103)%nat.
Proof.
  unfold shown_content. destruct (Nat.leb_spec (py_len doc) 100); [lia|].
  rewrite py_len_app, py_prefix_len.
  change (py_len "...") with 3%nat. lia.
Qed.

Section InfoTrace.

Variable svc : service.

(** The events of [get_collection_info] are the expected ones. *)
Lemma get_collection_info_trace h name w :
  ∃ info w',
    get_collection_info svc h name w = (Returned info, w') ∧
    trace w' = trace w ++ info_events svc name w ∧
    rpc_calls w' = (rpc_calls w + length (requests (info_events svc name w)))%nat.
Proof.
  unfold get_collection_info, try_except, info_events. cbv zeta.
  erewrite bind_eq by apply client_get_collection_eq.
  destruct (rpc_fault svc (rpc_calls w)) as [e|] eqn:Hf.
  { cbv beta iota. rewrite bind_print. eexists _, _. split; [reflexivity|].
    simpl. rewrite <- app_assoc. split; [done|lia]. }
  case_bool_decide as Hin.
  2:{ cbv beta iota. rewrite bind_print. eexists _, _. split; [reflexivity|].
      simpl. rewrite <- app_assoc. split; [done|lia]. }
  erewrite bind_eq by apply collection_count_eq. cbn [rpc_calls].
  destruct (rpc_fault svc (S (rpc_calls w))) as [e|] eqn:Hf2.
  { cbv beta iota. rewrite bind_print. eexists _, _. split; [reflexivity|].
    simpl. rewrite <- !app_assoc. split; [done|lia]. }
  rewrite !bind_print.
  destruct (count_reply svc (S (rpc_calls w)) >? 0).
  2:{ rewrite !bind_ret. eexists _, _. split; [reflexivity|].
      simpl. rewrite <- !app_assoc. split; [done|lia]. }
  rewrite bind_assoc. erewrite bind_eq by apply collection_peek_eq.
  cbn [rpc_calls add_events].
  destruct (rpc_fault svc (S (S (rpc_calls w)))) as [e|] eqn:Hf3.
  { cbv beta iota. rewrite bind_print. eexists _, _. split; [reflexivity|].
    simpl. rewrite <- !app_assoc. split; [done|lia]. }
  rewrite bind_assoc, bind_print.
  erewrite bind_eq; [|apply (for_each_prints _ _ sample_lines)].
  2:{ intros [idx [[doc_id doc] metadata]] w0.
      rewrite !bind_print, content_expression. unfold print, emit, add_events.
      simpl. by rewrite <- !app_assoc. }
  cbv beta iota. eexists _, _. split; [reflexivity|]. simpl.
  rewrite <- !app_assoc. split; [done|].
  change (requests (EvPrint ?l :: ?evs)) with (requests evs).
  rewrite printed_requests by apply printed_fmap. simpl. lia.
Qed.

End InfoTrace.

Lemma content_lines_app evs evs' :
  content_lines (evs ++ evs') = content_lines evs ++ content_lines evs'.
Proof. apply omap_app. Qed.

Lemma content_lines_sample (l : list (nat * (string * string * pydict))) :
  content_lines (EvPrint <$> (l ≫= sample_lines))
  = (λ e, shown_content e.2.1.2) <$> l.
Proof.
  induction l as [|[idx [[doc_id doc] metadata]] l IH]; [done|].
  rewrite bind_cons, fmap_app, content_lines_app, IH. reflexivity.
Qed.

Lemma enumerate1_values {A B} (f : A → B) (l : list A) :
  (λ e, f e.2) <$> enumerate1 l = f <$> l.
Proof.
  unfold enumerate1.
  trans (f <$> (zip (seq 1 (length l)) l).*2);
    [by rewrite <- list_fmap_compose|].
  by rewrite snd_zip by (by rewrite length_seq).
Qed.

Section InfoTheorems.

Variable svc : service.

(** X13.  [get_collection_info] looks the collection up, asks for its
    count only when the lookup succeeded, and peeks (three documents at
    most) only when the count was answered and is positive; it sends no
    other request.  When nothing fails, the dictionary it returns has
    exactly the keys [name] and [count], with the name asked for and the
    count the service gave. *)
Theorem get_collection_info_requests (h : nat) (name : string) (w : world) :
  ∃ info w' evs,
    get_collection_info svc h name w = (Returned info, w') ∧
    trace w' = trace w ++ evs ∧
    rpc_calls w' = (rpc_calls w + length (requests evs))%nat ∧
    requests evs =
      EvGetCollection name ::
      (if bool_decide (rpc_fault svc (rpc_calls w) = None ∧ name ∈ collections w)
       then EvCount name ::
            (if bool_decide (rpc_fault svc (S (rpc_calls w)) = None ∧
                             0 < count_reply svc (S (rpc_calls w)))
             then [EvPeek name 3] else [])
       else []) ∧
    (info_failure svc name w = None →
     info !! "name" = Some (PStr name) ∧
     info !! "count" = Some (PInt (count_reply svc (S (rpc_calls w)))) ∧
     size info = 2%nat).
Proof.
  destruct (get_collection_info_trace svc h name w) as (info & w' & Hrun & Ht & Hr).
  destruct (get_collection_info_eq svc h name w) as (w2 & evs2 & Hrun2 & _).
  rewrite Hrun in Hrun2. injection Hrun2 as Hinfo _.
  exists info, w', (info_events svc name w).
  split; [done|]. split; [done|]. split; [done|]. split.
  - unfold info_events. cbv zeta.
    change (requests (?ev :: ?evs)) with
      (if is_request ev then ev :: requests evs else requests evs). cbn [is_request].
    f_equal.
    destruct (rpc_fault svc (rpc_calls w)) as [e|]; [done|].
    case_bool_decide as Hin.
    2:{ rewrite bool_decide_eq_false_2; [done|]. by intros [_ ?]. }
    rewrite bool_decide_eq_true_2 by done.
    change (requests (?ev :: ?evs)) with
      (if is_request ev then ev :: requests evs else requests evs). cbn [is_request].
    f_equal.
    destruct (rpc_fault svc (S (rpc_calls w))) as [e|].
    { rewrite bool_decide_eq_false_2; [done|]. by intros [? _]. }
    change (requests (EvPrint ?a :: EvPrint ?b :: ?evs)) with (requests evs).
    destruct (Z.gtb_spec (count_reply svc (S (rpc_calls w))) 0) as [Hpos|Hpos].
    2:{ rewrite bool_decide_eq_false_2; [done|]. intros [_ ?]. lia. }
    rewrite bool_decide_eq_true_2 by (split; [done|lia]).
    change (requests (?ev :: ?evs)) with
      (if is_request ev then ev :: requests evs else requests evs). cbn [is_request].
    f_equal.
    destruct (rpc_fault svc (S (S (rpc_calls w)))) as [e|]; [done|].
    change (requests (EvPrint ?a :: ?evs)) with (requests evs).
    apply printed_requests, printed_fmap.
  - intros Hok. rewrite Hok in Hinfo. subst info.
    split; [by rewrite lookup_insert_eq|]. split.
    + rewrite lookup_insert_ne by done. by rewrite lookup_singleton_eq.
    + rewrite map_size_insert_None by (by rewrite lookup_singleton_ne).
      by rewrite map_size_singleton.
Qed.

(** X14.  The sample [get_collection_info] shows has one content line per
    triple of identifier, document and metadata the peek answered with
    (as many as the shortest of the three lists): the document itself
    when it has at most 100 characters (code points, as [len] counts
    them), its first 100 characters and ["..."] otherwise, so at most 103
    characters.  No content line is printed unless the lookup, the count
    and the peek all succeed. *)
Theorem sample_content_is_truncated (h : nat) (name : string) (w : world) :
  ∃ info w' evs,
    get_collection_info svc h name w = (Returned info, w') ∧
    trace w' = trace w ++ evs ∧
    Forall (λ s, py_len s ≤ 103)%nat (content_lines evs) ∧
    content_lines evs =
      if bool_decide (info_failure svc name w = None ∧
                      0 < count_reply svc (S (rpc_calls w)))
      then let s := peek_reply svc (S (S (rpc_calls w))) in
           (λ t, shown_content t.1.2) <$>
             zip3 (sample_ids s) (sample_documents s) (sample_metadatas s)
      else [].
Proof.
  destruct (get_collection_info_trace svc h name w) as (info & w' & Hrun & Ht & _).
  exists info, w', (info_events svc name w). split; [done|]. split; [done|].
  assert (content_lines (info_events svc name w) =
      if bool_decide (info_failure svc name w = None ∧
                      0 < count_reply svc (S (rpc_calls w)))
      then let s := peek_reply svc (S (S (rpc_calls w))) in
           (λ t, shown_content t.1.2) <$>
             zip3 (sample_ids s) (sample_documents s) (sample_metadatas s)
      else []) as Hlines.
  { unfold info_events, info_failure. cbv zeta.
    destruct (rpc_fault svc (rpc_calls w)) as [e|].
    { rewrite bool_decide_eq_false_2; [done|]. by intros [? _]. }
    case_bool_decide as Hin.
    2:{ rewrite bool_decide_eq_false_2; [done|]. by intros [? _]. }
    destruct (rpc_fault svc (S (rpc_calls w))) as [e|].
    { rewrite bool_decide_eq_false_2; [done|]. by intros [? _]. }
    destruct (Z.gtb_spec (count_reply svc (S (rpc_calls w))) 0) as [Hpos|Hpos].
    2:{ rewrite bool_decide_eq_false_2; [done|]. intros [_ ?]. lia. }
    destruct (rpc_fault svc (S (S (rpc_calls w)))) as [e|].
    { rewrite bool_decide_eq_false_2; [done|]. by intros [? _]. }
    rewrite bool_decide_eq_true_2 by (split; [done|lia]).
    change (content_lines (?a :: ?b :: ?c :: ?d :: ?e :: ?f :: ?evs))
      with (content_lines evs).
    rewrite content_lines_sample.
    apply (enumerate1_values (λ t, shown_content t.1.2)). }
  split; [|done]. rewrite Hlines. case_bool_decide; [|constructor].
  cbv zeta. apply Forall_fmap, Forall_forall. intros t _. simpl.
  apply shown_content_length.
Qed.

End InfoTheorems.

(** ** The hits shown by the queries *)

Lemma shown_documents_app evs evs' :
  shown_documents (evs ++ evs') = shown_documents evs ++ shown_documents evs'.
Proof. apply omap_app. Qed.

Lemma shown_documents_hits (l : list (nat * (string * pydict * Q))) :
  shown_documents (EvPrint <$> (l ≫= hit_lines)) = (λ e, e.2.1.1) <$> l.
Proof.
  induction l as [|[idx [[doc metadata] distance]] l IH]; [done|].
  rewrite bind_cons, fmap_app, shown_documents_app, IH. reflexivity.
Qed.

(** [print_hits] indexes the three lists of the answer first, then prints
    three lines per hit. *)
Lemma print_hits_eq (results : query_result) (w : world) :
  print_hits results w =
    match res_documents results, res_metadatas results, res_distances results with
    | docs :: _, metas :: _, dists :: _ =>
        (Returned tt,
         add_events w (EvPrint <$> (enumerate1 (zip3 docs metas dists) ≫= hit_lines)))
    | _, _, _ => (Raised (IndexError "list index out of range"), w)
    end.
Proof.
  unfold print_hits.
  destruct (res_documents results) as [|docs ?]; [done|].
  cbn [index0]. rewrite bind_ret.
  destruct (res_metadatas results) as [|metas ?]; [done|].
  cbn [index0]. rewrite bind_ret.
  destruct (res_distances results) as [|dists ?]; [done|].
  cbn [index0]. rewrite bind_ret.
  apply (for_each_prints _ _ hit_lines).
  intros [idx [[doc metadata] distance]] w0. rewrite !bind_print.
  unfold print, emit, add_events. simpl. by rewrite <- !app_assoc.
Qed.

(** X15.  [print_hits] raises [IndexError], printing nothing, when the
    answer lacks the list of documents, metadatas or distances of the
    first query text.  Otherwise it prints, for as many hits as the
    shortest of the three lists holds, a line numbered from 1 with the
    similarity [1 - distance], the document and the metadata. *)
Theorem print_hits_zips_answer (results : query_result) (w : world) :
  match res_documents results, res_metadatas results, res_distances results with
  | docs :: _, metas :: _, dists :: _ =>
      ∃ evs,
        print_hits results w = (Returned tt, add_events w evs) ∧
        printed_lines evs = enumerate1 (zip3 docs metas dists) ≫= hit_lines ∧
        shown_documents evs = (λ t, t.1.1) <$> zip3 docs metas dists ∧
        length (shown_documents evs)
          = ((length docs `min` length metas) `min` length dists)%nat
  | _, _, _ =>
      print_hits results w = (Raised (IndexError "list index out of range"), w)
  end.
Proof.
  rewrite print_hits_eq.
  destruct (res_documents results) as [|docs ?]; [done|].
  destruct (res_metadatas results) as [|metas ?]; [done|].
  destruct (res_distances results) as [|dists ?]; [done|].
  eexists. split; [reflexivity|].
  rewrite printed_lines_fmap, shown_documents_hits.
  rewrite (enumerate1_values (λ t : string * pydict * Q, t.1.1)).
  repeat split. unfold zip3. by rewrite length_fmap, !length_zip.
Qed.

Section QueryResults.

Variable svc : service.

(** X16.  [run_basic_query] never raises.  It returns the answer of the
    service when the lookup and the query succeed and the answer holds
    the three lists of the first query text, after showing the hits;
    otherwise it prints the exception and returns [None]. *)
Theorem run_basic_query_result (h : nat) (name q : string) (n : Z) (w : world) :
  ∃ w' evs,
    run_basic_query svc h name q n w =
      (Returned (match basic_query_failure svc name w with
                 | Some _ => None
                 | None => Some (query_reply svc (S (rpc_calls w)))
                 end), w') ∧
    trace w' = trace w ++ evs ∧
    match basic_query_failure svc name w with
    | Some e => last evs = Some (EvPrint (OutQueryError (str e))) ∧
                shown_documents evs = []
    | None =>
        let res := query_reply svc (S (rpc_calls w)) in
        shown_documents evs =
          (λ t, t.1.1) <$> zip3 (default [] (head (res_documents res)))
                                (default [] (head (res_metadatas res)))
                                (default [] (head (res_distances res)))
    end.
Proof.
  unfold run_basic_query, try_except, basic_query_failure. cbv zeta.
  erewrite bind_eq by apply client_get_collection_eq.
  destruct (rpc_fault svc (rpc_calls w)) as [e|] eqn:Hf.
  { cbv beta iota. rewrite bind_print. eexists _, _. split; [reflexivity|].
    simpl. rewrite <- app_assoc. by repeat split. }
  case_bool_decide as Hin.
  2:{ cbv beta iota. rewrite bind_print. eexists _, _. split; [reflexivity|].
      simpl. rewrite <- app_assoc. by repeat split. }
  erewrite bind_eq by apply collection_query_eq. cbn [rpc_calls].
  destruct (rpc_fault svc (S (rpc_calls w))) as [e|] eqn:Hf2.
  { cbv beta iota. rewrite bind_print. eexists _, _. split; [reflexivity|].
    simpl. rewrite <- !app_assoc. by repeat split. }
  rewrite !bind_print, bind_unfold, print_hits_eq.
  destruct (res_documents _) as [|docs ?];
    [cbv beta iota; rewrite bind_print; eexists _, _; (split; [reflexivity|]);
     simpl; rewrite <- !app_assoc; by repeat split|].
  destruct (res_metadatas _) as [|metas ?];
    [cbv beta iota; rewrite bind_print; eexists _, _; (split; [reflexivity|]);
     simpl; rewrite <- !app_assoc; by repeat split|].
  destruct (res_distances _) as [|dists ?];
    [cbv beta iota; rewrite bind_print; eexists _, _; (split; [reflexivity|]);
     simpl; rewrite <- !app_assoc; by repeat split|].
  cbv beta iota. eexists _, _. split; [reflexivity|]. cbn [trace add_events].
  rewrite <- !app_assoc. split; [reflexivity|].
  rewrite !shown_documents_app, shown_documents_hits.
  apply (enumerate1_values (λ t : string * pydict * Q, t.1.1)).
Qed.

(** X17.  [run_filtered_query] sends the filter as the one-entry
    dictionary of the key and value given.  When the lookup and the query
    succeed, an answer without a list for the first query text makes it
    print the error and return [None]; an empty list makes it print that
    nothing matched and return [None] without showing a hit; a non-empty
    one is shown and the answer returned. *)
Theorem run_filtered_query_result (h : nat) (name q fk fv : string) (n : Z)
    (w : world) :
  rpc_fault svc (rpc_calls w) = None → name ∈ collections w →
  rpc_fault svc (S (rpc_calls w)) = None →
  let res := query_reply svc (S (rpc_calls w)) in
  ∃ r w' evs,
    run_filtered_query svc h name q fk fv n w = (Returned r, w') ∧
    trace w' = trace w ++
      EvGetCollection name ::
      EvQuery name (QStr q) n (Some {[ fk := PStr fv ]}) None :: evs ∧
    requests evs = [] ∧
    match res_documents res with
    | [] => r = None ∧ last evs = Some (EvPrint (OutFilteredQueryError
                                                   "list index out of range"))
    | [] :: _ => r = None ∧ last evs = Some (EvPrint OutNoMatch) ∧
                 shown_documents evs = []
    | (doc :: docs) :: _ =>
        match res_metadatas res, res_distances res with
        | metas :: _, dists :: _ =>
            r = Some res ∧
            shown_documents evs = (λ t, t.1.1) <$> zip3 (doc :: docs) metas dists
        | _, _ => r = None ∧
                  last evs = Some (EvPrint (OutFilteredQueryError
                                              "list index out of range"))
        end
    end.
Proof.
  intros Hf Hin Hf2 res. unfold run_filtered_query, try_except. cbv zeta.
  erewrite bind_eq by apply client_get_collection_eq.
  rewrite Hf, bool_decide_eq_true_2 by done.
  erewrite bind_eq by apply collection_query_eq. cbn [rpc_calls]. rewrite Hf2.
  rewrite !bind_print. fold res.
  destruct (res_documents res) as [|docs0 rest] eqn:Hdocs.
  { cbn [index0]. rewrite bind_unfold. unfold mthrow at 1, M_throw at 1.
    cbv beta iota. rewrite bind_print. eexists _, _, _.
    split; [reflexivity|]. simpl. rewrite <- !app_assoc.
    split; [reflexivity|]. by repeat split. }
  cbn [index0]. rewrite bind_ret.
  destruct docs0 as [|doc docs].
  { rewrite bind_print. eexists _, _, _.
    split; [reflexivity|]. simpl. rewrite <- !app_assoc.
    split; [reflexivity|]. by repeat split. }
  rewrite bind_unfold, print_hits_eq, Hdocs.
  destruct (res_metadatas res) as [|metas ?];
    [cbv beta iota; rewrite bind_print; eexists _, _, _; (split; [reflexivity|]);
     simpl; rewrite <- !app_assoc; (split; [reflexivity|]); by repeat split|].
  destruct (res_distances res) as [|dists ?];
    [cbv beta iota; rewrite bind_print; eexists _, _, _; (split; [reflexivity|]);
     simpl; rewrite <- !app_assoc; (split; [reflexivity|]); by repeat split|].
  cbv beta iota. eexists _, _, _. split; [reflexivity|]. cbn [trace add_events].
  rewrite <- !app_assoc. split; [reflexivity|].
  rewrite !requests_app, !shown_documents_app, shown_documents_hits.
  rewrite (printed_requests (EvPrint <$> _)) by apply printed_fmap.
  repeat split. apply (enumerate1_values (λ t : string * pydict * Q, t.1.1)).
Qed.

End QueryResults.

Lemma run_filtered_query_result_witness :
  ∃ w', run_filtered_query healthy 0 "sample_collection" "space" "source" "Space" 3
          stocked_world = (Returned (Some one_hit), w') ∧
        shown_documents (trace w') = ["d"].
Proof.
  destruct (run_filtered_query_result healthy 0 "sample_collection" "space" "source"
              "Space" 3 stocked_world)
    as (r & w' & evs & Hrun & Ht & _ & Hr & Hshown);
    [reflexivity|apply list_elem_of_here|reflexivity|].
  subst r. exists w'. split; [done|]. rewrite Ht.
  change (shown_documents (?t ++ ?a :: ?b :: ?evs)) with (shown_documents evs).
  by rewrite Hshown.
Defined.

(** ** The script as a whole *)

Section ScriptRuns.

Variable svc : service.




End ScriptRuns.

(** ** A client that only reads *)











Section Reading.

Variable svc : service.









End Reading.

(** ** The collection the script works on *)

Section Emits.

Variable P : event → Prop.
Hypothesis P_print : ∀ line, P (EvPrint line).

Lemma emits_ret {A} (Q : A → Prop) (a : A) : Q a → emits P Q (mret a).
Proof.
  intros Ha w. exists (Returned a), w, []. rewrite app_nil_r.
  split; [done|]. split; [done|]. split; [done|]. by intros ? [= <-].
Qed.

Lemma emits_throw {A} (Q : A → Prop) (e : exn) : emits P Q (mthrow e : M A).
Proof. intros w. exists (Raised e), w, []. by rewrite app_nil_r. Qed.

Lemma emits_exit {A} (Q : A → Prop) s : emits P Q (sys_exit s : M A).
Proof. intros w. exists (Exited s), w, []. by rewrite app_nil_r. Qed.

Lemma emits_print line : emits P (λ _, True) (print line).
Proof.
  intros w. eexists (Returned tt), _, [EvPrint line].
  split; [reflexivity|]. split; [done|]. split; [|done]. by repeat constructor.
Qed.

Lemma emits_bind {A B} (Q : A → Prop) (R : B → Prop) (m : M A) (f : A → M B) :
  emits P Q m → (∀ a, Q a → emits P R (f a)) → emits P R (m ≫= f).
Proof.
  intros Hm Hf w. destruct (Hm w) as (o & w1 & evs & Hrun & Htr & Hev & Hq).
  rewrite bind_unfold, Hrun. destruct o as [a|e|s|].
  - destruct (Hf a (Hq a eq_refl) w1) as (o' & w2 & evs' & Hrun' & Htr' & Hev' & Hr).
    exists o', w2, (evs ++ evs'). rewrite Hrun', Htr', Htr, app_assoc.
    split; [done|]. split; [done|]. split; [by apply Forall_app|done].
  - by exists (Raised e), w1, evs.
  - by exists (Exited s), w1, evs.
  - by exists OutOfFuel, w1, evs.
Qed.

Lemma emits_try {A} (Q : A → Prop) (m : M A) (h : exn → M A) :
  emits P Q m → (∀ e, emits P Q (h e)) → emits P Q (try_except m h).
Proof.
  intros Hm Hh w. destruct (Hm w) as (o & w1 & evs & Hrun & Htr & Hev & Hq).
  unfold try_except. rewrite Hrun. destruct o as [a|e|s|].
  - by exists (Returned a), w1, evs.
  - destruct (Hh e w1) as (o' & w2 & evs' & Hrun' & Htr' & Hev' & Hr).
    exists o', w2, (evs ++ evs'). rewrite Hrun', Htr', Htr, app_assoc.
    split; [done|]. split; [done|]. split; [by apply Forall_app|done].
  - by exists (Exited s), w1, evs.
  - by exists OutOfFuel, w1, evs.
Qed.

Lemma emits_for_each {A} (l : list A) (body : A → M unit) :
  (∀ x, emits P (λ _, True) (body x)) → emits P (λ _, True) (for_each l body).
Proof.
  intros Hb. induction l as [|x l IH]; [by apply emits_ret|].
  eapply emits_bind; [apply Hb|intros _ _; exact IH].
Qed.

Lemma emits_index0 {A} (l : list A) : emits P (λ _, True) (index0 l).
Proof. destruct l; [apply emits_throw|by apply emits_ret]. Qed.

Lemma emits_rpc svc ev : P ev → emits P (λ _, True) (rpc svc ev).
Proof.
  intros Hev w. rewrite rpc_eq. eexists _, _, [ev].
  split; [reflexivity|]. split; [done|]. split; [|done]. by repeat constructor.
Qed.

Lemma emits_remote_collections : emits P (λ _, True) remote_collections.
Proof. intros w. exists (Returned (collections w)), w, []. by rewrite app_nil_r. Qed.

Lemma emits_print_hits results : emits P (λ _, True) (print_hits results).
Proof.
  unfold print_hits.
  repeat (eapply emits_bind; [apply emits_index0|intros ? _]).
  apply emits_for_each. intros [idx [[doc metadata] distance]].
  repeat (eapply emits_bind; [apply emits_print|intros _ _]).
  apply emits_print.
Qed.

Lemma printed_emits (evs : list event) : printed evs → Forall P evs.
Proof.
  unfold printed. intros Hp. eapply Forall_impl; [exact Hp|].
  intros ev [line ->]. apply P_print.
Qed.

End Emits.

Section Target.

Variable svc : service.

Lemma emits_client_get_collection h name q :
  emits (targets name q) (λ c, c = name) (client_get_collection svc h name).
Proof.
  unfold client_get_collection.
  eapply emits_bind; [by apply emits_rpc|intros _ _].
  eapply emits_bind; [apply emits_remote_collections|intros known _].
  case_bool_decide; [by apply emits_ret|apply emits_throw].
Qed.

Lemma emits_get_collection_info h name q :
  emits (targets name q) (λ _, True) (get_collection_info svc h name).
Proof.
  unfold get_collection_info.
  apply emits_try.
  2:{ intros e. eapply emits_bind; [by apply emits_print|intros _ _; by apply emits_ret]. }
  eapply emits_bind; [apply emits_client_get_collection|intros c ->].
  eapply emits_bind.
  { unfold collection_count.
    eapply emits_bind; [by apply emits_rpc|intros k _].
    by apply (emits_ret _ (λ _, True)). }
  intros count _.
  eapply emits_bind; [by apply emits_print|intros _ _].
  eapply emits_bind; [by apply emits_print|intros _ _].
  eapply emits_bind; [|intros _ _; by apply emits_ret].
  destruct (count >? 0); [|by apply (emits_ret _ (λ _, True))].
  eapply emits_bind.
  { unfold collection_peek.
    eapply emits_bind; [by apply emits_rpc|intros k _].
    by apply (emits_ret _ (λ _, True)). }
  intros s _. eapply emits_bind; [by apply emits_print|intros _ _].
  apply emits_for_each. intros [idx [[doc_id doc] metadata]].
  repeat (eapply emits_bind; [by apply emits_print|intros _ _]).
  by apply emits_print.
Qed.

Lemma emits_run_basic_query h name q :
  emits (targets name q) (λ _, True) (run_basic_query svc h name q 3).
Proof.
  unfold run_basic_query.
  apply emits_try.
  2:{ intros e. eapply emits_bind; [by apply emits_print|intros _ _; by apply emits_ret]. }
  eapply emits_bind; [apply emits_client_get_collection|intros c ->].
  eapply emits_bind.
  { unfold collection_query.
    eapply emits_bind; [by apply emits_rpc|intros k _].
    by apply (emits_ret _ (λ _, True)). }
  intros results _.
  repeat (eapply emits_bind; [by apply emits_print|intros _ _]).
  eapply emits_bind; [by apply emits_print_hits|intros _ _; by apply emits_ret].
Qed.

(** X20.  Whatever the service answers, every request the script makes
    for a collection is made for the selected one, the --collection
    target if the service holds it and the first listed collection
    otherwise: lookups and the count name it, the peek asks for three of
    its documents, and the query carries the --query text as a string,
    asks for three results and has no filter. *)
Theorem main_works_on_selected_collection (a : args) (w : world) :
  ∃ o w' evs,
    main svc a w = (o, w') ∧ trace w' = trace w ++ evs ∧
    Forall (targets (selected_collection a (collections w)) (arg_query a)) evs.
Proof.
  set (P := targets (selected_collection a (collections w)) (arg_query a)).
  unfold main. rewrite bind_unfold, connect_to_chroma_eq. cbv zeta.
  destruct (connect_outcome svc (conn_calls w)) as [e|e|];
    [eexists _, _, _; split; [reflexivity|]; split; [reflexivity|];
     by repeat constructor..|].
  cbv beta iota.
  destruct (rpc_fault svc (rpc_calls w)) as [e|] eqn:Hf.
  { unfold list_collections, client_list_collections.
    rewrite bind_unfold, bind_assoc, bind_unfold, rpc_eq. cbn [rpc_calls].
    rewrite Hf. eexists _, _, _. split; [reflexivity|].
    cbn [trace]. rewrite <- app_assoc. split; [reflexivity|]. by repeat constructor. }
  match goal with |- context [(list_collections svc ?h ≫= _) ?w1] =>
    destruct (list_collections_eq svc h w1 Hf) as (evs & Hrun & Hp) end.
  cbn [client conn_calls rpc_calls uuid_calls collections trace] in Hrun.
  erewrite bind_eq by exact Hrun. cbv beta iota.
  match goal with |- context [(?m ≫= ?f) ?w2] =>
    assert (emits P (λ _, True) (m ≫= f)) as Hrest end.
  { eapply emits_bind.
    { destruct (collections w); [|by apply (emits_ret _ (λ _, True))].
      eapply emits_bind; [by apply emits_print|intros _ _; apply emits_exit]. }
    intros _ _.
    eapply (emits_bind _ (λ c, c = selected_collection a (collections w))).
    { unfold selected_collection. case_bool_decide; [by apply emits_ret|].
      destruct (collections w); [apply emits_throw|by apply emits_ret]. }
    intros name ->.
    eapply emits_bind; [apply emits_get_collection_info|intros info _].
    eapply emits_bind.
    { case_bool_decide; [|by apply (emits_ret _ (λ _, True))].
      eapply emits_bind; [by apply emits_print|intros _ _; apply emits_exit]. }
    intros _ _.
    eapply emits_bind; [apply emits_run_basic_query|intros _ _; by apply emits_ret]. }
  match goal with |- context [(?m ≫= ?f) ?w2] =>
    destruct (Hrest w2) as (o & w' & evs' & Hrun' & Htr' & Hev' & _) end.
  cbn [trace] in Htr'.
  exists o, w', ([EvPrint (OutConnecting (arg_host a) (arg_port a));
                  EvHttpClient (arg_host a) (arg_port a);
                  EvHeartbeat (conn_calls w); EvPrint OutConnected]
                 ++ (EvListCollections :: evs) ++ evs').
  split; [exact Hrun'|]. split; [by rewrite Htr', !app_assoc|].
  apply Forall_app. split; [by repeat constructor|].
  apply Forall_app. split; [|done].
  constructor; [done|]. by apply printed_emits.
Qed.

End Target.

(** * The demonstration script of [app/client.py] *)

Lemma demo_bind_unfold {A B} (m : Demo A) (f : A → Demo B) st :
  (m ≫= f) st = match m st with
                | (Returned a, st') => f a st'
                | (Raised e, st') => (Raised e, st')
                | (Exited s, st') => (Exited s, st')
                | (OutOfFuel, st') => (OutOfFuel, st')
                end.
Proof. reflexivity. Qed.

Lemma lift_eq {A} (m : M A) st o w' :
  m (remote st) = (o, w') → lift m st = (o, Session w' (console st)).
Proof. intros H. unfold lift. by rewrite H. Qed.

Lemma settles_ret {A} (Q : A → Prop) (a : A) : Q a → settles Q (mret a).
Proof. intros Ha w. exists (Returned a), w. split; [done|]. left. by exists a. Qed.

Lemma settles_throw {A} (Q : A → Prop) (e : exn) : settles Q (mthrow e : M A).
Proof. intros w. exists (Raised e), w. split; [done|]. right. by exists e. Qed.

Lemma settles_index0 {A} (l : list A) : settles (λ _, True) (index0 l).
Proof. destruct l; [apply settles_throw|by apply settles_ret]. Qed.

Lemma settles_index1 {A} (l : list A) : settles (λ _, True) (index1 l).
Proof.
  destruct l as [|? [|? ?]]; [apply settles_throw..|by apply settles_ret].
Qed.

Section WrapperSettles.

Variable svc : service.

Lemma settles_init h p n d ar at_ :
  settles (λ self, max_retries self = n) (__init__ svc h p n d ar at_).
Proof.
  intros w. unfold __init__. cbv zeta.
  rewrite bind_unfold. unfold set_client at 1. cbv beta iota.
  match goal with |- context [(_connect svc ?self ≫= _) ?w1] =>
    destruct (connect_cases svc self w1) as (o & w' & Hrun & _ & _ & Ho) end.
  rewrite (bind_eq _ _ _ _ _ Hrun).
  destruct Ho as [[-> _]|[e ->]].
  - eexists _, _. split; [reflexivity|]. left. by eexists.
  - eexists _, _. split; [reflexivity|]. right. by eexists.
Qed.

Variable self : ChromaDBClient.
Hypothesis retries : 1 ≤ max_retries self.

Lemma settles_add_documents name documents metadatas ids embeddings :
  settles (λ _, True) (add_documents svc self name documents metadatas ids embeddings).
Proof.
  intros w.
  destruct (get_or_create_cases svc self name None w retries)
    as (o & w1 & Hrun & _ & _ & [(-> & _)|(e & -> & _)]).
  - rewrite (add_documents_after_access svc self _ _ _ _ _ w name w1 Hrun). cbv zeta.
    destruct (rpc_fault svc (rpc_calls w1)) as [e|]; eexists _, _;
      (split; [reflexivity|]); [right|left]; by eexists.
  - unfold add_documents. rewrite (bind_eq _ _ _ _ _ Hrun).
    eexists _, _. split; [reflexivity|]. right. by eexists.
Qed.

Lemma settles_query_collection name q n wh wd :
  settles (λ _, True) (query_collection svc self name q n wh wd).
Proof.
  intros w.
  destruct (get_or_create_cases svc self name None w retries)
    as (o & w1 & Hrun & _ & _ & [(-> & _)|(e & -> & _)]).
  - rewrite (query_collection_after_access svc self _ _ _ _ _ w name w1 Hrun). cbv zeta.
    destruct (rpc_fault svc (rpc_calls w1)) as [e|]; eexists _, _;
      (split; [reflexivity|]); [right|left]; by eexists.
  - unfold query_collection. rewrite (bind_eq _ _ _ _ _ Hrun).
    eexists _, _. split; [reflexivity|]. right. by eexists.
Qed.

End WrapperSettles.

Lemma orderly_ret {A} (Q : A → Prop) (a : A) : Q a → orderly Q (mret a).
Proof.
  intros Ha st. exists (Returned a), st, []. rewrite app_nil_r.
  split; [done|]. split; [done|]. split; [done|]. left. by exists a.
Qed.

Lemma orderly_bind {A B} (Q : A → Prop) (R : B → Prop) (m : Demo A) (f : A → Demo B) :
  orderly Q m → (∀ a, Q a → orderly R (f a)) → orderly R (m ≫= f).
Proof.
  intros Hm Hf st.
  destruct (Hm st) as (o & st1 & ls & Hrun & Hc & Hls & [(a & -> & Ha)|(e & ->)]).
  - destruct (Hf a Ha st1) as (o' & st2 & ls' & Hrun' & Hc' & Hls' & Ho').
    exists o', st2, (ls ++ ls'). rewrite demo_bind_unfold, Hrun, Hrun', Hc', Hc, app_assoc.
    split; [done|]. split; [done|]. split; [by apply Forall_app|done].
  - exists (Raised e), st1, ls. rewrite demo_bind_unfold, Hrun.
    split; [done|]. split; [done|]. split; [done|]. right. by exists e.
Qed.

Lemma orderly_lift {A} (Q : A → Prop) (m : M A) : settles Q m → orderly Q (lift m).
Proof.
  intros Hm st. destruct (Hm (remote st)) as (o & w' & Hrun & Ho).
  exists o, (Session w' (console st)), []. rewrite (lift_eq _ _ _ _ Hrun).
  cbn [console]. by rewrite app_nil_r.
Qed.

Lemma orderly_say line : is_error_line line = false → orderly (λ _, True) (say line).
Proof.
  intros Hl st. exists (Returned tt), (Session (remote st) (console st ++ [line])), [line].
  split; [done|]. split; [done|]. split; [by repeat constructor|]. left. by exists tt.
Qed.

Lemma orderly_print_bullets docs : orderly (λ _, True) (print_bullets docs).
Proof.
  induction docs as [|doc docs IH]; [by apply orderly_ret|].
  eapply orderly_bind; [by apply orderly_say|intros _ _; exact IH].
Qed.

Section DemoRuns.

Variable svc : service.
Variable proc : process.

Lemma orderly_main_body h p :
  orderly (λ _, True)
    (chroma_client ← lift (__init__ svc h p 5 2 true false);
     lift (load_sample_data svc chroma_client);;
     say DemoLoaded;;
     results ← lift (query_collection svc chroma_client "sample_collection"
                       (QStr "Give me some facts about space") 3 None None);
     say DemoSpaceHeader;;
     docs ← lift (index0 (res_documents results));
     print_bullets docs;;
     results ← lift (query_collection svc chroma_client "sample_collection"
                       (QStr "Tell me about superheroes") 3
                       (Some {[ "source" := PStr "Superheroes" ]}) None);
     say DemoSuperheroHeader;;
     docs ← lift (index0 (res_documents results));
     print_bullets docs;;
     multi_results ← lift (query_collection svc chroma_client "sample_collection"
                             (QList ["Tell me about animals"; "Tell me about movies"])
                             2 None None);
     say DemoMultiHeader;;
     say DemoAnimalsHeader;;
     docs ← lift (index0 (res_documents multi_results));
     print_bullets docs;;
     say DemoMoviesHeader;;
     docs ← lift (index1 (res_documents multi_results));
     print_bullets docs).
Proof.
  eapply orderly_bind; [apply orderly_lift, settles_init|intros self Hself].
  cbv beta in Hself. assert (1 ≤ max_retries self) as Hn by lia.
  eapply orderly_bind;
    [apply orderly_lift; unfold load_sample_data; by apply settles_add_documents
    |intros _ _].
  eapply orderly_bind; [by apply orderly_say|intros _ _].
  eapply orderly_bind;
    [apply orderly_lift; by apply settles_query_collection|intros r1 _].
  eapply orderly_bind; [by apply orderly_say|intros _ _].
  eapply orderly_bind; [apply orderly_lift, settles_index0|intros d1 _].
  eapply orderly_bind; [apply orderly_print_bullets|intros _ _].
  eapply orderly_bind;
    [apply orderly_lift; by apply settles_query_collection|intros r2 _].
  eapply orderly_bind; [by apply orderly_say|intros _ _].
  eapply orderly_bind; [apply orderly_lift, settles_index0|intros d2 _].
  eapply orderly_bind; [apply orderly_print_bullets|intros _ _].
  eapply orderly_bind;
    [apply orderly_lift; by apply settles_query_collection|intros r3 _].
  eapply orderly_bind; [by apply orderly_say|intros _ _].
  eapply orderly_bind; [by apply orderly_say|intros _ _].
  eapply orderly_bind; [apply orderly_lift, settles_index0|intros d3 _].
  eapply orderly_bind; [apply orderly_print_bullets|intros _ _].
  eapply orderly_bind; [by apply orderly_say|intros _ _].
  eapply orderly_bind; [apply orderly_lift, settles_index1|intros d4 _].
  apply orderly_print_bullets.
Qed.

(** X21.  Whatever the service does, [main] of [app/client.py] ends by
    returning or by raising.  A port text that [int] rejects makes it
    raise that exception at once: nothing is written and the service is
    not contacted.  Past that point an exception is never swallowed: the
    script logs it once, as its last line, and raises it again; a run
    that returns logs no error. *)
Theorem demo_main_logs_and_reraises (st : session) :
  ∃ o st' lines,
    AppClient.main svc proc st = (o, st') ∧
    console st' = console st ++ lines ∧
    match int proc (environ_get proc "CHROMA_PORT" "8000") with
    | inl e => o = Raised e ∧ st' = st ∧ lines = []
    | inr _ =>
        (o = Returned tt ∧ Forall (λ line, is_error_line line = false) lines) ∨
        (∃ e ls, o = Raised e ∧ lines = ls ++ [DemoErrorOccurred (str e)] ∧
                 Forall (λ line, is_error_line line = false) ls)
    end.
Proof.
  unfold AppClient.main. cbv zeta. rewrite demo_bind_unfold. unfold int_of.
  destruct (int proc (environ_get proc "CHROMA_PORT" "8000")) as [e|p].
  { exists (Raised e), st, []. by rewrite app_nil_r. }
  cbv beta iota. unfold demo_try.
  destruct (orderly_main_body (environ_get proc "CHROMA_HOST" "chroma") p st)
    as (o & st1 & ls & Hrun & Hc & Hls & [([] & -> & _)|(e & ->)]).
  - unfold mret at 1, Demo_ret at 1. cbv beta iota. rewrite Hrun.
    exists (Returned tt), st1, ls. split; [done|]. split; [done|]. by left.
  - unfold mret at 1, Demo_ret at 1. cbv beta iota. rewrite Hrun.
    eexists (Raised e), _, (ls ++ [DemoErrorOccurred (str e)]).
    split; [reflexivity|]. cbn [console]. rewrite Hc, app_assoc.
    split; [done|]. right. by exists e, ls.
Qed.

End DemoRuns.

(** ** A run against a service that answers *)

Lemma demo_bind_lift {A B} (m : M A) (f : A → Demo B) w c a w' :
  m w = (Returned a, w') → (lift m ≫= f) (Session w c) = f a (Session w' c).
Proof. intros H. rewrite demo_bind_unfold. unfold lift. cbn [remote console]. by rewrite H. Qed.

Lemma demo_bind_say {B} line (f : unit → Demo B) w c :
  (say line ≫= f) (Session w c) = f tt (Session w (c ++ [line])).
Proof. reflexivity. Qed.

Lemma print_bullets_eq docs : ∀ w c,
  print_bullets docs (Session w c) = (Returned tt, Session w (c ++ (DemoBullet <$> docs))).
Proof.
  induction docs as [|doc docs IH]; intros w c; [by rewrite app_nil_r|].
  simpl. rewrite demo_bind_say, IH. by rewrite <- app_assoc.
Qed.

Lemma demo_bind_bullets {B} docs (f : unit → Demo B) w c :
  (print_bullets docs ≫= f) (Session w c) = f tt (Session w (c ++ (DemoBullet <$> docs))).
Proof. by rewrite demo_bind_unfold, print_bullets_eq. Qed.

Section FirstTry.

Variable svc : service.

Lemma init_alive h p n d ar at_ w :
  1 ≤ n → connect_outcome svc (conn_calls w) = Alive →
  __init__ svc h p n d ar at_ w =
    (Returned (Build_ChromaDBClient h p n d ar at_),
     World (Some (conn_calls w)) (S (conn_calls w)) (rpc_calls w) (uuid_calls w)
           (collections w)
           (trace w ++ successful_attempt (Build_ChromaDBClient h p n d ar at_)
                         (conn_calls w) 1)).
Proof.
  intros Hn Ha. unfold __init__. cbv zeta.
  rewrite bind_unfold. unfold set_client at 1. cbv beta iota.
  erewrite bind_eq by (by apply connect_alive). reflexivity.
Qed.

Variable self : ChromaDBClient.
Hypothesis retries : 1 ≤ max_retries self.

(** The collections of the service once [name] has been asked for. *)
Lemma add_documents_first_try name documents metadatas ids embeddings w c :
  client w = Some c →
  rpc_fault svc (rpc_calls w) = None → rpc_fault svc (S (rpc_calls w)) = None →
  add_documents svc self name documents metadatas (Some ids) embeddings w =
    (Returned tt,
     World (client w) (conn_calls w) (S (S (rpc_calls w))) (uuid_calls w)
           (if bool_decide (name ∈ collections w) then collections w
            else collections w ++ [name])
           (trace w ++ [EvGetOrCreate name None; EvLog INFO (CollectionAccessed name);
                        EvAdd name documents metadatas ids embeddings;
                        EvLog INFO (AddedDocuments (length documents) name)])).
Proof.
  intros Hc Hf1 Hf2.
  rewrite (add_documents_after_access svc self _ _ _ _ _ w name _
             (get_or_create_first_try svc self name None w c retries Hc Hf1)).
  cbv zeta. cbn [client conn_calls rpc_calls uuid_calls collections trace].
  rewrite Hf2. unfold successful_access. by rewrite <- app_assoc.
Qed.

Lemma query_collection_first_try name q n wh wd w c :
  client w = Some c →
  rpc_fault svc (rpc_calls w) = None → rpc_fault svc (S (rpc_calls w)) = None →
  query_collection svc self name q n wh wd w =
    (Returned (query_reply svc (S (rpc_calls w))),
     World (client w) (conn_calls w) (S (S (rpc_calls w))) (uuid_calls w)
           (if bool_decide (name ∈ collections w) then collections w
            else collections w ++ [name])
           (trace w ++ [EvGetOrCreate name None; EvLog INFO (CollectionAccessed name);
                        EvQuery name (match q with QStr s => QList [s] | QList l => QList l end)
                                n wh wd;
                        EvLog INFO (Queried name)])).
Proof.
  intros Hc Hf1 Hf2.
  rewrite (query_collection_after_access svc self _ _ _ _ _ w name _
             (get_or_create_first_try svc self name None w c retries Hc Hf1)).
  cbv zeta. cbn [client conn_calls rpc_calls uuid_calls collections trace].
  rewrite Hf2. unfold successful_access. by rewrite <- app_assoc.
Qed.

End FirstTry.

Lemma registered_in (name : string) (cs : list string) :
  name ∈ (if bool_decide (name ∈ cs) then cs else cs ++ [name]).
Proof.
  case_bool_decide; [done|]. apply elem_of_app. right. apply list_elem_of_here.
Qed.

Section DemoHappy.

Variable svc : service.
Variable proc : process.

(** X22.  Against a service that accepts the connection and answers the
    eight requests of the script, with the port text an integer and with
    answers that hold a document list per query text: [main] returns.  It
    has connected at the first attempt without sleeping, loaded the
    fifteen documents under the identifiers [doc_1] to [doc_15], and sent
    three queries to ["sample_collection"], each after a get-or-create of
    that collection: the two single texts wrapped into one-element lists
    (the second with the filter on source ["Superheroes"], both for three
    results) and the two-text list for two results.  It has printed the
    headers and, under each, the documents of the answer it belongs to. *)
Theorem demo_main_happy_path (w : world) (c0 : list demo_line) (p : Z)
    (d1 d2 d3 d4 : list string) (r1 r2 r3 : list (list string)) :
  int proc (environ_get proc "CHROMA_PORT" "8000") = inr p →
  connect_outcome svc (conn_calls w) = Alive →
  (∀ k, (k < 8)%nat → rpc_fault svc (rpc_calls w + k) = None) →
  res_documents (query_reply svc (rpc_calls w + 3)) = d1 :: r1 →
  res_documents (query_reply svc (rpc_calls w + 5)) = d2 :: r2 →
  res_documents (query_reply svc (rpc_calls w + 7)) = d3 :: d4 :: r3 →
  ∃ w' evs documents metadatas,
    AppClient.main svc proc (Session w c0) =
      (Returned tt,
       Session w'
         (c0 ++ [DemoLoaded; DemoSpaceHeader] ++ (DemoBullet <$> d1) ++
          [DemoSuperheroHeader] ++ (DemoBullet <$> d2) ++
          [DemoMultiHeader; DemoAnimalsHeader] ++ (DemoBullet <$> d3) ++
          [DemoMoviesHeader] ++ (DemoBullet <$> d4))) ∧
    trace w' = trace w ++ evs ∧
    requests evs =
      [EvHttpClient (environ_get proc "CHROMA_HOST" "chroma") p;
       EvHeartbeat (conn_calls w);
       EvGetOrCreate "sample_collection" None;
       EvAdd "sample_collection" documents (Some metadatas) (doc_ids 15) None;
       EvGetOrCreate "sample_collection" None;
       EvQuery "sample_collection" (QList ["Give me some facts about space"]) 3
               None None;
       EvGetOrCreate "sample_collection" None;
       EvQuery "sample_collection" (QList ["Tell me about superheroes"]) 3
               (Some {[ "source" := PStr "Superheroes" ]}) None;
       EvGetOrCreate "sample_collection" None;
       EvQuery "sample_collection"
               (QList ["Tell me about animals"; "Tell me about movies"]) 2
               None None] ∧
    length documents = 15%nat ∧ length metadatas = 15%nat ∧
    sleeps evs = [] ∧
    "sample_collection" ∈ collections w'.
Proof.
  intros Hport Halive Hf Hr1 Hr2 Hr3.
  pose proof (Hf 0%nat ltac:(lia)) as H0. pose proof (Hf 1%nat ltac:(lia)) as H1.
  pose proof (Hf 2%nat ltac:(lia)) as H2. pose proof (Hf 3%nat ltac:(lia)) as H3.
  pose proof (Hf 4%nat ltac:(lia)) as H4. pose proof (Hf 5%nat ltac:(lia)) as H5.
  pose proof (Hf 6%nat ltac:(lia)) as H6. pose proof (Hf 7%nat ltac:(lia)) as H7.
  clear Hf. rewrite Nat.add_0_r in H0.
  replace (rpc_calls w + 1)%nat with (S (rpc_calls w)) in * by lia.
  replace (rpc_calls w + 2)%nat with (S (S (rpc_calls w))) in * by lia.
  replace (rpc_calls w + 3)%nat with (S (S (S (rpc_calls w)))) in * by lia.
  replace (rpc_calls w + 4)%nat with (S (S (S (S (rpc_calls w))))) in * by lia.
  replace (rpc_calls w + 5)%nat with (S (S (S (S (S (rpc_calls w)))))) in * by lia.
  replace (rpc_calls w + 6)%nat with (S (S (S (S (S (S (rpc_calls w))))))) in * by lia.
  replace (rpc_calls w + 7)%nat
    with (S (S (S (S (S (S (S (rpc_calls w)))))))) in * by lia.
  pose proof (registered_in "sample_collection" (collections w)) as Hin.
  set (cs := if bool_decide ("sample_collection" ∈ collections w) then collections w
             else collections w ++ ["sample_collection"]) in *.
  eexists _, _, _, _. split.
  { unfold AppClient.main. cbv zeta. rewrite demo_bind_unfold. unfold int_of.
    rewrite Hport. unfold mret at 1, Demo_ret at 1. cbv beta iota.
    unfold demo_try.
    erewrite demo_bind_lift by (by apply init_alive).
    erewrite demo_bind_lift
      by (unfold load_sample_data; cbv zeta;
          by eapply add_documents_first_try).
    cbn [client conn_calls rpc_calls uuid_calls collections trace]. fold cs.
    rewrite demo_bind_say.
    erewrite demo_bind_lift by (by eapply query_collection_first_try).
    cbn [client conn_calls rpc_calls uuid_calls collections trace].
    rewrite (bool_decide_eq_true_2 _ Hin).
    rewrite demo_bind_say, Hr1.
    erewrite demo_bind_lift by reflexivity. rewrite demo_bind_bullets.
    erewrite demo_bind_lift by (by eapply query_collection_first_try).
    cbn [client conn_calls rpc_calls uuid_calls collections trace].
    rewrite (bool_decide_eq_true_2 _ Hin).
    rewrite demo_bind_say, Hr2.
    erewrite demo_bind_lift by reflexivity. rewrite demo_bind_bullets.
    erewrite demo_bind_lift by (by eapply query_collection_first_try).
    cbn [client conn_calls rpc_calls uuid_calls collections trace].
    rewrite (bool_decide_eq_true_2 _ Hin).
    rewrite !demo_bind_say, Hr3.
    erewrite demo_bind_lift by reflexivity. rewrite demo_bind_bullets, demo_bind_say.
    erewrite demo_bind_lift by reflexivity. rewrite print_bullets_eq.
    apply (f_equal (pair (Returned tt))), (f_equal (Session _)).
    rewrite <- !(app_assoc (A := demo_line)). reflexivity. }
  cbn [trace collections]. rewrite <- !app_assoc.
  split; [reflexivity|]. split; [reflexivity|]. split; [reflexivity|].
  split; [reflexivity|]. split; [reflexivity|]. exact Hin.
Qed.

End DemoHappy.

(** ** A run against a service that is down *)

Lemma demo_bind_lift_raised {A B} (m : M A) (f : A → Demo B) w c e w' :
  m w = (Raised e, w') → (lift m ≫= f) (Session w c) = (Raised e, Session w' c).
Proof. intros H. rewrite demo_bind_unfold. unfold lift. cbn [remote console]. by rewrite H. Qed.

Section DemoDown.

Variable svc : service.
Variable proc : process.

(** X23.  When the port text is an integer and the first five connection
    attempts all fail, [main] gives up: it has made exactly five
    attempts, slept two seconds after each of the first four, sent no
    request and left the collections alone; it raises the
    [ConnectionError] built from the fifth failure, after logging it as
    its only line. *)
Theorem demo_main_service_down (w : world) (c0 : list demo_line) (p : Z) :
  int proc (environ_get proc "CHROMA_PORT" "8000") = inr p →
  (∀ j, (j < 5)%nat → attempt_error svc (conn_calls w + j) ≠ None) →
  ∃ e w' evs,
    attempt_error svc (conn_calls w + 4) = Some e ∧
    AppClient.main svc proc (Session w c0) =
      (Raised (ConnectionError ("Could not connect to ChromaDB: " +:+ str e)),
       Session w'
         (c0 ++ [DemoErrorOccurred ("Could not connect to ChromaDB: " +:+ str e)])) ∧
    trace w' = trace w ++ evs ∧
    connection_attempts evs = [1; 2; 3; 4; 5] ∧
    sleeps evs = [2; 2; 2; 2] ∧
    conn_calls w' = (conn_calls w + 5)%nat ∧
    rpc_calls w' = rpc_calls w ∧ collections w' = collections w.
Proof.
  intros Hport Hfail.
  set (self := Build_ChromaDBClient (environ_get proc "CHROMA_HOST" "chroma") p 5 2
                                    true false).
  set (w0 := World None (conn_calls w) (rpc_calls w) (uuid_calls w) (collections w)
                   (trace w)).
  destruct (connect_loop_retries svc self 4 0 w0 1)
    as (w1 & Hl & Hc1 & Ht1 & Hr1); [intros j Hj; apply Hfail; lia|done..|].
  cbn [conn_calls trace w0] in Hc1, Ht1.
  destruct (attempt_error svc (conn_calls w + 4)) as [e|] eqn:He;
    [|by destruct (Hfail 4%nat ltac:(lia))].
  destruct (connect_body_last svc self (0 + Z.of_nat 4) w1 e)
    as (w2 & Hb & Hc2 & Ht2 & Hr2); [by rewrite Hc1|done|].
  assert (_connect svc self w0 =
            (Raised (ConnectionError ("Could not connect to ChromaDB: " +:+ str e)), w2))
    as Hconn.
  { apply (connect_of_loop_raised svc self 5); [|done].
    change 5%nat with (4 + 1)%nat. rewrite Hl.
    eapply while_loop_raise; [done|exact Hb]. }
  assert (__init__ svc (environ_get proc "CHROMA_HOST" "chroma") p 5 2 true false w =
            (Raised (ConnectionError ("Could not connect to ChromaDB: " +:+ str e)), w2))
    as Hinit.
  { unfold __init__. cbv zeta. rewrite bind_unfold. unfold set_client at 1.
    cbv beta iota. fold self w0. by rewrite (bind_eq _ _ _ _ _ Hconn). }
  exists e, w2, (retried_attempts svc self (conn_calls w) 0 4 ++
                 failed_attempt svc self (conn_calls w + 4) 5 ++
                 [EvLog ERROR (FailedToConnect 5)]).
  split; [done|]. split.
  { unfold AppClient.main. cbv zeta. rewrite demo_bind_unfold. unfold int_of.
    rewrite Hport. unfold mret at 1, Demo_ret at 1. cbv beta iota.
    unfold demo_try. by rewrite (demo_bind_lift_raised _ _ _ _ _ _ Hinit). }
  split; [rewrite Ht2, Ht1, Hc1; by rewrite <- !app_assoc|].
  split.
  { rewrite !connection_attempts_app, connection_attempts_retried,
      connection_attempts_failed_attempt. reflexivity. }
  split.
  { rewrite !sleeps_app, sleeps_retried_attempts, sleeps_failed_attempt. reflexivity. }
  unfold same_remote in Hr1, Hr2. cbn [rpc_calls collections w0] in Hr1.
  split; [lia|]. split; [intuition congruence|intuition congruence].
Qed.

End DemoDown.

Lemma demo_main_happy_path_witness :
  ∃ w', AppClient.main talkative plain_process (Session fresh_world []) =
          (Returned tt,
           Session w' [DemoLoaded; DemoSpaceHeader; DemoBullet "a";
                       DemoSuperheroHeader; DemoBullet "a";
                       DemoMultiHeader; DemoAnimalsHeader; DemoBullet "a";
                       DemoMoviesHeader; DemoBullet "b"]) ∧
        "sample_collection" ∈ collections w'.
Proof.
  destruct (demo_main_happy_path talkative plain_process fresh_world [] 8000
              ["a"] ["a"] ["a"] ["b"] [["b"]] [["b"]] [])
    as (w' & evs & documents & metadatas & Hrun & _ & _ & _ & _ & _ & Hin);
    [reflexivity|reflexivity|done|reflexivity|reflexivity|reflexivity|].
  exists w'. split; [exact Hrun|exact Hin].
Defined.

Lemma demo_main_service_down_witness :
  ∃ w', AppClient.main down plain_process (Session fresh_world []) =
          (Raised (ConnectionError "Could not connect to ChromaDB: boom"),
           Session w' [DemoErrorOccurred "Could not connect to ChromaDB: boom"]) ∧
        conn_calls w' = 5%nat.
Proof.
  destruct (demo_main_service_down down plain_process fresh_world [] 8000)
    as (e & w' & evs & He & Hrun & _ & _ & _ & Hc & _); [reflexivity|done|].
  vm_compute in He. injection He as <-.
  exists w'. split; [exact Hrun|exact Hc].
Defined.

(** * The fallback to the first listed collection *)

(** C9, as stated, fails: the script also exits with a nonzero status
    while a collection exists, when the info lookup of the collection it
    fell back to fails. *)
Lemma main_exits_nonzero_with_a_collection :
  (arg_collection default_args ∉ collections other_world) ∧
  collections other_world = ["other"] ∧
  (main flaky default_args other_world).1 = Exited 1.
Proof.
  split; [|by vm_compute].
  intros H. apply list_elem_of_singleton in H. discriminate H.
Qed.

Section Fallback.

Variable svc : service.

(** The info lookup: what it returns, and whom it asks. *)
Lemma get_collection_info_run h name q w :
  ∃ w' evs,
    get_collection_info svc h name w =
      (Returned (match info_failure svc name w with
                 | Some _ => ∅
                 | None => {[ "name" := PStr name;
                              "count" := PInt (count_reply svc (S (rpc_calls w))) ]}
                 end), w') ∧
    collections w' = collections w ∧
    trace w' = trace w ++ evs ∧
    lookups evs = [name] ∧ dispatched_queries evs = [] ∧
    Forall (targets name q) evs.
Proof.
  destruct (get_collection_info_eq svc h name w)
    as (w' & evs & Hrun & Hco & _ & Ht & Hl & Hd & _).
  destruct (emits_get_collection_info svc h name q w)
    as (o & w2 & evs2 & Hrun2 & Ht2 & Hev & _).
  rewrite Hrun in Hrun2. injection Hrun2 as <- <-.
  rewrite Ht in Ht2. apply app_inv_head in Ht2 as <-.
  by exists w', evs.
Qed.

(** The query: it returns, after one lookup, and asks nobody else. *)
Lemma run_basic_query_run h name q w :
  ∃ r w' evs,
    run_basic_query svc h name q 3 w = (Returned r, w') ∧
    trace w' = trace w ++ evs ∧
    lookups evs = [name] ∧
    dispatched_queries evs =
      (if bool_decide (rpc_fault svc (rpc_calls w) = None ∧ name ∈ collections w)
       then [(name, QStr q)] else []) ∧
    Forall (targets name q) evs.
Proof.
  destruct (run_basic_query_requests svc h name q 3 w)
    as (r & w' & evs & Hrun & _ & _ & Ht & Hl & Hd).
  destruct (emits_run_basic_query svc h name q w)
    as (o & w2 & evs2 & Hrun2 & Ht2 & Hev & _).
  rewrite Hrun in Hrun2. injection Hrun2 as <- <-.
  rewrite Ht in Ht2. apply app_inv_head in Ht2 as <-.
  by exists r, w', evs.
Qed.

(** C9, amended.  With a [--collection] name the service does not hold,
    the script never asks for that name: every lookup, count, peek and
    query is made for the first listed collection.  Once connected and
    given the list: with no collection it exits with status 1 without a
    lookup; otherwise it looks the first collection up, exits with status
    1 when that info lookup fails, and else looks it up again for the
    query and ends with status 0.  So its status is nonzero exactly when
    the connection, the listing or that info lookup fails, or no
    collection exists. *)
Theorem main_falls_back_to_first_collection (a : args) (w : world) :
  arg_collection a ∉ collections w →
  let at_lookup := World (client w) (S (conn_calls w)) (S (rpc_calls w))
                         (uuid_calls w) (collections w) [] in
  ∃ o w' evs,
    main svc a w = (o, w') ∧ trace w' = trace w ++ evs ∧
    Forall (targets (default "" (head (collections w))) (arg_query a)) evs ∧
    (connect_outcome svc (conn_calls w) = Alive → rpc_fault svc (rpc_calls w) = None →
     match collections w with
     | [] =>
         o = Exited 1 ∧ lookups evs = [] ∧ dispatched_queries evs = [] ∧
         last evs = Some (EvPrint OutNotInitialized)
     | first :: _ =>
         match info_failure svc first at_lookup with
         | Some _ =>
             o = Exited 1 ∧ lookups evs = [first] ∧ dispatched_queries evs = [] ∧
             last evs = Some (EvPrint (OutNoAccess first))
         | None =>
             o = Returned tt ∧ lookups evs = [first; first] ∧
             ((∀ k, rpc_fault svc k = None) →
              dispatched_queries evs = [(first, QStr (arg_query a))])
         end
     end) ∧
    (exit_status o ≠ Some 0 ↔
       attempt_error svc (conn_calls w) ≠ None ∨
       rpc_fault svc (rpc_calls w) ≠ None ∨
       collections w = [] ∨
       ∃ first, head (collections w) = Some first ∧
                info_failure svc first at_lookup ≠ None).
Proof.
  intros Hmiss at_lookup. unfold main. rewrite bind_unfold, connect_to_chroma_eq.
  cbv zeta. unfold attempt_error.
  destruct (connect_outcome svc (conn_calls w)) as [e|e|] eqn:Ho.
  1,2: eexists _, _, _; (split; [reflexivity|]); (split; [reflexivity|]);
       (split; [by repeat constructor|]); (split; [done|]);
       split; [intros _; by left|done].
  cbv beta iota.
  destruct (rpc_fault svc (rpc_calls w)) as [e|] eqn:Hf.
  { unfold list_collections, client_list_collections.
    rewrite bind_unfold, bind_assoc, bind_unfold, rpc_eq. cbn [rpc_calls].
    rewrite Hf. eexists _, _, _. split; [reflexivity|].
    cbn [trace]. rewrite <- app_assoc. split; [reflexivity|].
    split; [by repeat constructor|]. split; [done|].
    split; [intros _; right; by left|done]. }
  match goal with |- context [(list_collections svc ?h ≫= _) ?w1] =>
    destruct (list_collections_eq svc h w1 Hf) as (evs & Hrun & Hp) end.
  cbn [client conn_calls rpc_calls uuid_calls collections trace] in Hrun.
  erewrite bind_eq by exact Hrun. cbv beta iota.
  assert (Forall (targets (default "" (head (collections w))) (arg_query a))
            ([EvPrint (OutConnecting (arg_host a) (arg_port a));
              EvHttpClient (arg_host a) (arg_port a);
              EvHeartbeat (conn_calls w); EvPrint OutConnected] ++
             EvListCollections :: evs)) as Hpre.
  { apply Forall_app. split; [by repeat constructor|].
    constructor; [done|]. by apply printed_emits. }
  destruct (collections w) as [|first rest] eqn:Hcs.
  - cbv beta iota. rewrite bind_assoc, bind_print.
    eexists _, _, _. split; [reflexivity|]. cbn [trace add_events].
    split; [rewrite <- !(app_assoc (A := event)); reflexivity|]. split.
    { rewrite app_assoc. apply Forall_app. split; [exact Hpre|by repeat constructor]. }
    split.
    + intros _ _. split; [done|]. split; [|split].
      * cbn. rewrite lookups_app, (printed_lookups evs) by done. reflexivity.
      * cbn. rewrite dispatched_queries_app, (printed_dispatched_queries evs) by done.
        reflexivity.
      * by rewrite app_assoc, last_app.
    + split; [intros _; right; right; by left|done].
  - cbv beta iota. rewrite bind_ret. rewrite bool_decide_eq_false_2 by done.
    cbn [index0]. rewrite bind_ret.
    match goal with |- context [(get_collection_info svc ?h ?name ≫= _) ?w2] =>
      destruct (get_collection_info_run h name (arg_query a) w2)
        as (w3 & evs2 & Hrun2 & Hco & Ht & Hl & Hd & Hev2) end.
    change (info_failure svc first _) with (info_failure svc first at_lookup) in Hrun2.
    cbn [client conn_calls rpc_calls uuid_calls collections trace] in Hrun2, Hco, Ht.
    cbn [head default] in Hpre |- *.
    destruct (info_failure svc first at_lookup) as [e|] eqn:Hif.
    + erewrite bind_eq by exact Hrun2. cbv beta iota.
      rewrite bool_decide_eq_true_2 by done. rewrite bind_assoc, bind_print.
      eexists _, _, _. split; [reflexivity|]. cbn [trace add_events]. rewrite Ht.
      split; [rewrite <- !(app_assoc (A := event)); reflexivity|]. split.
      { rewrite !app_assoc. apply Forall_app. split; [|by repeat constructor].
        apply Forall_app. split; [exact Hpre|exact Hev2]. }
      split.
      * intros _ _. split; [done|]. split; [|split].
        -- cbn. rewrite !lookups_app, (printed_lookups evs), Hl by done. reflexivity.
        -- cbn. rewrite !dispatched_queries_app, (printed_dispatched_queries evs), Hd
             by done. reflexivity.
        -- by rewrite !app_assoc, last_app.
      * split; [|done]. intros _. right. right. right. exists first. by rewrite Hif.
    + erewrite bind_eq by exact Hrun2. cbv beta iota.
      rewrite bool_decide_eq_false_2 by apply info_nonempty.
      rewrite bind_ret.
      destruct (run_basic_query_run (conn_calls w) first (arg_query a) w3)
        as (r & w4 & evs3 & Hrun3 & Ht3 & Hl3 & Hd3 & Hev3).
      erewrite bind_eq by exact Hrun3. cbv beta iota.
      eexists _, _, _. split; [reflexivity|]. rewrite Ht3, Ht.
      split; [rewrite <- !(app_assoc (A := event)); reflexivity|]. split.
      { rewrite !app_assoc. apply Forall_app. split; [|exact Hev3].
        apply Forall_app. split; [exact Hpre|exact Hev2]. }
      split.
      * intros _ _. split; [done|]. split.
        -- cbn. rewrite !lookups_app, (printed_lookups evs), Hl, Hl3 by done. reflexivity.
        -- intros Hnone. cbn.
           rewrite !dispatched_queries_app, (printed_dispatched_queries evs), Hd, Hd3
             by done.
           rewrite bool_decide_eq_true_2; [reflexivity|].
           split; [apply Hnone|rewrite Hco; apply list_elem_of_here].
      * split; [done|]. intros [?|[?|[?|(f & Hh & Hne)]]]; try done.
        injection Hh as <-. by rewrite Hif in Hne.
Qed.

End Fallback.

Lemma main_falls_back_to_first_collection_witness :
  ∃ w', main healthy default_args other_world = (Returned tt, w') ∧
        lookups (trace w') = ["other"; "other"] ∧
        dispatched_queries (trace w') = [("other", QStr "space")].
Proof.
  destruct (main_falls_back_to_first_collection healthy default_args other_world)
    as (o & w' & evs & Hrun & Ht & _ & Hcases & _).
  - intros H. apply list_elem_of_singleton in H. discriminate H.
  - destruct Hcases as (-> & Hl & Hd); [reflexivity..|].
    exists w'. rewrite Ht. split; [exact Hrun|]. split; [exact Hl|]. by apply Hd.
Defined.
